(** * A model of the grading harness [grader.py]

    The harness discovers submissions in the working directory, loads each
    one, runs its [main] under a timeout with a scripted [input], records a
    transcript, and archives everything in a per-submission folder.

    The development has three layers:
    - [PyStr]: the string methods the harness calls ([strip], [rstrip],
      [replace], [splitlines], [readlines], [join], ...), over sequences
      of Unicode code points;
    - the world the harness runs in (file system, console, the installed
      [input] function) and a small state-and-exception monad over it;
    - the harness functions themselves, one definition per source function,
      followed by the properties proved about them.

    Modelling choices:
    - a string is the list of its code points, a file holds decoded text,
      and writing a file changes no line end;
    - the console and the files the harness writes take text as UTF-8;
      [print] and [write_file] describe the calls on text that encodes
      ([plain]), and a property that depends on a text being printed or
      written assumes that the text encodes, or proves it;
    - the file system is a finite map from paths relative to the working
      directory to files and directories; the library calls ([os.makedirs],
      [open], [shutil.move], [os.listdir]) are modelled on such paths;
    - an exception is known by whether it is an instance of [Exception], by
      [str(e)] and by its formatted trace;
    - the worker thread runs while the controlling thread waits in [join],
      so a run is a sequence of steps of the submission up to the point
      where it ends or the timeout expires; what an abandoned worker does
      after that point is not followed;
    - loading a module has no effect of its own on the world: it yields a
      module or raises. *)

From Stdlib Require Import String Ascii DecimalString.
From stdpp Require Import gmap list.

(** Python [str]: a sequence of code points. *)
Abbreviation pystr := (list N).

(** ** String methods *)
Module PyStr.
Local Open Scope N_scope.

(** A literal of the source text. *)
Definition py (s : string) : pystr :=
  (fun a => N_of_ascii a) <$> list_ascii_of_string s.
Arguments py s%_string : simpl never.

(** ["\n"], which a literal cannot hold. *)
Definition nl : pystr := [10].

(** [str(n)] for a non-negative integer. *)
Definition decimal (n : N) : pystr :=
  py (NilZero.string_of_uint (N.to_uint n)).

(** The characters [str.strip] and [str.rstrip] remove when called without
    an argument: those for which [str.isspace] holds. *)
Definition isspace (c : N) : bool :=
  ((9 <=? c) && (c <=? 13)) || ((28 <=? c) && (c <=? 32))
  || (c =? 133) || (c =? 160) || (c =? 5760)
  || ((8192 <=? c) && (c <=? 8202))
  || (c =? 8232) || (c =? 8233) || (c =? 8239) || (c =? 8287)
  || (c =? 12288).

(** The line boundaries of [str.splitlines]. *)
Definition islinebreak (c : N) : bool :=
  ((10 <=? c) && (c <=? 13)) || ((28 <=? c) && (c <=? 30))
  || (c =? 133) || (c =? 8232) || (c =? 8233).

Definition is_empty (s : pystr) : bool :=
  match s with [] => true | _ :: _ => false end.

(** Truth value of a string in a condition: non-empty. *)
Definition truthy (s : pystr) : bool := negb (is_empty s).

Fixpoint lstrip (s : pystr) : pystr :=
  match s with
  | [] => []
  | c :: r => if isspace c then lstrip r else s
  end.

Fixpoint rstrip (s : pystr) : pystr :=
  match s with
  | [] => []
  | c :: r =>
      let r' := rstrip r in
      if isspace c && is_empty r' then [] else c :: r'
  end.

Definition strip (s : pystr) : pystr := rstrip (lstrip s).

Fixpoint startswith (p s : pystr) : bool :=
  match p, s with
  | [], _ => true
  | _ :: _, [] => false
  | a :: p', b :: s' => (a =? b) && startswith p' s'
  end.

Definition endswith (suffix s : pystr) : bool :=
  startswith (reverse suffix) (reverse s).

(** [s.replace(old, new)]: every non-overlapping occurrence, scanning from
    the left.  [skip] counts the characters of an occurrence still to be
    passed over. *)
Fixpoint replace_from (old new : pystr) (skip : nat) (s : pystr) : pystr :=
  match s with
  | [] => []
  | c :: r =>
      match skip with
      | S k => replace_from old new k r
      | O =>
          if startswith old s
          then new ++ replace_from old new (pred (length old)) r
          else c :: replace_from old new 0 r
      end
  end.

Definition replace (old new s : pystr) : pystr :=
  match old with
  | [] => new ++ flat_map (fun c => c :: new) s
  | _ :: _ => replace_from old new 0 s
  end.

(** [s.splitlines()]: the lines of [s] without their terminators; a
    carriage return followed by a line feed is one terminator. *)
Fixpoint splitlines (s : pystr) : list pystr :=
  match s with
  | [] => []
  | c :: r =>
      if islinebreak c then
        match r with
        | d :: r' =>
            if (c =? 13) && (d =? 10) then [] :: splitlines r'
            else [] :: splitlines r
        | [] => [[]]
        end
      else
        match splitlines r with
        | [] => [[c]]
        | l :: ls => (c :: l) :: ls
        end
  end.

(** [sep.join(l)]. *)
Fixpoint join (sep : pystr) (l : list pystr) : pystr :=
  match l with
  | [] => []
  | [x] => x
  | x :: rest => x ++ sep ++ join sep rest
  end.

(** Reading in text mode with universal newlines: a carriage return, alone
    or followed by a line feed, reads as a line feed. *)
Fixpoint translate_newlines (s : pystr) : pystr :=
  match s with
  | [] => []
  | c :: r =>
      if c =? 13 then
        match r with
        | d :: r' => if d =? 10 then 10 :: translate_newlines r'
                     else 10 :: translate_newlines r
        | [] => [10]
        end
      else c :: translate_newlines r
  end.

(** [f.readlines()] on already translated text: the lines of the file,
    each with its line feed. *)
Fixpoint readlines (s : pystr) : list pystr :=
  match s with
  | [] => []
  | c :: r =>
      if c =? 10 then [c] :: readlines r
      else
        match readlines r with
        | [] => [[c]]
        | l :: ls => (c :: l) :: ls
        end
  end.

End PyStr.
Import PyStr.

(** ** Exceptions, values and the world *)

(** A raised exception, as far as the harness looks at it: whether it is an
    instance of [Exception] (the exit request of [sys.exit()] and a keyboard
    interrupt are not), [str(e)], and the text [traceback.format_exc()]
    returns while it is being handled. *)
Record py_exn := {
  exn_is_exception : bool;
  exn_str : pystr;
  exn_traceback : pystr
}.

(** The value a callable returns. *)
Inductive pyval :=
| PyNone
| PyInt (z : Z)
| PyStr (s : pystr).

(** Outcome of an operation that may raise. *)
Inductive res (A : Type) :=
| Ok (a : A)
| Exc (e : py_exn).
Arguments Ok {A} a.
Arguments Exc {A} e.

(** An entry of the file system.  Paths are relative to the working
    directory, with components separated by ["/"]. *)
Inductive node :=
| File (content : pystr)
| Dir.

(** What [builtins.input] is bound to. *)
Inductive input_fn :=
| terminal_input
| mock_input_fn (input_prompts : list pystr).

Record world := {
  fs : gmap pystr node;
  builtins_input : input_fn;
  console : list pystr;          (* what the harness printed *)
  stderr : list pystr;
  thread_fault : option py_exn   (* raised by starting or joining a thread *)
}.

Definition set_fs (f : gmap pystr node -> gmap pystr node) (w : world) : world :=
  {| fs := f (fs w); builtins_input := builtins_input w;
     console := console w; stderr := stderr w;
     thread_fault := thread_fault w |}.

Definition set_builtins_input (i : input_fn) (w : world) : world :=
  {| fs := fs w; builtins_input := i;
     console := console w; stderr := stderr w;
     thread_fault := thread_fault w |}.

(** ** Computations that change the world and may raise *)

Definition M (A : Type) : Type := world -> res A * world.

Definition ret {A} (a : A) : M A := fun w => (Ok a, w).

Definition bind {A B} (m : M A) (k : A -> M B) : M B :=
  fun w =>
    match m w with
    | (Ok a, w') => k a w'
    | (Exc e, w') => (Exc e, w')
    end.

Definition raise {A} (e : py_exn) : M A := fun w => (Exc e, w).

(** [try: m  except Exception as e: h e]. *)
Definition try_except {A} (m : M A) (h : py_exn -> M A) : M A :=
  fun w =>
    match m w with
    | (Ok a, w') => (Ok a, w')
    | (Exc e, w') => if exn_is_exception e then h e w' else (Exc e, w')
    end.

Definition when (b : bool) (m : M unit) : M unit :=
  if b then m else ret tt.

Fixpoint for_each {A} (l : list A) (body : A -> M unit) : M unit :=
  match l with
  | [] => ret tt
  | x :: rest => bind (body x) (fun _ => for_each rest body)
  end.

Declare Scope grader_scope.
Delimit Scope grader_scope with grader.
Notation "'let*' x ':=' m 'in' k" := (bind m (fun x => k))
  (at level 10, x pattern, k at level 200) : grader_scope.
Local Open Scope grader_scope.

(** [print(s)] on the harness's own standard output, for text the console
    can encode. *)
Definition print (s : pystr) : M unit :=
  fun w => (Ok tt,
            {| fs := fs w; builtins_input := builtins_input w;
               console := console w ++ [s]; stderr := stderr w;
               thread_fault := thread_fault w |}).

(** [traceback.print_exc()] while handling [e]. *)
Definition print_exc (e : py_exn) : M unit :=
  fun w => (Ok tt,
            {| fs := fs w; builtins_input := builtins_input w;
               console := console w; stderr := stderr w ++ [exn_traceback e];
               thread_fault := thread_fault w |}).

(** ** The file-system calls the harness makes *)
Module OS.
Local Open Scope N_scope.

Definition slash : N := 47.

Definition os_error (cls : string) (msg : pystr) : py_exn :=
  {| exn_is_exception := true;
     exn_str := msg;
     exn_traceback :=
       py "Traceback (most recent call last):" ++ nl
          ++ py cls ++ py ": " ++ msg ++ nl |}.

Definition quoted (p : pystr) : pystr := py "'" ++ p ++ py "'".

Definition FileNotFoundError (p : pystr) : py_exn :=
  os_error "FileNotFoundError"
           (py "[Errno 2] No such file or directory: " ++ quoted p).
Definition FileExistsError (p : pystr) : py_exn :=
  os_error "FileExistsError" (py "[Errno 17] File exists: " ++ quoted p).
Definition NotADirectoryError (p : pystr) : py_exn :=
  os_error "NotADirectoryError" (py "[Errno 20] Not a directory: " ++ quoted p).
Definition IsADirectoryError (p : pystr) : py_exn :=
  os_error "IsADirectoryError" (py "[Errno 21] Is a directory: " ++ quoted p).
Definition DirectoryNotEmpty (p : pystr) : py_exn :=
  os_error "OSError" (py "[Errno 39] Directory not empty: " ++ quoted p).
Definition DestinationExists (p : pystr) : py_exn :=
  os_error "shutil.Error"
           (py "Destination path " ++ quoted p ++ py " already exists").

(** A path cut at its last separator: directory part and last component. *)
Fixpoint split (p : pystr) : option (pystr * pystr) :=
  match p with
  | [] => None
  | c :: r =>
      match split r with
      | Some (d, b) => Some (c :: d, b)
      | None => if c =? slash then Some ([], r) else None
      end
  end.

Definition basename (p : pystr) : pystr :=
  match split p with Some (_, b) => b | None => p end.

(** [os.path.join(a, b)]. *)
Definition path_join (a b : pystr) : pystr :=
  if startswith [slash] b then b
  else if is_empty a || endswith [slash] a then a ++ b
  else a ++ [slash] ++ b.

(** The directory a path lies in exists: the working directory for a
    single component, otherwise the directory part. *)
Definition parent_is_dir (m : gmap pystr node) (p : pystr) : bool :=
  match split p with
  | None => true
  | Some (d, _) => match m !! d with Some Dir => true | _ => false end
  end.

Definition exists_in (m : gmap pystr node) (p : pystr) : bool :=
  match m !! p with Some _ => true | None => false end.

Definition isdir_in (m : gmap pystr node) (p : pystr) : bool :=
  match m !! p with Some Dir => true | _ => false end.

(** [os.path.exists(p)]. *)
Definition path_exists (p : pystr) : M bool :=
  fun w => (Ok (exists_in (fs w) p), w).

(** The proper prefixes of a path that end before a separator. *)
Fixpoint ancestors_from (seen p : pystr) : list pystr :=
  match p with
  | [] => []
  | c :: r =>
      if c =? slash then seen :: ancestors_from (seen ++ [c]) r
      else ancestors_from (seen ++ [c]) r
  end.

Definition ancestors (p : pystr) : list pystr := ancestors_from [] p.

Definition is_file_in (m : gmap pystr node) (p : pystr) : bool :=
  match m !! p with Some (File _) => true | _ => false end.

(** The directory part of a path is a regular file. *)
Definition parent_is_file (m : gmap pystr node) (p : pystr) : bool :=
  match split p with
  | None => false
  | Some (d, _) => is_file_in m d
  end.

(** [os.makedirs(p)]: creates [p] and the directories leading to it;
    raises when [p] exists already. *)
Definition makedirs (p : pystr) : M unit :=
  fun w =>
    if is_empty p then (Exc (FileNotFoundError p), w)
    else if exists_in (fs w) p then (Exc (FileExistsError p), w)
    else if existsb (is_file_in (fs w)) (ancestors p)
         then (Exc (NotADirectoryError p), w)
    else (Ok tt,
          set_fs (fun m => <[p := Dir]> (foldr (fun d m' => <[d := Dir]> m')
                                               m (ancestors p))) w).

(** [with open(p, 'r') as f: f.read()], before newline translation. *)
Definition read_file (p : pystr) : M pystr :=
  fun w =>
    match fs w !! p with
    | Some (File c) => (Ok c, w)
    | Some Dir => (Exc (IsADirectoryError p), w)
    | None => (Exc (FileNotFoundError p), w)
    end.

(** [with open(p, 'w') as f: f.write(text)], for text the file can
    encode. *)
Definition write_file (p text : pystr) : M unit :=
  fun w =>
    if isdir_in (fs w) p then (Exc (IsADirectoryError p), w)
    else if is_empty p then (Exc (FileNotFoundError p), w)
    else if parent_is_dir (fs w) p
         then (Ok tt, set_fs (fun m => <[p := File text]> m) w)
    else if parent_is_file (fs w) p then (Exc (NotADirectoryError p), w)
    else (Exc (FileNotFoundError p), w).

Definition has_children (m : gmap pystr node) (p : pystr) : bool :=
  existsb (fun k => startswith (p ++ [slash]) k) (map fst (map_to_list m)).

(** Every entry at or below [src] re-rooted at [dst]. *)
Definition move_tree (src dst : pystr) (m : gmap pystr node)
  : gmap pystr node :=
  list_to_map
    (map (fun kv : pystr * node =>
            (if bool_decide (kv.1 = src) then dst
             else if startswith (src ++ [slash]) kv.1
                  then dst ++ drop (length src) kv.1
                  else kv.1, kv.2))
         (map_to_list m)).

(** [os.rename(src, dst)]. *)
Definition rename (src dst : pystr) : M unit :=
  fun w =>
    match fs w !! src with
    | None => (Exc (FileNotFoundError src), w)
    | Some (File c) =>
        if isdir_in (fs w) dst then (Exc (IsADirectoryError dst), w)
        else if is_empty dst then (Exc (FileNotFoundError dst), w)
        else if parent_is_dir (fs w) dst
             then (Ok tt, set_fs (fun m => <[dst := File c]> (delete src m)) w)
        else if parent_is_file (fs w) dst
             then (Exc (NotADirectoryError dst), w)
        else (Exc (FileNotFoundError dst), w)
    | Some Dir =>
        if is_file_in (fs w) dst then (Exc (NotADirectoryError dst), w)
        else if has_children (fs w) dst then (Exc (DirectoryNotEmpty dst), w)
        else if is_empty dst then (Exc (FileNotFoundError dst), w)
        else if parent_is_dir (fs w) dst
             then (Ok tt, set_fs (move_tree src dst) w)
        else if parent_is_file (fs w) dst
             then (Exc (NotADirectoryError dst), w)
        else (Exc (FileNotFoundError dst), w)
    end.

(** [shutil.move(src, dst)]: into [dst] when that is a directory. *)
Definition shutil_move (src dst : pystr) : M unit :=
  fun w =>
    if isdir_in (fs w) dst then
      let real_dst := path_join dst (basename src) in
      if exists_in (fs w) real_dst
      then (Exc (DestinationExists real_dst), w)
      else rename src real_dst w
    else rename src dst w.

(** [os.listdir('.')]: the entries of the working directory. *)
Definition listdir (w : world) : list pystr :=
  filter (fun p => negb (is_empty p) && negb (existsb (N.eqb slash) p) = true)
         (map fst (map_to_list (fs w))).

End OS.
Import OS.

(** ** Submissions *)

(** What running a submission's [main] does, as far as the harness can
    observe: it writes to standard output, calls [input], changes files,
    and ends by returning or raising, unless the timeout expires first. *)
Inductive prog :=
| Return (v : pyval)
| Raise (e : py_exn)
| Emit (s : pystr) (k : prog)                 (* sys.stdout.write(s) *)
| Ask (prompt : pystr) (k : pystr -> prog)    (* x = input(prompt) *)
| Touch (f : gmap pystr node -> gmap pystr node) (k : prog)
| Outlast (k : prog).   (* the timeout expires here; [k] runs unobserved *)

(** A loaded module: its [main] attribute, if it has one. *)
Record module := { mod_main : option prog }.

Inductive load_result :=
| Loaded (m : module)
| LoadRaised (e : py_exn).

(** ** The capture state shared by [mock_input] and its caller *)

Record shim := {
  captured_lines : list pystr;
  input_idx : nat;
  stdout_buffer : pystr
}.

Definition extend_lines (st : shim) (lines : list pystr) : shim :=
  {| captured_lines := captured_lines st ++ lines;
     input_idx := input_idx st;
     stdout_buffer := stdout_buffer st |}.

(** How a call ended. *)
Inductive completion :=
| Returned (v : pyval)
| Raised (e : py_exn).

(** The worker thread as the controlling thread finds it after the join:
    finished, or still alive. *)
Inductive worker :=
| Finished (c : completion)
| Alive.

(** A zero-argument callable run on the worker thread: it acts on the
    capture state and the world. *)
Definition callable : Type := shim -> world -> worker * shim * world.

(** ** The harness *)
Section Harness.

(** What executing the text of a source file as a module yields. *)
Variable interp : pystr -> load_result.

(** [load_input_prompts()] *)
Definition load_input_prompts : M (list pystr) :=
  let* text := read_file (py "input.txt") in
  ret (map strip (readlines (translate_newlines text))).

(** [import_student_module(file_path)] *)
Definition import_student_module (file_path : pystr) : M module :=
  let* code := read_file file_path in
  match interp code with
  | Loaded m => ret m
  | LoadRaised e => raise e
  end.

(** [create_project_folder(project_name)] *)
Definition create_project_folder (project_name : pystr) : M pystr :=
  let folder_name := replace (py ".py") [] project_name in
  let* present := path_exists folder_name in
  let* _ := when (negb present) (makedirs folder_name) in
  ret folder_name.

(** The worker's [target()]: what it leaves in [result] and [error]. *)
Definition target (c : completion) (result : list pyval) (error : list pystr)
  : list pyval * list pystr :=
  match c with
  | Returned v => (result ++ [v], error)
  | Raised e =>
      if exn_is_exception e
      then (result, (error ++ [exn_str e]) ++ [exn_traceback e])
      else (result, error)
  end.

Definition timed_out_message (timeout_duration : N) : pystr :=
  py "Program execution timed out after " ++ decimal timeout_duration
     ++ py " seconds".

(** [run_with_timeout(func, timeout_duration=...)] *)
Definition run_with_timeout (func : callable) (timeout_duration : N)
           (st : shim) (w : world)
  : res (pyval * option (list pystr)) * shim * world :=
  match thread_fault w with
  | Some e => (Exc e, st, w)
  | None =>
      let '(thread, st', w') := func st w in
      match thread with
      | Alive => (Ok (PyNone, Some [timed_out_message timeout_duration]), st', w')
      | Finished c =>
          let '(result, error) := target c [] [] in
          match error with
          | _ :: _ => (Ok (PyNone, Some error), st', w')
          | [] => (Ok (match result with v :: _ => v | [] => PyNone end, None),
                   st', w')
          end
      end
  end.

(** [mock_input(prompt)] *)
Definition mock_input (input_prompts : list pystr) (prompt : pystr)
           (st : shim) : pystr * shim :=
  let stdout_content := stdout_buffer st in
  let st1 :=
    if truthy stdout_content
    then {| captured_lines := captured_lines st ++ splitlines stdout_content;
            input_idx := input_idx st;
            stdout_buffer := [] |}
    else st in
  let st2 :=
    if truthy prompt then extend_lines st1 [rstrip prompt] else st1 in
  if input_idx st2 <? length input_prompts
  then
    let value := default [] (input_prompts !! input_idx st2) in
    (value, {| captured_lines := captured_lines st2 ++ [value];
               input_idx := S (input_idx st2);
               stdout_buffer := stdout_buffer st2 |})
  else (py "9", st2).

(** Running [main] on the worker thread while standard output is
    redirected into the buffer.  [input] is looked up in [builtins] at each
    call; the interpreter's own [input] waits for a terminal line. *)
Fixpoint exec (p : prog) (st : shim) (w : world) : worker * shim * world :=
  match p with
  | Return v => (Finished (Returned v), st, w)
  | Raise e => (Finished (Raised e), st, w)
  | Emit s k =>
      exec k {| captured_lines := captured_lines st;
                input_idx := input_idx st;
                stdout_buffer := stdout_buffer st ++ s |} w
  | Ask prompt k =>
      match builtins_input w with
      | mock_input_fn input_prompts =>
          let '(value, st') := mock_input input_prompts prompt st in
          exec (k value) st' w
      | terminal_input => (Alive, st, w)
      end
  | Touch f k => exec k st (set_fs f w)
  | Outlast _ => (Alive, st, w)
  end.

(** Lines 108-110: the output still in the buffer goes to the transcript. *)
Definition final_flush (st : shim) : shim :=
  let final_output := stdout_buffer st in
  if truthy final_output then extend_lines st (splitlines final_output)
  else st.

Definition no_main_message : pystr :=
  py "Error: No main() function found in student's code".

(** The body of the [with contextlib.redirect_stdout(...)] block. *)
Definition redirected_block (m : module) (st : shim) (w : world)
  : res unit * shim * world :=
  match mod_main m with
  | Some main_prog =>
      match run_with_timeout (exec main_prog) 10 st w with
      | (Ok (_, error), st', w') =>
          let st'' :=
            match error with
            | Some ((_ :: _) as lines) => extend_lines st' lines
            | _ => st'
            end in
          (Ok tt, final_flush st'', w')
      | (Exc e, st', w') => (Exc e, st', w')
      end
  | None => (Ok tt, final_flush (extend_lines st [no_main_message]), w)
  end.

(** The [.txt] entries of the working directory. *)
Definition txt_files (w : world) : gset pystr :=
  list_to_set (filter (fun f => endswith (py ".txt") f = true) (listdir w)).

(** The loop of lines 128-133 over the new files, collecting the lines it
    appends to the transcript. *)
Fixpoint move_new_files (folder_name : pystr) (new_txt_files : list pystr)
         (lines : list pystr) : M (list pystr) :=
  match new_txt_files with
  | [] => ret lines
  | txt_file :: rest =>
      let* lines' :=
        try_except
          (let* present := path_exists txt_file in
           let* _ := when present
                       (shutil_move txt_file (path_join folder_name txt_file)) in
           ret lines)
          (fun e => ret (lines ++ [py "Error moving " ++ txt_file ++ py ": "
                                      ++ exn_str e])) in
      move_new_files folder_name rest lines'
  end.

(** Lines 119-135. *)
Definition harvest (initial_txt_files : gset pystr) (folder_name : pystr)
           (lines : list pystr) : M (list pystr) :=
  try_except
    (fun w =>
       let current_txt_files := txt_files w in
       let new_txt_files :=
         current_txt_files ∖ initial_txt_files ∖ {[ py "input.txt" ]} in
       move_new_files folder_name (elements new_txt_files) lines w)
    (fun e => ret (lines ++ [py "Error handling files: " ++ exn_str e])).

(** [capture_output_and_files(module, input_prompts, folder_name)] *)
Definition capture_output_and_files (m : module) (input_prompts : list pystr)
           (folder_name : pystr) : M (list pystr) :=
  fun w =>
    let st0 := {| captured_lines := []; input_idx := 0; stdout_buffer := [] |} in
    let initial_txt_files := txt_files w in
    let original_input := builtins_input w in
    let w1 := set_builtins_input (mock_input_fn input_prompts) w in
    (* try / except Exception *)
    let '(outcome, st, w2) :=
      match redirected_block m st0 w1 with
      | (Exc e, st, w') =>
          if exn_is_exception e
          then (Ok tt,
                extend_lines st [py "Error occurred: " ++ exn_str e;
                                 exn_traceback e], w')
          else (Exc e, st, w')
      | done => done
      end in
    (* finally *)
    let w3 := set_builtins_input original_input w2 in
    match harvest initial_txt_files folder_name (captured_lines st) w3 with
    | (Ok lines, w4) =>
        match outcome with
        | Ok _ => (Ok lines, w4)
        | Exc e => (Exc e, w4)
        end
    | (Exc e, w4) => (Exc e, w4)
    end.

Definition unbound_folder_name : py_exn :=
  os_error "UnboundLocalError"
    (py "cannot access local variable 'folder_name' where it is not associated with a value").

(** Lines 145-163: the rest of the [try] block once [folder_name] is
    bound. *)
Definition archive (project_file folder_name : pystr) : M unit :=
  let* m := import_student_module project_file in
  let* input_prompts := load_input_prompts in
  let* output := capture_output_and_files m input_prompts folder_name in
  let output_path := path_join folder_name (py "output.txt") in
  let* _ := write_file output_path (join nl output) in
  let* present := path_exists project_file in
  let* _ := when present
              (shutil_move project_file (path_join folder_name project_file)) in
  print (py "Successfully processed " ++ project_file).

(** Lines 166-182: the handler.  [folder_name] is bound only if
    [create_project_folder] returned. *)
Definition archive_failure (project_file : pystr) (folder : option pystr)
           (e : py_exn) : M unit :=
  let* _ := print (py "Failed to process " ++ project_file ++ py ": "
                      ++ exn_str e) in
  let* _ := print_exc e in
  try_except
    (let* folder_name :=
       match folder with
       | Some f => ret f
       | None => raise unbound_folder_name
       end in
     let* present := path_exists folder_name in
     let* _ := when (negb present) (makedirs folder_name) in
     let output_path := path_join folder_name (py "output.txt") in
     let* _ := write_file output_path
                 ((py "Error processing project: " ++ exn_str e ++ nl)
                    ++ exn_traceback e) in
     let* present' := path_exists project_file in
     when present'
          (shutil_move project_file (path_join folder_name project_file)))
    (fun move_error =>
       print (py "Failed to handle error case: " ++ exn_str move_error)).

(** [process_project(project_file)] *)
Definition process_project (project_file : pystr) : M unit :=
  fun w =>
    match create_project_folder project_file w with
    | (Ok folder_name, w1) =>
        try_except (archive project_file folder_name)
                   (archive_failure project_file (Some folder_name)) w1
    | (Exc e, w1) =>
        if exn_is_exception e
        then archive_failure project_file None e w1
        else (Exc e, w1)
    end.

(** The candidates [main] collects. *)
Definition python_files (w : world) : list pystr :=
  filter (fun f => endswith (py ".py") f && negb (bool_decide (f = py "grader.py")) = true)
         (listdir w).

(** [main()] *)
Definition main : M unit :=
  fun w =>
    let files := python_files w in
    (let* _ := print (py "Found " ++ decimal (N.of_nat (length files))
                         ++ py " Python files to process") in
     for_each files
       (fun project_file =>
          let* _ := print (nl ++ py "Processing " ++ project_file ++ py "...") in
          let* _ := process_project project_file in
          print (py "Completed processing " ++ project_file))) w.

End Harness.

(** ** Concrete inputs used in the examples below *)

Definition blank_shim : shim :=
  {| captured_lines := []; input_idx := 0; stdout_buffer := [] |}.

(** An empty working directory, the interpreter's own [input], threads
    start. *)
Definition quiet_world : world :=
  {| fs := ∅; builtins_input := terminal_input;
     console := []; stderr := []; thread_fault := None |}.

(** What [sys.exit()] raises: not an instance of [Exception]. *)
Definition exit_request : py_exn :=
  {| exn_is_exception := false;
     exn_str := [];
     exn_traceback := py "SystemExit" ++ nl |}.

Definition value_error : py_exn :=
  {| exn_is_exception := true;
     exn_str := py "invalid literal for int() with base 10: 'exit'";
     exn_traceback :=
       py "ValueError: invalid literal for int() with base 10: 'exit'" ++ nl |}.

(** A callable that does nothing but end in the given way. *)
Definition ends_with (t : worker) : callable := fun st w => (t, st, w).

(** A submission calling [input] several times: before each call it has
    written some text, and it passes a prompt.  Returns what the calls
    returned. *)
Fixpoint input_calls (input_prompts : list pystr)
         (calls : list (pystr * pystr)) (st : shim) : list pystr * shim :=
  match calls with
  | [] => ([], st)
  | (text, prompt) :: rest =>
      let st1 := {| captured_lines := captured_lines st;
                    input_idx := input_idx st;
                    stdout_buffer := stdout_buffer st ++ text |} in
      let '(value, st2) := mock_input input_prompts prompt st1 in
      let '(values, st3) := input_calls input_prompts rest st2 in
      (value :: values, st3)
  end.

(** Lines 84-85: what a call of [mock_input] records of its prompt. *)
Definition prompt_echo (prompt : pystr) : list pystr :=
  if truthy prompt then [rstrip prompt] else [].

(** A script of three lines and a capture state whose cursor stands on the
    second. *)
Definition demo_script : list pystr := [py "5"; py "3"; py "exit"].

Definition demo_shim : shim :=
  {| captured_lines := [py "5"]; input_idx := 1;
     stdout_buffer := py "You typed 5" ++ nl |}.

(** Made of white space only. *)
Definition blank (s : pystr) : Prop := Forall (fun c => isspace c = true) s.

(** Neither the first nor the last character is white space. *)
Definition trimmed (s : pystr) : Prop :=
  (forall c, head s = Some c -> isspace c = false)
  /\ (forall c, last s = Some c -> isspace c = false).

(** A line as [readlines] yields it: its only line feed, if any, ends it. *)
Definition text_line (l : pystr) : Prop :=
  exists body : pystr,
    Forall (fun c => c <> 10%N) body
    /\ (l = body ++ nl \/ (l = body /\ body <> [])).

(** A working directory holding only the input file with the given text. *)
Definition world_with_input (text : pystr) : world :=
  {| fs := {[ py "input.txt" := File text ]};
     builtins_input := terminal_input;
     console := []; stderr := []; thread_fault := None |}.

(** What no file-system call and no call of the submission changes: the
    function bound to [builtins.input] and whether threads start; and what
    was printed stays printed. *)
Definition same_env (w w' : world) : Prop :=
  builtins_input w' = builtins_input w
  /\ thread_fault w' = thread_fault w
  /\ console w `prefix_of` console w'.

Definition keeps_env {A} (m : M A) : Prop :=
  forall w, same_env w (m w).2.

(** ** The conversation a run amounts to

    Read off the submission alone, without buffer or flushes: the text it
    writes before each call of [input] together with the lines that call
    records, and the text it writes after the last call. *)

Fixpoint dialogue (input_prompts : list pystr) (idx : nat) (chunk : pystr)
         (p : prog) : list (pystr * list pystr) * pystr :=
  match p with
  | Return _ | Raise _ | Outlast _ => ([], chunk)
  | Emit s k => dialogue input_prompts idx (chunk ++ s) k
  | Touch _ k => dialogue input_prompts idx chunk k
  | Ask prompt k =>
      match input_prompts !! idx with
      | Some value =>
          let '(rest, final) := dialogue input_prompts (S idx) [] (k value) in
          ((chunk, prompt_echo prompt ++ [value]) :: rest, final)
      | None =>
          let '(rest, final) := dialogue input_prompts idx [] (k (py "9")) in
          ((chunk, prompt_echo prompt) :: rest, final)
      end
  end.

(** The transcript lines of one exchange: the lines of the text written
    before the call, then what the call recorded. *)
Definition exchange_lines (x : pystr * list pystr) : list pystr :=
  splitlines x.1 ++ x.2.

(** Lines 101-103: what the executor's error, if any, adds. *)
Definition error_lines (t : worker) : list pystr :=
  match t with
  | Alive => [timed_out_message 10]
  | Finished (Raised e) =>
      if exn_is_exception e then [exn_str e; exn_traceback e] else []
  | Finished (Returned _) => []
  end.

(** A line reporting a file that could not be moved (line 133). *)
Definition move_report (line : pystr) : Prop :=
  startswith (py "Error moving ") line = true.

(** A step of a submission other than a call of [input]. *)
Inductive effect :=
| EEmit (s : pystr)
| ETouch (f : gmap pystr node -> gmap pystr node).

Fixpoint perform (es : list effect) (k : prog) : prog :=
  match es with
  | [] => k
  | EEmit s :: rest => Emit s (perform rest k)
  | ETouch f :: rest => Touch f (perform rest k)
  end.

(** Everything the steps write to standard output. *)
Fixpoint written (es : list effect) : pystr :=
  match es with
  | [] => []
  | EEmit s :: rest => s ++ written rest
  | ETouch _ :: rest => written rest
  end.

Definition only_emits (es : list effect) : Prop :=
  Forall (fun e => match e with EEmit _ => True | ETouch _ => False end) es.

(** A submission whose [main] calls [input] exactly once and returns. *)
Definition asks_once (before : list effect) (prompt : pystr)
           (after : pystr -> list effect) (result : pystr -> pyval) : prog :=
  perform before
          (Ask prompt (fun answer => perform (after answer)
                                             (Return (result answer)))).

(** The transcript of such a submission as the specification words it: the
    prompt text itself between the output and the scripted value. *)
Definition transcript_as_specified (before : list effect) (prompt : pystr)
           (after : pystr -> list effect) (value : pystr) : list pystr :=
  splitlines (written before)
  ++ (if truthy prompt then [prompt] else [])
  ++ [value]
  ++ splitlines (written (after value)).

(** [print("Hello")], [name = input("Name: ")], [print("Hi " + name)]. *)
Definition greeter : module :=
  {| mod_main :=
       Some (asks_once [EEmit (py "Hello" ++ nl)] (py "Name: ")
                       (fun name => [EEmit (py "Hi " ++ name ++ nl)])
                       (fun _ => PyNone)) |}.

(** Whatever the computation raises is an instance of [Exception]. *)
Definition raises_only_exceptions {A} (m : M A) : Prop :=
  forall w e w', m w = (Exc e, w') -> exn_is_exception e = true.



(** The folder name the specification describes: the file name without its
    trailing [.py], the rest unchanged. *)
Definition without_py_suffix (name : pystr) : pystr :=
  if endswith (py ".py") name then take (length name - 3) name else name.

(** A single path component. *)
Definition no_slash (p : pystr) : Prop := Forall (fun c => c <> slash) p.

Definition syntax_error : py_exn :=
  {| exn_is_exception := true;
     exn_str := py "invalid syntax (student_module.py, line 1)";
     exn_traceback := py "SyntaxError: invalid syntax" ++ nl |}.

(** A toy interpreter for the examples: the text [main: greet] defines the
    [main] of [greeter], the text [def] does not parse, and any other text
    defines no [main]. *)
Definition toy_interp (code : pystr) : load_result :=
  if bool_decide (code = py "main: greet") then Loaded greeter
  else if bool_decide (code = py "def") then LoadRaised syntax_error
  else Loaded {| mod_main := None |}.

(** A working directory with two submissions and the input file. *)
Definition classroom : world :=
  {| fs := list_to_map [(py "ann.py", File (py "main: greet"));
                        (py "bob.py", File (py "x = 1"));
                        (py "input.txt", File (py "Ann" ++ nl))];
     builtins_input := terminal_input;
     console := []; stderr := []; thread_fault := None |}.

(** The same without the input file. *)
Definition classroom_without_input : world :=
  set_fs (delete (py "input.txt")) classroom.

(** Starting or joining a thread raises, if anything, an instance of
    [Exception]. *)
Definition threads_ok (w : world) : Prop :=
  forall e, thread_fault w = Some e -> exn_is_exception e = true.

(** Loading a module raises, if anything, an instance of [Exception]. *)
Definition loads_ok (interp : pystr -> load_result) : Prop :=
  forall code e, interp code = LoadRaised e -> exn_is_exception e = true.

(** Where threads raise only instances of [Exception], so does the
    computation. *)
Definition guarded {A} (m : M A) : Prop :=
  forall w e w',
    threads_ok w -> m w = (Exc e, w') -> exn_is_exception e = true.

(** The computation returns, whatever the world. *)
Definition always_returns (m : M unit) : Prop :=
  forall w, exists w', m w = (Ok tt, w').

(** What [Thread.start] raises when no thread can be created. *)
Definition cannot_start_thread : py_exn :=
  {| exn_is_exception := true;
     exn_str := py "can't start new thread";
     exn_traceback := py "RuntimeError: can't start new thread" ++ nl |}.

(** An empty working directory in which no thread can be started. *)
Definition thread_starved : world :=
  {| fs := ∅; builtins_input := terminal_input;
     console := []; stderr := []; thread_fault := Some cannot_start_thread |}.

(** No character of the line is a line boundary. *)
Definition unbroken (line : pystr) : Prop :=
  Forall (fun c => islinebreak c = false) line.

(** [print("working")] and then a [ValueError]. *)
Definition crasher : module :=
  {| mod_main := Some (perform [EEmit (py "working" ++ nl)] (Raise value_error)) |}.

(** [print("working")] and then a loop that never ends. *)
Definition sleeper : module :=
  {| mod_main := Some (perform [EEmit (py "working" ++ nl)]
                               (Outlast (Return PyNone))) |}.

(** [print("working")] and then [sys.exit()]. *)
Definition quitter : module :=
  {| mod_main := Some (perform [EEmit (py "working" ++ nl)] (Raise exit_request)) |}.

(** [print("working")] and nothing more. *)
Definition worker_bee : module :=
  {| mod_main := Some (perform [EEmit (py "working" ++ nl)] (Return PyNone)) |}.

(** The record [process_project] leaves in [output.txt] when it fails with
    [e] (lines 174-176). *)
Definition error_record (e : py_exn) : pystr :=
  (py "Error processing project: " ++ exn_str e ++ nl) ++ exn_traceback e.

(** A working directory with one submission that does not parse, and the
    input file. *)
Definition broken_classroom : world :=
  {| fs := list_to_map [(py "carl.py", File (py "def"));
                        (py "input.txt", File (py "Ann" ++ nl))];
     builtins_input := terminal_input;
     console := []; stderr := []; thread_fault := None |}.



(** A working directory after a run into the folder [ann]: the run left
    two new text files beside the input file and an older text file. *)
Definition after_run : world :=
  {| fs := list_to_map [(py "ann", Dir);
                        (py "input.txt", File (py "Ann" ++ nl));
                        (py "notes.txt", File (py "old"));
                        (py "scores.txt", File (py "10"));
                        (py "log.txt", File (py "ok"))];
     builtins_input := terminal_input;
     console := []; stderr := []; thread_fault := None |}.

(** Neither a line feed nor a carriage return occurs in the string. *)
Definition single_line (s : pystr) : Prop :=
  Forall (fun c => c <> 10%N /\ c <> 13%N) s.

(** A working directory holding one submission that greets, its input
    file, and nothing else. *)
Definition lone_greeter : world :=
  {| fs := list_to_map [(py "ann.py", File (py "main: greet"));
                        (py "input.txt", File (py "Ann" ++ nl))];
     builtins_input := terminal_input;
     console := []; stderr := []; thread_fault := None |}.

(** An interpreter for which every text defines the module [m]. *)
Definition always_loads (m : module) (code : pystr) : load_result := Loaded m.

(** A working directory whose only submission is the file named [.py]. *)
Definition nameless_classroom : world :=
  {| fs := list_to_map [(py ".py", File (py "main: greet"));
                        (py "input.txt", File (py "Ann" ++ nl))];
     builtins_input := terminal_input;
     console := []; stderr := []; thread_fault := None |}.



(** ** Text the console and the files can encode

    The console and the files the harness writes take text as UTF-8, which
    has no encoding for a surrogate code point: on text that holds one,
    [print] and [f.write] raise [UnicodeEncodeError].  [print] and
    [write_file] describe the calls on text that holds none. *)
Definition encodable_char (c : N) : bool :=
  N.ltb c 55296 || (N.ltb 57343 c && N.ltb c 1114112).

Definition encodable (s : pystr) : bool := forallb encodable_char s.

Definition plain (s : pystr) : Prop := encodable s = true.

(** The computation prints nothing. *)
Definition quiet {A} (m : M A) : Prop :=
  forall w, console (m w).2 = console w.

(** From a world where threads raise only instances of [Exception], the
    computation adds to the console only lines the console can encode. *)
Definition speaks_plainly {A} (m : M A) : Prop :=
  forall w, threads_ok w ->
    exists lines, console (m w).2 = console w ++ lines /\ Forall plain lines.

(** From such a world, an instance of [Exception] the computation raises has
    a message the console can encode. *)
Definition fails_plainly {A} (m : M A) : Prop :=
  forall w e, threads_ok w -> (m w).1 = Exc e -> exn_is_exception e = true ->
              plain (exn_str e).

(** Loading raises only errors whose message the console can encode. *)
Definition loads_plainly (interp : pystr -> load_result) : Prop :=
  forall code e, interp code = LoadRaised e -> plain (exn_str e).

(** The number of calls of [input] in a run against the script, the cursor
    standing at [idx]. *)
Fixpoint input_count (input_prompts : list pystr) (idx : nat) (p : prog) : nat :=
  match p with
  | Return _ | Raise _ | Outlast _ => 0
  | Emit _ k => input_count input_prompts idx k
  | Touch _ k => input_count input_prompts idx k
  | Ask _ k =>
      match input_prompts !! idx with
      | Some value => S (input_count input_prompts (S idx) (k value))
      | None => S (input_count input_prompts idx (k (py "9")))
      end
  end.

(** The same submission, returning [v] wherever it would end in an error
    outside the [Exception] class. *)
Fixpoint pardon (v : pyval) (p : prog) : prog :=
  match p with
  | Return r => Return r
  | Raise e => if exn_is_exception e then Raise e else Return v
  | Emit s k => Emit s (pardon v k)
  | Ask prompt k => Ask prompt (fun answer => pardon v (k answer))
  | Touch f k => Touch f (pardon v k)
  | Outlast k => Outlast k
  end.

(** [answer = input("n: ")], a [ValueError] unless the answer is [5], and
    then [print("10")]. *)
Definition checker : module :=
  {| mod_main :=
       Some (Ask (py "n: ")
                 (fun answer =>
                    if bool_decide (answer = py "5")
                    then Emit (py "10" ++ nl) (Return PyNone)
                    else Raise value_error)) |}.

(** [print("working")], [input("Name: ")] and then [sys.exit()]. *)
Definition leaver : module :=
  {| mod_main :=
       Some (Emit (py "working" ++ nl)
                  (Ask (py "Name: ") (fun _ => Raise exit_request))) |}.

(** * Properties *)

(** ** The timeout-guarded executor *)

(** C1, as the specification words it, fails for a callable that ends by
    raising the exit request: nothing is recorded, and the executor returns
    no error at all instead of the two-element error list. *)
Lemma run_with_timeout_exit_request :
  run_with_timeout (ends_with (Finished (Raised exit_request))) 10
                   blank_shim quiet_world
  = (Ok (PyNone, None), blank_shim, quiet_world)
  /\ run_with_timeout (ends_with (Finished (Raised exit_request))) 10
                      blank_shim quiet_world
     <> (Ok (PyNone, Some [exn_str exit_request; exn_traceback exit_request]),
         blank_shim, quiet_world).
Proof. split; [reflexivity | discriminate]. Qed.

(** C1 (amended): once the worker thread is started, a callable that
    finishes in time by returning [v] yields [(v, None)]; one that finishes
    in time by raising an instance of [Exception] yields [None] and the
    two-element list of its message and its formatted trace; one still
    alive after the join yields [None] and the one-element list holding the
    timeout message. *)
Theorem run_with_timeout_outcomes
        (func : callable) (timeout_duration : N) (st st' : shim)
        (w w' : world) (thread : worker) :
  thread_fault w = None ->
  func st w = (thread, st', w') ->
  (forall v, thread = Finished (Returned v) ->
             run_with_timeout func timeout_duration st w
             = (Ok (v, None), st', w'))
  /\ (forall e, thread = Finished (Raised e) ->
                exn_is_exception e = true ->
                run_with_timeout func timeout_duration st w
                = (Ok (PyNone, Some [exn_str e; exn_traceback e]), st', w'))
  /\ (thread = Alive ->
      run_with_timeout func timeout_duration st w
      = (Ok (PyNone,
             Some [py "Program execution timed out after "
                      ++ decimal timeout_duration ++ py " seconds"]),
         st', w')).
Proof.
  intros Hstart Hrun. unfold run_with_timeout. rewrite Hstart, Hrun.
  repeat split.
  - intros v ->. reflexivity.
  - intros e -> He. simpl. rewrite He. reflexivity.
  - intros ->. reflexivity.
Qed.

(** The amended C1 at a callable that raises a [ValueError]. *)
Lemma run_with_timeout_outcomes_witness :
  thread_fault quiet_world = None
  /\ ends_with (Finished (Raised value_error)) blank_shim quiet_world
     = (Finished (Raised value_error), blank_shim, quiet_world)
  /\ run_with_timeout (ends_with (Finished (Raised value_error))) 10
                      blank_shim quiet_world
     = (Ok (PyNone, Some [exn_str value_error; exn_traceback value_error]),
        blank_shim, quiet_world).
Proof.
  split; [reflexivity | split; [reflexivity |]].
  refine (proj1 (proj2 (run_with_timeout_outcomes
                          (ends_with (Finished (Raised value_error))) 10
                          blank_shim blank_shim quiet_world quiet_world
                          (Finished (Raised value_error))
                          eq_refl eq_refl)) value_error eq_refl eq_refl).
Defined.

(** C9: a callable that finishes in time by raising something that is not
    an instance of [Exception] leaves both [result] and [error] empty, and
    the executor returns [(None, None)], exactly what it returns for a
    callable that returned [None]. *)
Theorem run_with_timeout_base_exception
        (func : callable) (timeout_duration : N) (st st' : shim)
        (w w' : world) (e : py_exn) :
  thread_fault w = None ->
  func st w = (Finished (Raised e), st', w') ->
  exn_is_exception e = false ->
  target (Raised e) [] [] = ([], [])
  /\ run_with_timeout func timeout_duration st w = (Ok (PyNone, None), st', w')
  /\ forall func' : callable,
      func' st w = (Finished (Returned PyNone), st', w') ->
      run_with_timeout func' timeout_duration st w
      = run_with_timeout func timeout_duration st w.
Proof.
  intros Hstart Hrun He. unfold run_with_timeout, target.
  rewrite Hstart, Hrun, He. repeat split.
  intros func' ->. reflexivity.
Qed.

(** C9 at a callable that calls [sys.exit()]. *)
Lemma run_with_timeout_base_exception_witness :
  thread_fault quiet_world = None
  /\ exn_is_exception exit_request = false
  /\ run_with_timeout (ends_with (Finished (Raised exit_request))) 10
                      blank_shim quiet_world
     = (Ok (PyNone, None), blank_shim, quiet_world).
Proof.
  split; [reflexivity | split; [reflexivity |]].
  exact (proj1 (proj2 (run_with_timeout_base_exception
                         (ends_with (Finished (Raised exit_request))) 10
                         blank_shim blank_shim quiet_world quiet_world
                         exit_request eq_refl eq_refl eq_refl))).
Defined.

(** ** The mocked [input] *)

Lemma mock_input_unfold (input_prompts : list pystr) (prompt : pystr) (st : shim) :
  mock_input input_prompts prompt st
  = let lines := captured_lines st ++ splitlines (stdout_buffer st)
                                ++ prompt_echo prompt in
    match input_prompts !! input_idx st with
    | Some value =>
        (value, {| captured_lines := lines ++ [value];
                   input_idx := S (input_idx st);
                   stdout_buffer := [] |})
    | None =>
        (py "9", {| captured_lines := lines;
                    input_idx := input_idx st;
                    stdout_buffer := [] |})
    end.
Proof.
  unfold mock_input, prompt_echo, extend_lines.
  destruct st as [lines idx buffer]; simpl.
  destruct buffer as [|c buffer], prompt as [|d prompt]; simpl;
    (destruct (input_prompts !! idx) as [value|] eqn:Hlook;
     [ apply lookup_lt_Some in Hlook as Hlt;
       apply Nat.ltb_lt in Hlt; rewrite Hlt
     | apply lookup_ge_None in Hlook as Hge;
       apply Nat.ltb_ge in Hge; rewrite Hge ]);
    simpl; rewrite ?app_nil_r, <- ?app_assoc; reflexivity.
Qed.

Lemma input_calls_values (input_prompts : list pystr)
      (calls : list (pystr * pystr)) :
  forall st : shim,
    (input_calls input_prompts calls st).1
    = take (length calls)
           (drop (input_idx st) input_prompts
                 ++ replicate (length calls) (py "9")).
Proof.
  induction calls as [|[text prompt] rest IH]; intros st; [reflexivity|].
  cbn [input_calls]. rewrite mock_input_unfold. cbn [input_idx stdout_buffer captured_lines].
  destruct (input_prompts !! input_idx st) as [value|] eqn:Hlook; cbn zeta.
  - specialize (IH {| captured_lines :=
                        (captured_lines st ++ splitlines (stdout_buffer st ++ text)
                                        ++ prompt_echo prompt) ++ [value];
                      input_idx := S (input_idx st);
                      stdout_buffer := [] |}).
    destruct (input_calls input_prompts rest _) as [values st3].
    cbn [fst input_idx] in *. rewrite IH.
    rewrite (drop_S _ _ _ Hlook). cbn [length app take].
    f_equal. rewrite !take_app. f_equal.
    rewrite !take_replicate. f_equal. lia.
  - specialize (IH {| captured_lines :=
                        captured_lines st ++ splitlines (stdout_buffer st ++ text)
                                       ++ prompt_echo prompt;
                      input_idx := input_idx st;
                      stdout_buffer := [] |}).
    destruct (input_calls input_prompts rest _) as [values st3].
    cbn [fst input_idx] in *. rewrite IH.
    apply lookup_ge_None in Hlook.
    rewrite (drop_ge _ _ Hlook). reflexivity.
Qed.

(** C2: a call of the mocked [input] with the cursor on a scripted line
    records that line after the flushed output and the prompt, moves the
    cursor on by one and returns the line; a call with the cursor at or past
    the end of the script returns ['9'], leaves the cursor where it is and
    records nothing after the flushed output and the prompt.  So of [N+1]
    calls against a script of [N] lines the first [N] return the script and
    the last returns ['9']. *)
Theorem mock_input_cursor (input_prompts : list pystr) :
  (forall (st : shim) (prompt line : pystr) (i : nat),
      input_idx st = i ->
      i < length input_prompts ->
      input_prompts !! i = Some line ->
      mock_input input_prompts prompt st
      = (line,
         {| captured_lines :=
              (captured_lines st ++ splitlines (stdout_buffer st)
                              ++ prompt_echo prompt) ++ [line];
            input_idx := S i;
            stdout_buffer := [] |}))
  /\ (forall (st : shim) (prompt : pystr),
         length input_prompts <= input_idx st ->
         mock_input input_prompts prompt st
         = (py "9",
            {| captured_lines :=
                 captured_lines st ++ splitlines (stdout_buffer st)
                                ++ prompt_echo prompt;
               input_idx := input_idx st;
               stdout_buffer := [] |}))
  /\ (forall (calls : list (pystr * pystr)) (st : shim),
         input_idx st = 0 ->
         length calls = S (length input_prompts) ->
         (input_calls input_prompts calls st).1 = input_prompts ++ [py "9"]).
Proof.
  repeat split.
  - intros st prompt line i <- _ Hline.
    rewrite mock_input_unfold, Hline. reflexivity.
  - intros st prompt Hpast.
    rewrite mock_input_unfold.
    apply lookup_ge_None in Hpast. rewrite Hpast. reflexivity.
  - intros calls st Hstart Hlen.
    rewrite input_calls_values, Hstart, Hlen, drop_0.
    rewrite take_app, (take_ge input_prompts) by lia.
    replace (S (length input_prompts) - length input_prompts) with 1 by lia.
    reflexivity.
Qed.

(** C2 at the second call against a script of three lines. *)
Lemma mock_input_cursor_witness :
  input_idx demo_shim = 1
  /\ 1 < length demo_script
  /\ demo_script !! 1 = Some (py "3")
  /\ mock_input demo_script (py "Next: ") demo_shim
     = (py "3",
        {| captured_lines := [py "5"; py "You typed 5"; py "Next:"; py "3"];
           input_idx := 2;
           stdout_buffer := [] |}).
Proof.
  split; [reflexivity | split; [repeat constructor | split; [reflexivity |]]].
  exact (proj1 (mock_input_cursor demo_script)
               demo_shim (py "Next: ") (py "3") 1
               eq_refl (le_n_S _ _ (le_S _ _ (le_n 1))) eq_refl).
Defined.

(** ** The input loader *)

Lemma lstrip_prefix (s : pystr) :
  exists pre : pystr, s = pre ++ lstrip s /\ blank pre.
Proof.
  induction s as [|c r [pre [Hr Hpre]]]; [exists []; split; [reflexivity | constructor]|].
  simpl. destruct (isspace c) eqn:Hc.
  - exists (c :: pre). split; [simpl; congruence | constructor; assumption].
  - exists []. split; [reflexivity | constructor].
Qed.

Lemma lstrip_head (s : pystr) (c : N) :
  head (lstrip s) = Some c -> isspace c = false.
Proof.
  induction s as [|d r IH]; simpl; [discriminate|].
  destruct (isspace d) eqn:Hd; [exact IH|].
  simpl. intros [= <-]. exact Hd.
Qed.

Lemma rstrip_suffix (s : pystr) :
  exists post : pystr, s = rstrip s ++ post /\ blank post.
Proof.
  induction s as [|c r [post [Hr Hpost]]]; [exists []; split; [reflexivity | constructor]|].
  simpl. destruct (isspace c) eqn:Hc; simpl.
  - destruct (rstrip r) as [|d t] eqn:Ht; simpl.
    + exists (c :: post). split; [simpl in Hr; congruence | constructor; assumption].
    + exists post. split; [simpl in *; congruence | assumption].
  - exists post. split; [congruence | assumption].
Qed.

Lemma rstrip_last (s : pystr) (c : N) :
  last (rstrip s) = Some c -> isspace c = false.
Proof.
  induction s as [|d r IH]; simpl; [discriminate|].
  destruct (rstrip r) as [|e t] eqn:Ht.
  - destruct (isspace d) eqn:Hd; simpl; [discriminate|].
    intros [= <-]. exact Hd.
  - rewrite andb_false_r. exact IH.
Qed.

Lemma rstrip_head (s : pystr) (c : N) :
  head (rstrip s) = Some c -> head s = Some c.
Proof.
  destruct s as [|d r]; simpl; [discriminate|].
  destruct (isspace d && is_empty (rstrip r)); simpl; [discriminate | trivial].
Qed.

Lemma strip_sandwich (s : pystr) :
  exists pre post : pystr,
    s = pre ++ strip s ++ post /\ blank pre /\ blank post /\ trimmed (strip s).
Proof.
  destruct (lstrip_prefix s) as [pre [Hs Hpre]].
  destruct (rstrip_suffix (lstrip s)) as [post [Hl Hpost]].
  exists pre, post. unfold strip, trimmed. repeat split; try assumption.
  - rewrite <- Hl. exact Hs.
  - intros c Hc. apply rstrip_head in Hc. exact (lstrip_head _ _ Hc).
  - intros c. apply rstrip_last.
Qed.

Lemma readlines_concat (s : pystr) : concat (readlines s) = s.
Proof.
  induction s as [|c r IH]; [reflexivity|]. simpl.
  destruct (N.eqb c 10).
  - simpl. congruence.
  - destruct (readlines r) as [|l ls]; simpl in *; congruence.
Qed.

Lemma readlines_lines (s : pystr) : Forall text_line (readlines s).
Proof.
  induction s as [|c r IH]; [constructor|]. simpl.
  destruct (N.eqb_spec c 10) as [-> | Hc].
  - constructor; [|exact IH]. exists []. split; [constructor | left; reflexivity].
  - destruct (readlines r) as [|l ls].
    + repeat constructor. exists [c]. split; [repeat constructor; exact Hc|].
      right. split; [reflexivity | discriminate].
    + inversion IH as [|? ? [body [Hbody Hl]] Hls]; subst.
      constructor; [|exact Hls].
      exists (c :: body). split; [constructor; assumption|].
      destruct Hl as [-> | [-> _]]; [left; reflexivity | right; split; [reflexivity | discriminate]].
Qed.

(** C5, as the specification words it, fails on a line that starts with
    white space: the loader strips it on both sides. *)
Lemma load_input_prompts_leading_space :
  load_input_prompts (world_with_input (py " 5" ++ nl))
  = (Ok [py "5"], world_with_input (py " 5" ++ nl))
  /\ map rstrip (readlines (translate_newlines (py " 5" ++ nl))) = [py " 5"]
  /\ [py "5"] <> [py " 5"].
Proof. split; [reflexivity | split; [reflexivity | discriminate]]. Qed.

(** C5 (amended): when the input file can be read, the loader returns one
    entry per line of the file, in file order, and each entry is its line
    with the white space removed at both ends, the leading white space as
    well as the trailing white space and line end. *)
Theorem load_input_prompts_strips (w : world) (text : pystr) :
  fs w !! py "input.txt" = Some (File text) ->
  exists entries : list pystr,
    load_input_prompts w = (Ok entries, w)
    /\ concat (readlines (translate_newlines text)) = translate_newlines text
    /\ Forall text_line (readlines (translate_newlines text))
    /\ Forall2 (fun line entry =>
                  exists pre post : pystr,
                    line = pre ++ entry ++ post
                    /\ blank pre /\ blank post /\ trimmed entry)
               (readlines (translate_newlines text)) entries.
Proof.
  intros Hfile.
  exists (map strip (readlines (translate_newlines text))).
  split; [|split; [apply readlines_concat | split; [apply readlines_lines|]]].
  - unfold load_input_prompts, bind, read_file, ret. rewrite Hfile. reflexivity.
  - induction (readlines (translate_newlines text)) as [|line rest IH];
      constructor; [apply strip_sandwich | exact IH].
Qed.

(** The amended C5 at a file of two lines. *)
Lemma load_input_prompts_strips_witness :
  fs (world_with_input (py " 5 " ++ nl ++ py "exit")) !! py "input.txt"
  = Some (File (py " 5 " ++ nl ++ py "exit"))
  /\ exists entries : list pystr,
      load_input_prompts (world_with_input (py " 5 " ++ nl ++ py "exit"))
      = (Ok entries, world_with_input (py " 5 " ++ nl ++ py "exit"))
      /\ length entries = 2.
Proof.
  split; [reflexivity|].
  destruct (load_input_prompts_strips
              (world_with_input (py " 5 " ++ nl ++ py "exit"))
              (py " 5 " ++ nl ++ py "exit") eq_refl)
    as [entries [Hload [_ [_ Hlines]]]].
  exists entries. split; [exact Hload|].
  symmetry. exact (Forall2_length _ _ _ Hlines).
Defined.

(** ** What the harness leaves untouched *)

Create HintDb env discriminated.

Lemma same_env_refl (w : world) : same_env w w.
Proof. repeat split; reflexivity. Qed.

Lemma same_env_trans (w1 w2 w3 : world) :
  same_env w1 w2 -> same_env w2 w3 -> same_env w1 w3.
Proof.
  intros [H1 [H2 H3]] [H4 [H5 H6]].
  repeat split; [congruence | congruence | by etrans].
Qed.

Lemma same_env_set_fs (f : gmap pystr node -> gmap pystr node) (w : world) :
  same_env w (set_fs f w).
Proof. repeat split; reflexivity. Qed.

Lemma keeps_env_ret {A} (a : A) : keeps_env (ret a).
Proof. intros w. apply same_env_refl. Qed.

Lemma keeps_env_raise {A} (e : py_exn) : keeps_env (@raise A e).
Proof. intros w. apply same_env_refl. Qed.

Lemma keeps_env_bind {A B} (m : M A) (k : A -> M B) :
  keeps_env m -> (forall a, keeps_env (k a)) -> keeps_env (bind m k).
Proof.
  intros Hm Hk w. unfold bind. specialize (Hm w).
  destruct (m w) as [[a|e] w1]; simpl in *; [|exact Hm].
  exact (same_env_trans _ _ _ Hm (Hk a w1)).
Qed.

Lemma keeps_env_try_except {A} (m : M A) (h : py_exn -> M A) :
  keeps_env m -> (forall e, keeps_env (h e)) -> keeps_env (try_except m h).
Proof.
  intros Hm Hh w. unfold try_except. specialize (Hm w).
  destruct (m w) as [[a|e] w1]; simpl in *; [exact Hm|].
  destruct (exn_is_exception e); [|exact Hm].
  exact (same_env_trans _ _ _ Hm (Hh e w1)).
Qed.

Lemma keeps_env_when (b : bool) (m : M unit) :
  keeps_env m -> keeps_env (when b m).
Proof. intros Hm. destruct b; [exact Hm | apply keeps_env_ret]. Qed.

Lemma keeps_env_for_each {A} (l : list A) (body : A -> M unit) :
  (forall a, keeps_env (body a)) -> keeps_env (for_each l body).
Proof.
  intros Hbody. induction l as [|a rest IH]; simpl.
  - apply keeps_env_ret.
  - apply keeps_env_bind; [apply Hbody | intros _; exact IH].
Qed.

Lemma keeps_env_print (s : pystr) : keeps_env (print s).
Proof. intros w. repeat split; try reflexivity. apply prefix_app_r. reflexivity. Qed.

Lemma keeps_env_print_exc (e : py_exn) : keeps_env (print_exc e).
Proof. intros w. repeat split; reflexivity. Qed.

Lemma keeps_env_path_exists (p : pystr) : keeps_env (path_exists p).
Proof. intros w. apply same_env_refl. Qed.

Lemma keeps_env_makedirs (p : pystr) : keeps_env (makedirs p).
Proof.
  intros w. unfold makedirs.
  repeat (case_match; simpl; try apply same_env_refl).
  repeat split; reflexivity.
Qed.

Lemma keeps_env_read_file (p : pystr) : keeps_env (read_file p).
Proof.
  intros w. unfold read_file.
  repeat (case_match; simpl; try apply same_env_refl).
Qed.

Lemma keeps_env_write_file (p text : pystr) : keeps_env (write_file p text).
Proof.
  intros w. unfold write_file.
  repeat (case_match; simpl; try apply same_env_refl).
  repeat split; reflexivity.
Qed.

Lemma keeps_env_rename (src dst : pystr) : keeps_env (rename src dst).
Proof.
  intros w. unfold rename.
  repeat (case_match; simpl; try apply same_env_refl);
    repeat split; reflexivity.
Qed.

Lemma keeps_env_shutil_move (src dst : pystr) : keeps_env (shutil_move src dst).
Proof.
  intros w. unfold shutil_move.
  repeat (case_match; simpl; try apply same_env_refl); apply keeps_env_rename.
Qed.

#[local] Hint Resolve keeps_env_ret keeps_env_raise keeps_env_bind
  keeps_env_try_except keeps_env_when keeps_env_for_each keeps_env_print
  keeps_env_print_exc keeps_env_path_exists keeps_env_makedirs
  keeps_env_read_file keeps_env_write_file keeps_env_rename
  keeps_env_shutil_move : env.

Lemma keeps_env_move_new_files (folder_name : pystr) (files lines : list pystr) :
  keeps_env (move_new_files folder_name files lines).
Proof.
  revert lines. induction files as [|f rest IH]; intros lines; simpl;
    auto 10 with env.
Qed.

Lemma keeps_env_harvest (initial : gset pystr) (folder_name : pystr)
      (lines : list pystr) :
  keeps_env (harvest initial folder_name lines).
Proof.
  unfold harvest. apply keeps_env_try_except; [|auto with env].
  intros w. apply keeps_env_move_new_files.
Qed.

Lemma exec_same_env (p : prog) :
  forall (st : shim) (w : world), same_env w (exec p st w).2.
Proof.
  induction p as [v | e | s k IH | prompt k IH | f k IH | k IH];
    intros st w; simpl; try apply same_env_refl.
  - apply IH.
  - destruct (builtins_input w); [apply same_env_refl|].
    destruct (mock_input _ _ _). apply IH.
  - exact (same_env_trans _ _ _ (same_env_set_fs f w) (IH st _)).
Qed.

Lemma same_env_set_builtins_input (i : input_fn) (w w' : world) :
  same_env (set_builtins_input i w) w' ->
  same_env w (set_builtins_input (builtins_input w) w').
Proof. intros [_ [Hfault Hconsole]]. repeat split; assumption. Qed.

Lemma redirected_block_same_env (m : module) (st : shim) (w : world) :
  same_env w (redirected_block m st w).2.
Proof.
  unfold redirected_block, run_with_timeout.
  destruct (mod_main m) as [p|]; [|apply same_env_refl].
  destruct (thread_fault w); [apply same_env_refl|].
  pose proof (exec_same_env p st w) as Hrun.
  destruct (exec p st w) as [[t st1] w2].
  destruct t as [[v|e]|]; cbn [target];
    try destruct (exn_is_exception e); exact Hrun.
Qed.

Lemma capture_same_env (m : module) (input_prompts : list pystr)
      (folder_name : pystr) :
  keeps_env (capture_output_and_files m input_prompts folder_name).
Proof.
  intros w. unfold capture_output_and_files. cbv zeta.
  match goal with
  | |- context [redirected_block m ?st0 ?w1] =>
      pose proof (redirected_block_same_env m st0 w1) as Hblock;
      destruct (redirected_block m st0 w1) as [[[[]|e] st] w2]
  end;
    cbn [snd] in Hblock; apply same_env_set_builtins_input in Hblock;
    try destruct (exn_is_exception e);
    match goal with
    | |- context [harvest ?i ?f ?l ?w3] =>
        pose proof (keeps_env_harvest i f l w3) as Hharvest;
        destruct (harvest i f l w3) as [[lines|e'] w4]
    end;
    exact (same_env_trans _ _ _ Hblock Hharvest).
Qed.

(** C7: whatever the module does, and whether the capture returns or lets
    an exception through, [builtins.input] is bound afterwards to what it was
    bound to when the capture began. *)
Theorem capture_restores_input
        (m : module) (input_prompts : list pystr) (folder_name : pystr)
        (w : world) :
  builtins_input (capture_output_and_files m input_prompts folder_name w).2
  = builtins_input w.
Proof. exact (proj1 (capture_same_env m input_prompts folder_name w)). Qed.

(** ** Which exceptions the file-system calls raise *)

Create HintDb exn discriminated.

Lemma roe_ret {A} (a : A) : raises_only_exceptions (ret a).
Proof. intros w e w' [=]. Qed.

Lemma roe_bind {A B} (m : M A) (k : A -> M B) :
  raises_only_exceptions m ->
  (forall a, raises_only_exceptions (k a)) ->
  raises_only_exceptions (bind m k).
Proof.
  intros Hm Hk w e w'. unfold bind.
  destruct (m w) as [[a|e1] w1] eqn:Hrun.
  - apply Hk.
  - intros [= <- <-]. exact (Hm _ _ _ Hrun).
Qed.

Lemma roe_try_except {A} (m : M A) (h : py_exn -> M A) :
  raises_only_exceptions m ->
  (forall e, raises_only_exceptions (h e)) ->
  raises_only_exceptions (try_except m h).
Proof.
  intros Hm Hh w e w'. unfold try_except.
  destruct (m w) as [[a|e1] w1] eqn:Hrun; [intros [=]|].
  destruct (exn_is_exception e1) eqn:He1.
  - apply Hh.
  - intros [= <- <-]. exact (Hm _ _ _ Hrun).
Qed.

Lemma roe_when (b : bool) (m : M unit) :
  raises_only_exceptions m -> raises_only_exceptions (when b m).
Proof. intros Hm. destruct b; [exact Hm | apply roe_ret]. Qed.

Lemma roe_for_each {A} (l : list A) (body : A -> M unit) :
  (forall a, raises_only_exceptions (body a)) ->
  raises_only_exceptions (for_each l body).
Proof.
  intros Hbody. induction l as [|a rest IH]; simpl.
  - apply roe_ret.
  - apply roe_bind; [apply Hbody | intros _; exact IH].
Qed.

Lemma roe_os_raise {A} (cls : string) (msg : pystr) :
  raises_only_exceptions (@raise A (os_error cls msg)).
Proof. intros w e w' [= <- <-]. reflexivity. Qed.

Lemma roe_print (s : pystr) : raises_only_exceptions (print s).
Proof. intros w e w' [=]. Qed.

Lemma roe_print_exc (e : py_exn) : raises_only_exceptions (print_exc e).
Proof. intros w e' w' [=]. Qed.

Lemma roe_path_exists (p : pystr) : raises_only_exceptions (path_exists p).
Proof. intros w e w' [=]. Qed.

Ltac roe_cases :=
  repeat (case_match; try (intros [= <- <-]; reflexivity);
          try (intros [=]; fail)).

Lemma roe_makedirs (p : pystr) : raises_only_exceptions (makedirs p).
Proof. intros w e w'. unfold makedirs. roe_cases. Qed.

Lemma roe_read_file (p : pystr) : raises_only_exceptions (read_file p).
Proof. intros w e w'. unfold read_file. roe_cases. Qed.

Lemma roe_write_file (p text : pystr) :
  raises_only_exceptions (write_file p text).
Proof. intros w e w'. unfold write_file. roe_cases. Qed.

Lemma roe_rename (src dst : pystr) : raises_only_exceptions (rename src dst).
Proof. intros w e w'. unfold rename. roe_cases. Qed.

Lemma roe_shutil_move (src dst : pystr) :
  raises_only_exceptions (shutil_move src dst).
Proof.
  intros w e w'. unfold shutil_move.
  repeat (case_match; try (intros [= <- <-]; reflexivity));
    apply roe_rename.
Qed.

#[local] Hint Resolve roe_ret roe_bind roe_try_except roe_when roe_for_each
  roe_os_raise roe_print roe_print_exc roe_path_exists roe_makedirs
  roe_read_file roe_write_file roe_rename roe_shutil_move : exn.

(** ** The harvest only appends reports *)

Lemma startswith_app (p s : pystr) : startswith p (p ++ s) = true.
Proof.
  induction p as [|c p IH]; [reflexivity|].
  simpl. rewrite N.eqb_refl. exact IH.
Qed.

Lemma move_new_files_appends (folder_name : pystr) (files : list pystr) :
  forall (lines : list pystr) (w : world),
  exists (extra : list pystr) (w' : world),
    move_new_files folder_name files lines w = (Ok (lines ++ extra), w')
    /\ Forall move_report extra.
Proof.
  induction files as [|f rest IH]; intros lines w; cbn [move_new_files].
  - exists [], w. rewrite app_nil_r. split; [reflexivity | constructor].
  - unfold bind at 1, try_except, bind at 1, path_exists.
    destruct (exists_in (fs w) f); cbv beta iota delta [when].
    + unfold bind at 1.
      destruct (shutil_move f (path_join folder_name f) w) as [[[]|e] w1] eqn:Hmove.
      * unfold ret. apply IH.
      * rewrite (roe_shutil_move _ _ _ _ _ Hmove). unfold ret. cbv beta iota.
        destruct (IH (lines ++ [py "Error moving " ++ f ++ py ": " ++ exn_str e]) w1)
          as [extra [w' [Hrest Hextra]]].
        exists ((py "Error moving " ++ f ++ py ": " ++ exn_str e) :: extra), w'.
        split.
        -- rewrite Hrest. f_equal. f_equal. rewrite <- app_assoc. reflexivity.
        -- constructor; [apply startswith_app | exact Hextra].
    + unfold bind, ret. apply IH.
Qed.

Lemma harvest_appends (initial : gset pystr) (folder_name : pystr)
      (lines : list pystr) (w : world) :
  exists (extra : list pystr) (w' : world),
    harvest initial folder_name lines w = (Ok (lines ++ extra), w')
    /\ Forall move_report extra.
Proof.
  unfold harvest, try_except.
  destruct (move_new_files_appends folder_name
              (elements (txt_files w ∖ initial ∖ {[py "input.txt"]})) lines w)
    as [extra [w' [Hmove Hextra]]].
  rewrite Hmove. exists extra, w'. split; [reflexivity | exact Hextra].
Qed.

Lemma harvest_nothing_new (folder_name : pystr) (lines : list pystr) (w : world) :
  harvest (txt_files w) folder_name lines w = (Ok lines, w).
Proof.
  unfold harvest, try_except.
  rewrite difference_diag_L, empty_difference_L.
  rewrite elements_empty. reflexivity.
Qed.

(** ** The transcript of a run *)

Lemma exec_dialogue (input_prompts : list pystr) (p : prog) :
  forall (st : shim) (w : world),
    builtins_input w = mock_input_fn input_prompts ->
    captured_lines (exec p st w).1.2
    = captured_lines st
      ++ flat_map exchange_lines
                  (dialogue input_prompts (input_idx st) (stdout_buffer st) p).1
    /\ stdout_buffer (exec p st w).1.2
       = (dialogue input_prompts (input_idx st) (stdout_buffer st) p).2.
Proof.
  induction p as [v | e | s k IH | prompt k IH | f k IH | k IH];
    intros st w Hmock; cbn [exec dialogue].
  - cbn. rewrite app_nil_r. split; reflexivity.
  - cbn. rewrite app_nil_r. split; reflexivity.
  - match goal with
    | |- context [exec k ?st1 w] => specialize (IH st1 w Hmock)
    end.
    cbn [captured_lines input_idx stdout_buffer] in IH. exact IH.
  - rewrite Hmock, mock_input_unfold.
    destruct (input_prompts !! input_idx st) as [value|] eqn:Hlook;
      cbv beta iota zeta.
    + match goal with
      | |- context [exec (k value) ?st1 w] =>
          destruct (IH value st1 w Hmock) as [Hlines Hbuffer]
      end.
      cbn [input_idx stdout_buffer captured_lines] in Hlines, Hbuffer.
      destruct (dialogue input_prompts (S (input_idx st)) [] (k value))
        as [rest final].
      cbn [fst snd flat_map] in *. rewrite Hlines, Hbuffer.
      unfold exchange_lines at 2. cbn [fst snd].
      rewrite <- !app_assoc. split; reflexivity.
    + match goal with
      | |- context [exec (k (py "9")) ?st1 w] =>
          destruct (IH (py "9") st1 w Hmock) as [Hlines Hbuffer]
      end.
      cbn [input_idx stdout_buffer captured_lines] in Hlines, Hbuffer.
      destruct (dialogue input_prompts (input_idx st) [] (k (py "9")))
        as [rest final].
      cbn [fst snd flat_map] in *. rewrite Hlines, Hbuffer.
      unfold exchange_lines at 2. cbn [fst snd].
      rewrite <- !app_assoc. split; reflexivity.
  - apply (IH st (set_fs f w)). exact Hmock.
  - cbn. rewrite app_nil_r. split; reflexivity.
Qed.

Lemma final_flush_lines (st : shim) :
  captured_lines (final_flush st)
  = captured_lines st ++ splitlines (stdout_buffer st)
  /\ stdout_buffer (final_flush st) = stdout_buffer st.
Proof.
  unfold final_flush. destruct (stdout_buffer st) as [|c r] eqn:Hbuf;
    cbn [truthy is_empty negb extend_lines captured_lines stdout_buffer].
  - rewrite app_nil_r. split; [reflexivity | exact Hbuf].
  - split; [reflexivity | exact Hbuf].
Qed.

(** What the [with] block leaves in the transcript when [main] exists and
    the worker thread starts. *)
Lemma redirected_block_lines (m : module) (p : prog) (st : shim) (w : world) :
  mod_main m = Some p ->
  thread_fault w = None ->
  exists st' : shim,
    redirected_block m st w = (Ok tt, st', (exec p st w).2)
    /\ captured_lines st'
       = captured_lines (exec p st w).1.2
         ++ error_lines (exec p st w).1.1
         ++ splitlines (stdout_buffer (exec p st w).1.2).
Proof.
  intros Hmain Hstart. unfold redirected_block, run_with_timeout.
  rewrite Hmain, Hstart.
  destruct (exec p st w) as [[t st1] w1]. cbn [fst snd].
  destruct t as [[v|e]|]; cbn [target error_lines app].
  - eexists. split; [reflexivity|].
    rewrite (proj1 (final_flush_lines st1)). reflexivity.
  - destruct (exn_is_exception e); cbn [app].
    + eexists. split; [reflexivity|].
      destruct (final_flush_lines (extend_lines st1 [exn_str e; exn_traceback e]))
        as [-> _].
      cbn. rewrite <- app_assoc. reflexivity.
    + eexists. split; [reflexivity|].
      rewrite (proj1 (final_flush_lines st1)). reflexivity.
  - eexists. split; [reflexivity|].
    destruct (final_flush_lines (extend_lines st1 [timed_out_message 10]))
      as [-> _].
    cbn. rewrite <- app_assoc. reflexivity.
Qed.

(** The transcript of a capture, once the worker thread starts: every
    exchange of the run in order, then the executor's error if any, then the
    lines of the text written after the last call of [input], then the
    reports of the harvest. *)
Lemma capture_transcript (m : module) (p : prog) (input_prompts : list pystr)
      (folder_name : pystr) (w : world) :
  mod_main m = Some p ->
  thread_fault w = None ->
  let w1 := set_builtins_input (mock_input_fn input_prompts) w in
  let run := exec p blank_shim w1 in
  let talk := dialogue input_prompts 0 [] p in
  let lines := flat_map exchange_lines talk.1
               ++ error_lines run.1.1 ++ splitlines talk.2 in
  exists (extra : list pystr) (w' : world),
    harvest (txt_files w) folder_name lines
            (set_builtins_input (builtins_input w) run.2)
    = (Ok (lines ++ extra), w')
    /\ capture_output_and_files m input_prompts folder_name w
       = (Ok (lines ++ extra), w')
    /\ Forall move_report extra.
Proof.
  intros Hmain Hstart w1 run talk lines.
  destruct (redirected_block_lines m p blank_shim w1 Hmain Hstart)
    as [st' [Hblock Hlines]].
  destruct (exec_dialogue input_prompts p blank_shim w1 eq_refl)
    as [Hcaptured Hbuffer].
  fold run in Hblock, Hlines, Hcaptured, Hbuffer.
  cbn [captured_lines input_idx stdout_buffer blank_shim app] in Hcaptured, Hbuffer.
  fold talk in Hcaptured, Hbuffer.
  rewrite Hcaptured, Hbuffer in Hlines.
  fold lines in Hlines.
  destruct (harvest_appends (txt_files w) folder_name lines
              (set_builtins_input (builtins_input w) run.2))
    as [extra [w' [Hharvest Hextra]]].
  exists extra, w'. split; [exact Hharvest | split; [|exact Hextra]].
  unfold capture_output_and_files. cbv zeta.
  change {| captured_lines := []; input_idx := 0; stdout_buffer := [] |}
    with blank_shim.
  fold w1. rewrite Hblock, Hlines, Hharvest. reflexivity.
Qed.





(** ** A submission that calls [input] once *)

Lemma dialogue_perform (input_prompts : list pystr) (es : list effect) (k : prog) :
  forall (idx : nat) (chunk : pystr),
    dialogue input_prompts idx chunk (perform es k)
    = dialogue input_prompts idx (chunk ++ written es) k.
Proof.
  induction es as [|[s|f] rest IH]; intros idx chunk; cbn [perform dialogue written].
  - rewrite app_nil_r. reflexivity.
  - rewrite IH, <- app_assoc. reflexivity.
  - apply IH.
Qed.

Lemma exec_perform (es : list effect) (k : prog) :
  forall (st : shim) (w : world),
  exists (st' : shim) (w' : world),
    exec (perform es k) st w = exec k st' w'
    /\ input_idx st' = input_idx st
    /\ same_env w w'
    /\ (only_emits es -> fs w' = fs w).
Proof.
  induction es as [|[s|f] rest IH]; intros st w; cbn [perform exec].
  - exists st, w. repeat split; reflexivity.
  - match goal with
    | |- context [exec _ ?st1 w] => destruct (IH st1 w) as [st' [w' [Hrun [Hidx [Henv Hfs]]]]]
    end.
    exists st', w'. repeat split; try assumption; try apply Henv.
    intros Honly. apply Hfs. inversion Honly; assumption.
  - destruct (IH st (set_fs f w)) as [st' [w' [Hrun [Hidx [Henv Hfs]]]]].
    exists st', w'. repeat split; try assumption; try apply Henv.
    intros Honly. inversion Honly; contradiction.
Qed.

Lemma asks_once_returns (input_prompts : list pystr) (before : list effect)
      (prompt : pystr) (after : pystr -> list effect) (result : pystr -> pyval)
      (st : shim) (w : world) :
  builtins_input w = mock_input_fn input_prompts ->
  exists v : pyval,
    (exec (asks_once before prompt after result) st w).1.1
    = Finished (Returned v)
    /\ (only_emits before ->
        (forall answer, only_emits (after answer)) ->
        fs (exec (asks_once before prompt after result) st w).2 = fs w).
Proof.
  intros Hmock. unfold asks_once.
  destruct (exec_perform before
              (Ask prompt (fun answer => perform (after answer)
                                                 (Return (result answer)))) st w)
    as [st1 [w1 [-> [_ [[Hin _] Hfs1]]]]].
  cbn [exec]. rewrite Hin, Hmock.
  destruct (mock_input input_prompts prompt st1) as [value st2].
  destruct (exec_perform (after value) (Return (result value)) st2 w1)
    as [st3 [w3 [-> [_ [_ Hfs3]]]]].
  cbn [exec fst snd]. exists (result value). split; [reflexivity|].
  intros Hbefore Hafter. rewrite (Hfs3 (Hafter value)). exact (Hfs1 Hbefore).
Qed.

Lemma dialogue_asks_once (before : list effect) (prompt : pystr)
      (after : pystr -> list effect) (result : pystr -> pyval)
      (value : pystr) (rest : list pystr) :
  dialogue (value :: rest) 0 [] (asks_once before prompt after result)
  = ([(written before, prompt_echo prompt ++ [value])],
     written (after value)).
Proof.
  unfold asks_once. rewrite dialogue_perform.
  cbn [dialogue lookup list_lookup app]. rewrite dialogue_perform.
  reflexivity.
Qed.

Lemma txt_files_fs (w w' : world) : fs w' = fs w -> txt_files w' = txt_files w.
Proof. intros Hfs. unfold txt_files, listdir. rewrite Hfs. reflexivity. Qed.

(** C3, as the specification words it, fails on a prompt that ends with
    white space: the transcript holds the prompt without it, and the prompt
    text itself is not a line of the transcript. *)
Lemma greeter_transcript :
  capture_output_and_files greeter [py "Ann"] (py "greeter") quiet_world
  = (Ok [py "Hello"; py "Name:"; py "Ann"; py "Hi Ann"], quiet_world)
  /\ transcript_as_specified [EEmit (py "Hello" ++ nl)] (py "Name: ")
                             (fun name => [EEmit (py "Hi " ++ name ++ nl)])
                             (py "Ann")
     = [py "Hello"; py "Name: "; py "Ann"; py "Hi Ann"]
  /\ ~ In (py "Name: ") [py "Hello"; py "Name:"; py "Ann"; py "Hi Ann"].
Proof.
  split; [reflexivity | split; [reflexivity|]].
  intros Hin. vm_compute in Hin.
  repeat (destruct Hin as [Hin | Hin]; [discriminate Hin|]). exact Hin.
Qed.

(** A run that returns without calling [input] is a sequence of writes and
    file changes. *)
Lemma returns_shape (input_prompts : list pystr) (p : prog) :
  forall (idx : nat) (st : shim) (w : world) (v : pyval),
    input_count input_prompts idx p = 0 ->
    (exec p st w).1.1 = Finished (Returned v) ->
    exists es : list effect, p = perform es (Return v).
Proof.
  induction p as [r | e | s k IH | prompt k IH | f k IH | k IH];
    intros idx st w v Hcount Hends; cbn [input_count exec fst] in *.
  - injection Hends as ->. exists []. reflexivity.
  - discriminate Hends.
  - destruct (IH _ _ _ _ Hcount Hends) as [es ->].
    exists (EEmit s :: es). reflexivity.
  - destruct (input_prompts !! idx); discriminate Hcount.
  - destruct (IH _ _ _ _ Hcount Hends) as [es ->].
    exists (ETouch f :: es). reflexivity.
  - discriminate Hends.
Qed.

(** A run that calls [input] once and returns is a sequence of writes and
    file changes, the call, and for the value the call returns another such
    sequence. *)
Lemma single_input_shape (value : pystr) (rest : list pystr) (p : prog) :
  forall (st : shim) (w : world) (v : pyval),
    builtins_input w = mock_input_fn (value :: rest) ->
    input_idx st = 0 ->
    input_count (value :: rest) 0 p = 1 ->
    (exec p st w).1.1 = Finished (Returned v) ->
    exists (before : list effect) (prompt : pystr) (k : pystr -> prog)
           (after : list effect),
      p = perform before (Ask prompt k)
      /\ k value = perform after (Return v).
Proof.
  induction p as [r | e | s k IH | prompt k IH | f k IH | k IH];
    intros st w v Hmock Hidx Hcount Hends; cbn [input_count exec] in *;
    try discriminate Hcount.
  - eapply IH in Hends; [|exact Hmock | exact Hidx | exact Hcount].
    destruct Hends as [before [prompt [k' [after [-> Hk]]]]].
    exists (EEmit s :: before), prompt, k', after. split; [reflexivity | exact Hk].
  - clear IH. rewrite Hmock, mock_input_unfold, Hidx in Hends.
    cbn [lookup list_lookup] in Hcount, Hends. cbv beta iota zeta in Hends.
    injection Hcount as Hcount.
    destruct (returns_shape _ _ _ _ _ _ Hcount Hends) as [after Hk].
    exists [], prompt, k, after. split; [reflexivity | exact Hk].
  - destruct (IH st (set_fs f w) v Hmock Hidx Hcount Hends)
      as [before [prompt [k' [after [-> Hk]]]]].
    exists (ETouch f :: before), prompt, k', after.
    split; [reflexivity | exact Hk].
Qed.

(** C3 (amended): when the worker thread starts and the script has at least
    one line, a [main] whose run against the script calls [input] exactly
    once and returns consists of steps that write or change files, the call,
    and further such steps for the value the call returned; and its
    transcript holds, in this order: the lines written before the call; the
    prompt with its trailing white space removed, if the prompt is not
    empty; the first line of the script; the lines written after the call;
    and then only reports of files the harvest could not move, of which
    there are none when the submission changes no file. *)
Theorem single_input_transcript
        (m : module) (p : prog) (v : pyval)
        (value : pystr) (rest : list pystr) (folder_name : pystr) (w : world) :
  mod_main m = Some p ->
  thread_fault w = None ->
  input_count (value :: rest) 0 p = 1 ->
  (exec p blank_shim
        (set_builtins_input (mock_input_fn (value :: rest)) w)).1.1
  = Finished (Returned v) ->
  exists (before : list effect) (prompt : pystr) (k : pystr -> prog)
         (after : list effect),
    p = perform before (Ask prompt k)
    /\ k value = perform after (Return v)
    /\ exists (extra : list pystr) (w' : world),
        capture_output_and_files m (value :: rest) folder_name w
        = (Ok ((splitlines (written before)
                  ++ (if truthy prompt then [rstrip prompt] else [])
                  ++ [value]
                  ++ splitlines (written after))
                 ++ extra), w')
        /\ Forall move_report extra
        /\ (only_emits before -> only_emits after -> extra = []).
Proof.
  intros Hmain Hstart Hcount Hends.
  destruct (single_input_shape value rest p blank_shim
              (set_builtins_input (mock_input_fn (value :: rest)) w) v
              eq_refl eq_refl Hcount Hends)
    as [before [prompt [k [after [Hp Hk]]]]].
  exists before, prompt, k, after. split; [exact Hp | split; [exact Hk|]].
  pose proof (capture_transcript m _ (value :: rest) folder_name w Hmain Hstart)
    as Hcap.
  cbv zeta in Hcap. rewrite Hends in Hcap. subst p.
  rewrite dialogue_perform in Hcap.
  cbn [dialogue lookup list_lookup app] in Hcap.
  rewrite Hk, dialogue_perform in Hcap.
  cbn [dialogue fst snd flat_map error_lines app] in Hcap.
  unfold exchange_lines in Hcap. cbn [fst snd] in Hcap.
  destruct Hcap as [extra [w' [Hharvest [Hcapture Hextra]]]].
  rewrite app_nil_r, <- !app_assoc in Hharvest, Hcapture.
  fold (prompt_echo prompt).
  exists extra, w'. split; [|split; [exact Hextra|]].
  - rewrite Hcapture, <- !app_assoc. reflexivity.
  - intros Hbefore Hafter.
    assert (Hfs : fs (exec (perform before (Ask prompt k)) blank_shim
                           (set_builtins_input (mock_input_fn (value :: rest)) w)).2
                  = fs w).
    { destruct (exec_perform before (Ask prompt k) blank_shim
                  (set_builtins_input (mock_input_fn (value :: rest)) w))
        as [st1 [w1 [-> [Hidx [[Hin _] Hfs1]]]]].
      cbn [exec]. rewrite Hin. cbn [set_builtins_input builtins_input].
      rewrite mock_input_unfold, Hidx.
      cbn [blank_shim input_idx lookup list_lookup]. cbv beta iota zeta.
      rewrite Hk.
      match goal with
      | |- context [exec (perform after (Return v)) ?st2 w1] =>
          destruct (exec_perform after (Return v) st2 w1)
            as [st3 [w3 [-> [_ [_ Hfs3]]]]]
      end.
      cbn [exec snd]. rewrite (Hfs3 Hafter). exact (Hfs1 Hbefore). }
    rewrite <- (txt_files_fs w
                  (set_builtins_input (builtins_input w)
                     (exec (perform before (Ask prompt k)) blank_shim
                           (set_builtins_input (mock_input_fn (value :: rest)) w)).2))
      in Hharvest by exact Hfs.
    rewrite harvest_nothing_new in Hharvest.
    injection Hharvest as Hlines _.
    apply (f_equal length) in Hlines. rewrite !length_app in Hlines.
    destruct extra; [reflexivity | simpl in Hlines; lia].
Qed.

(** The amended C3 at a submission that returns for the scripted answer and
    would raise for any other. *)
Lemma single_input_transcript_witness :
  input_count [py "5"] 0
              (Ask (py "n: ")
                   (fun answer =>
                      if bool_decide (answer = py "5")
                      then Emit (py "10" ++ nl) (Return PyNone)
                      else Raise value_error)) = 1
  /\ thread_fault quiet_world = None
  /\ exists (extra : list pystr) (w' : world),
      capture_output_and_files checker [py "5"] (py "checker") quiet_world
      = (Ok ([py "n:"; py "5"; py "10"] ++ extra), w')
      /\ Forall move_report extra.
Proof.
  split; [reflexivity | split; [reflexivity|]].
  destruct (single_input_transcript
              checker
              (Ask (py "n: ")
                   (fun answer =>
                      if bool_decide (answer = py "5")
                      then Emit (py "10" ++ nl) (Return PyNone)
                      else Raise value_error))
              PyNone (py "5") [] (py "checker") quiet_world
              eq_refl eq_refl eq_refl eq_refl)
    as [before [prompt [k [after [Hp [Hk [extra [w' [Hcapture [Hextra Hnone]]]]]]]]]].
  exists extra, w'. split; [|exact Hextra].
  rewrite Hcapture. clear Hcapture Hnone.
  destruct before as [|[s|f] before]; cbn [perform] in Hp; [|discriminate Hp..].
  injection Hp as <- <-.
  destruct after as [|[s|f] [|x after]]; vm_compute in Hk;
    try discriminate Hk; try (destruct x; discriminate Hk).
  injection Hk as <-. reflexivity.
Defined.

(** ** The destination folder *)

(** C6 fails on a file name that holds [.py] before its extension:
    [replace] removes every occurrence, so the submission [quiz.python.py]
    gets the folder [quizthon], not [quiz.python]. *)
Theorem create_project_folder_inner_occurrence (w : world) :
  (create_project_folder (py "quiz.python.py") w).1 = Ok (py "quizthon")
  /\ without_py_suffix (py "quiz.python.py") = py "quiz.python"
  /\ py "quizthon" <> py "quiz.python".
Proof.
  split; [|split; [reflexivity | discriminate]].
  unfold create_project_folder, bind, path_exists, when, ret.
  change (replace (py ".py") [] (py "quiz.python.py")) with (py "quizthon").
  destruct (exists_in (fs w) (py "quizthon")) eqn:Hexists; cbn [negb].
  - reflexivity.
  - unfold makedirs. rewrite Hexists. reflexivity.
Qed.

(** ** Paths *)

Lemma existsb_slash_false (p : pystr) :
  existsb (N.eqb slash) p = false -> no_slash p.
Proof.
  induction p as [|c r IH]; [constructor|].
  cbn [existsb]. intros H. apply orb_false_elim in H as [Hc Hr].
  constructor; [|exact (IH Hr)].
  intros ->. rewrite N.eqb_refl in Hc. discriminate.
Qed.

Lemma listdir_entry (w : world) (f : pystr) :
  f ∈ listdir w -> f <> [] /\ no_slash f /\ is_Some (fs w !! f).
Proof.
  unfold listdir. intros Hin.
  apply list_elem_of_filter in Hin as [Hgood Hin].
  apply andb_prop in Hgood as [Hne Hslash].
  apply negb_true_iff in Hslash.
  repeat split.
  - intros ->. discriminate.
  - exact (existsb_slash_false f Hslash).
  - apply list_elem_of_fmap in Hin as [[k v] [-> Hkv]].
    apply elem_of_map_to_list in Hkv. exists v. exact Hkv.
Qed.

Lemma python_files_entry (w : world) (f : pystr) :
  f ∈ python_files w ->
  endswith (py ".py") f = true /\ f <> py "grader.py" /\ f ∈ listdir w.
Proof.
  unfold python_files. intros Hin.
  apply list_elem_of_filter in Hin as [Hgood Hin].
  apply andb_prop in Hgood as [Hpy Hgrader].
  apply negb_true_iff, bool_decide_eq_false in Hgrader.
  repeat split; assumption.
Qed.

Lemma replace_from_no_slash (old : pystr) (s : pystr) :
  no_slash s -> forall skip, no_slash (replace_from old [] skip s).
Proof.
  induction 1 as [|c r Hc Hr IH]; intros skip; cbn [replace_from]; [constructor|].
  destruct skip as [|k]; [|apply IH].
  destruct (startswith old (c :: r)); cbn [app]; [apply IH|].
  constructor; [exact Hc | apply IH].
Qed.

Lemma folder_name_no_slash (project_name : pystr) :
  no_slash project_name -> no_slash (replace (py ".py") [] project_name).
Proof. intros H. exact (replace_from_no_slash _ _ H 0). Qed.

Lemma startswith_slash_no_slash (p : pystr) :
  no_slash p -> startswith [slash] p = false.
Proof.
  intros [|c r Hc _]; [reflexivity|]. cbn [startswith].
  destruct (N.eqb_spec slash c) as [Heq|]; [|reflexivity].
  symmetry in Heq. contradiction.
Qed.

Lemma path_join_components (a b : pystr) :
  a <> [] -> no_slash a -> no_slash b -> path_join a b = a ++ slash :: b.
Proof.
  intros Ha Hsa Hsb. unfold path_join, endswith.
  rewrite (startswith_slash_no_slash b Hsb).
  change (reverse [slash]) with [slash].
  rewrite startswith_slash_no_slash by (apply Forall_reverse; exact Hsa).
  destruct a; [contradiction | reflexivity].
Qed.

Lemma split_no_slash (p : pystr) : no_slash p -> split p = None.
Proof.
  induction 1 as [|c r Hc _ IH]; [reflexivity|]. cbn [split]. rewrite IH.
  destruct (N.eqb_spec c slash); [contradiction | reflexivity].
Qed.

Lemma split_components (a b : pystr) :
  no_slash b -> split (a ++ slash :: b) = Some (a, b).
Proof.
  intros Hb. induction a as [|c a IH]; cbn [app split].
  - rewrite (split_no_slash b Hb), N.eqb_refl. reflexivity.
  - rewrite IH. reflexivity.
Qed.

Lemma ancestors_from_no_slash (p : pystr) :
  no_slash p -> forall seen, ancestors_from seen p = [].
Proof.
  induction 1 as [|c r Hc _ IH]; intros seen; [reflexivity|].
  cbn [ancestors_from].
  destruct (N.eqb_spec c slash); [contradiction | apply IH].
Qed.

Lemma no_slash_not_component (a b p : pystr) :
  no_slash p -> p <> a ++ slash :: b.
Proof.
  intros Hp ->. apply Forall_app in Hp as [_ Hp].
  inversion Hp; contradiction.
Qed.

Lemma no_slash_literal (s : string) :
  existsb (N.eqb slash) (py s) = false -> no_slash (py s).
Proof. apply existsb_slash_false. Qed.

(** ** Archiving a submission without an entry point *)

Lemma bind_ok {A B} (m : M A) (k : A -> M B) (w w' : world) (a : A) :
  m w = (Ok a, w') -> bind m k w = k a w'.
Proof. intros H. unfold bind. rewrite H. reflexivity. Qed.

Lemma isdir_in_false (m : gmap pystr node) (p : pystr) :
  m !! p <> Some Dir -> isdir_in m p = false.
Proof. unfold isdir_in. destruct (m !! p) as [[c|]|]; congruence. Qed.

Lemma create_project_folder_ready (project_file : pystr) (w : world) :
  replace (py ".py") [] project_file <> [] ->
  no_slash (replace (py ".py") [] project_file) ->
  fs w !! replace (py ".py") [] project_file = None
  \/ fs w !! replace (py ".py") [] project_file = Some Dir ->
  exists w1 : world,
    create_project_folder project_file w
    = (Ok (replace (py ".py") [] project_file), w1)
    /\ fs w1 !! replace (py ".py") [] project_file = Some Dir
    /\ forall p, p <> replace (py ".py") [] project_file ->
                 fs w1 !! p = fs w !! p.
Proof.
  set (folder_name := replace (py ".py") [] project_file).
  intros Hne Hns Hstate.
  unfold create_project_folder. fold folder_name. cbv zeta.
  unfold bind, path_exists, when, ret, exists_in.
  destruct Hstate as [Hnone | Hdir].
  - rewrite Hnone. cbn [negb]. unfold makedirs, exists_in, ancestors.
    rewrite Hnone, (ancestors_from_no_slash _ Hns).
    destruct folder_name as [|c r] eqn:Hfolder; [contradiction|].
    cbn [is_empty existsb foldr].
    eexists. split; [reflexivity|]. cbn [fs set_fs]. split.
    + apply lookup_insert_eq.
    + intros p Hp. apply lookup_insert_ne. congruence.
  - rewrite Hdir. cbn [negb]. exists w. repeat split; assumption.
Qed.


Lemma write_file_ok (p text : pystr) (w : world) :
  fs w !! p <> Some Dir ->
  p <> [] ->
  parent_is_dir (fs w) p = true ->
  write_file p text w = (Ok tt, set_fs (fun m => <[p := File text]> m) w).
Proof.
  intros Hdir Hne Hparent. unfold write_file.
  rewrite (isdir_in_false _ _ Hdir), Hparent.
  destruct p; [contradiction | reflexivity].
Qed.

Lemma shutil_move_file (src dst code : pystr) (w : world) :
  fs w !! src = Some (File code) ->
  fs w !! dst <> Some Dir ->
  dst <> [] ->
  parent_is_dir (fs w) dst = true ->
  shutil_move src dst w
  = (Ok tt, set_fs (fun m => <[dst := File code]> (delete src m)) w).
Proof.
  intros Hsrc Hdir Hne Hparent. unfold shutil_move, rename.
  rewrite (isdir_in_false _ _ Hdir), Hsrc, Hparent.
  destruct dst; [contradiction | reflexivity].
Qed.



(** ** No ordinary error stops the batch *)

Lemma threads_ok_same_env (w w' : world) :
  same_env w w' -> threads_ok w -> threads_ok w'.
Proof. intros [_ [Hfault _]] Hok e He. apply Hok. congruence. Qed.

Lemma guarded_of_roe {A} (m : M A) : raises_only_exceptions m -> guarded m.
Proof. intros Hm w e w' _. apply Hm. Qed.

Lemma guarded_bind {A B} (m : M A) (k : A -> M B) :
  guarded m -> keeps_env m -> (forall a, guarded (k a)) -> guarded (bind m k).
Proof.
  intros Hm Henv Hk w e w' Hok. unfold bind.
  pose proof (Henv w) as Hsame.
  destruct (m w) as [[a|e1] w1] eqn:Hrun; cbn [snd] in Hsame.
  - apply Hk. exact (threads_ok_same_env _ _ Hsame Hok).
  - intros [= <- <-]. exact (Hm _ _ _ Hok Hrun).
Qed.

Lemma redirected_block_raises (m : module) (st st' : shim) (w w' : world)
      (e : py_exn) :
  redirected_block m st w = (Exc e, st', w') -> thread_fault w = Some e.
Proof.
  unfold redirected_block, run_with_timeout.
  destruct (mod_main m) as [p|]; [|discriminate].
  destruct (thread_fault w) as [e1|]; [intros [= -> _ _]; reflexivity|].
  destruct (exec p st w) as [[t st1] w1].
  destruct t as [[v|e1]|]; cbn [target];
    try destruct (exn_is_exception e1); discriminate.
Qed.

Lemma capture_guarded (m : module) (input_prompts : list pystr)
      (folder_name : pystr) :
  guarded (capture_output_and_files m input_prompts folder_name).
Proof.
  intros w e w' Hok. unfold capture_output_and_files. cbv zeta.
  destruct (redirected_block m _ _) as [[[[]|e1] st] w2] eqn:Hblock.
  - match goal with
    | |- context [harvest ?i ?f ?l ?w3] =>
        destruct (harvest_appends i f l w3) as [extra [w4 [-> _]]]
    end. discriminate.
  - apply redirected_block_raises in Hblock. cbn in Hblock.
    rewrite (Hok _ Hblock).
    match goal with
    | |- context [harvest ?i ?f ?l ?w3] =>
        destruct (harvest_appends i f l w3) as [extra [w4 [-> _]]]
    end. discriminate.
Qed.

Lemma roe_import_student_module (interp : pystr -> load_result)
      (file_path : pystr) :
  loads_ok interp -> raises_only_exceptions (import_student_module interp file_path).
Proof.
  intros Hinterp. unfold import_student_module.
  apply roe_bind; [apply roe_read_file|]. intros code.
  destruct (interp code) as [m|e] eqn:Hload; [apply roe_ret|].
  intros w e' w' [= <- <-]. exact (Hinterp _ _ Hload).
Qed.

Lemma keeps_env_import_student_module (interp : pystr -> load_result)
      (file_path : pystr) :
  keeps_env (import_student_module interp file_path).
Proof.
  unfold import_student_module.
  apply keeps_env_bind; [apply keeps_env_read_file|]. intros code.
  destruct (interp code); [apply keeps_env_ret | apply keeps_env_raise].
Qed.

Lemma roe_load_input_prompts : raises_only_exceptions load_input_prompts.
Proof. unfold load_input_prompts. auto with exn. Qed.

Lemma keeps_env_load_input_prompts : keeps_env load_input_prompts.
Proof. unfold load_input_prompts. auto with env. Qed.

Lemma roe_create_project_folder (project_name : pystr) :
  raises_only_exceptions (create_project_folder project_name).
Proof. unfold create_project_folder. auto 10 with exn. Qed.

Lemma keeps_env_create_project_folder (project_name : pystr) :
  keeps_env (create_project_folder project_name).
Proof. unfold create_project_folder. auto 10 with env. Qed.

#[local] Hint Resolve roe_import_student_module roe_load_input_prompts
  roe_create_project_folder : exn.
#[local] Hint Resolve keeps_env_import_student_module
  keeps_env_load_input_prompts keeps_env_create_project_folder
  capture_same_env : env.

Lemma archive_guarded (interp : pystr -> load_result)
      (project_file folder_name : pystr) :
  loads_ok interp -> guarded (archive interp project_file folder_name).
Proof.
  intros Hinterp. unfold archive.
  apply guarded_bind; [apply guarded_of_roe; auto with exn | auto with env |].
  intros m.
  apply guarded_bind; [apply guarded_of_roe; auto with exn | auto with env |].
  intros input_prompts.
  apply guarded_bind; [apply capture_guarded | auto with env |].
  intros output. apply guarded_of_roe. auto 10 with exn.
Qed.

Lemma keeps_env_archive (interp : pystr -> load_result)
      (project_file folder_name : pystr) :
  keeps_env (archive interp project_file folder_name).
Proof. unfold archive. auto 20 with env. Qed.

Lemma keeps_env_archive_failure (project_file : pystr) (folder : option pystr)
      (e : py_exn) :
  keeps_env (archive_failure project_file folder e).
Proof.
  unfold archive_failure.
  repeat (apply keeps_env_bind; [auto with env | intros ?]).
  apply keeps_env_try_except; [|auto with env].
  apply keeps_env_bind; [destruct folder; auto with env | intros ?].
  auto 20 with env.
Qed.

Lemma archive_failure_returns (project_file : pystr) (folder : option pystr)
      (e : py_exn) :
  always_returns (archive_failure project_file folder e).
Proof.
  intros w. unfold archive_failure, bind at 1 2, print at 1, print_exc.
  cbv beta iota. unfold try_except.
  match goal with
  | |- context [bind ?m ?k ?w1] =>
      assert (Hbody : raises_only_exceptions (bind m k));
      [|destruct (bind m k w1) as [[[]|e1] w2] eqn:Hrun]
  end.
  - apply roe_bind;
      [destruct folder; [apply roe_ret | exact (roe_os_raise _ _)]|].
    intros folder_name. cbv zeta. auto 20 with exn.
  - eexists. reflexivity.
  - rewrite (Hbody _ _ _ Hrun). unfold print. eexists. reflexivity.
Qed.

Lemma keeps_env_process_project (interp : pystr -> load_result)
      (project_file : pystr) :
  keeps_env (process_project interp project_file).
Proof.
  intros w. unfold process_project.
  pose proof (keeps_env_create_project_folder project_file w) as Hcreate.
  destruct (create_project_folder project_file w) as [[folder_name|e] w1];
    cbn [snd] in Hcreate.
  - refine (same_env_trans _ _ _ Hcreate _).
    apply keeps_env_try_except;
      [apply keeps_env_archive | intros e; apply keeps_env_archive_failure].
  - destruct (exn_is_exception e); [|exact Hcreate].
    exact (same_env_trans _ _ _ Hcreate
             (keeps_env_archive_failure project_file None e w1)).
Qed.

Lemma process_project_returns (interp : pystr -> load_result)
      (project_file : pystr) (w : world) :
  loads_ok interp -> threads_ok w ->
  exists w', process_project interp project_file w = (Ok tt, w').
Proof.
  intros Hinterp Hok. unfold process_project.
  pose proof (keeps_env_create_project_folder project_file w) as Hsame.
  destruct (create_project_folder project_file w) as [[folder_name|e] w1] eqn:Hcreate;
    cbn [snd] in Hsame.
  - unfold try_except.
    destruct (archive interp project_file folder_name w1) as [[[]|e] w2] eqn:Hrun.
    + eexists. reflexivity.
    + rewrite (archive_guarded interp project_file folder_name Hinterp
                 _ _ _ (threads_ok_same_env _ _ Hsame Hok) Hrun).
      apply archive_failure_returns.
  - rewrite (roe_create_project_folder _ _ _ _ Hcreate).
    apply archive_failure_returns.
Qed.

Lemma for_each_completes {A} (body : A -> M unit) (mark : A -> pystr) :
  (forall a w, threads_ok w ->
               exists w', body a w = (Ok tt, w') /\ same_env w w'
                          /\ mark a ∈ console w') ->
  forall (l : list A) (w : world),
    threads_ok w ->
    exists w', for_each l body w = (Ok tt, w') /\ same_env w w'
               /\ forall a, a ∈ l -> mark a ∈ console w'.
Proof.
  intros Hbody. induction l as [|a rest IH]; intros w Hok; cbn [for_each].
  - exists w. split; [reflexivity | split; [apply same_env_refl|]].
    intros a Ha. inversion Ha.
  - destruct (Hbody a w Hok) as [w1 [Hrun [Hsame1 Hmark]]].
    destruct (IH w1 (threads_ok_same_env _ _ Hsame1 Hok))
      as [w2 [Hrest [Hsame2 Hmarks]]].
    exists w2. split; [|split].
    + rewrite (bind_ok _ _ _ _ _ Hrun). exact Hrest.
    + exact (same_env_trans _ _ _ Hsame1 Hsame2).
    + intros a' Ha'. apply elem_of_cons in Ha' as [-> | Ha'].
      * destruct Hsame2 as [_ [_ [later Hlater]]]. rewrite Hlater.
        apply elem_of_app. left. exact Hmark.
      * exact (Hmarks a' Ha').
Qed.

Lemma loads_ok_toy_interp : loads_ok toy_interp.
Proof.
  intros code e. unfold toy_interp.
  repeat case_bool_decide; [discriminate | intros [= <-]; reflexivity | discriminate].
Qed.

(** ** What reaches the console *)

Lemma plain_app (a b : pystr) : plain a -> plain b -> plain (a ++ b).
Proof.
  unfold plain, encodable. intros Ha Hb. rewrite forallb_app, Ha, Hb.
  reflexivity.
Qed.

Lemma plain_Forall (s : pystr) :
  plain s <-> Forall (fun c => encodable_char c = true) s.
Proof.
  unfold plain, encodable. induction s as [|c r IH]; cbn [forallb].
  - split; [constructor | reflexivity].
  - rewrite andb_true_iff, IH. split.
    + intros [Hc Hr]. constructor; assumption.
    + intros H. inversion H; subst. split; assumption.
Qed.

Ltac plain_text :=
  repeat match goal with
         | |- plain (_ ++ _) => apply plain_app
         | |- plain (py _) => vm_compute; reflexivity
         | |- plain nl => reflexivity
         | |- plain [slash] => reflexivity
         | |- plain _ => assumption
         end.

Lemma py_String (c : ascii) (s : string) :
  py (String c s) = [N_of_ascii c] ++ py s.
Proof. reflexivity. Qed.

Lemma plain_digits (d : Decimal.uint) : plain (py (NilZero.string_of_uint d)).
Proof.
  assert (Hd : forall d' : Decimal.uint, plain (py (NilEmpty.string_of_uint d'))).
  { induction d' as [|d' IH|d' IH|d' IH|d' IH|d' IH|d' IH|d' IH|d' IH|d' IH|d' IH];
      [reflexivity|..];
      cbn [NilEmpty.string_of_uint];
      (rewrite py_String;
       apply plain_app; [reflexivity | exact IH]). }
  destruct d; [reflexivity|..]; apply Hd.
Qed.

Lemma plain_decimal (n : N) : plain (decimal n).
Proof. apply plain_digits. Qed.

Lemma replace_from_Forall (P : N -> Prop) (old s : pystr) :
  Forall P s -> forall skip, Forall P (replace_from old [] skip s).
Proof.
  induction 1 as [|c r Hc Hr IH]; intros skip; cbn [replace_from]; [constructor|].
  destruct skip as [|k]; [|apply IH].
  destruct (startswith old (c :: r)); cbn [app]; [apply IH|].
  constructor; [exact Hc | apply IH].
Qed.

Lemma plain_folder_name (project_name : pystr) :
  plain project_name -> plain (replace (py ".py") [] project_name).
Proof.
  rewrite !plain_Forall. intros H. exact (replace_from_Forall _ _ _ H 0).
Qed.

Lemma plain_path_join (a b : pystr) :
  plain a -> plain b -> plain (path_join a b).
Proof.
  intros Ha Hb. unfold path_join.
  repeat match goal with |- context [if ?c then _ else _] => destruct c end;
    plain_text.
Qed.

Lemma split_Forall (P : N -> Prop) (p : pystr) :
  forall d b, split p = Some (d, b) -> Forall P p -> Forall P b.
Proof.
  induction p as [|c r IH]; intros d b Hsplit Hp; cbn [split] in Hsplit;
    [discriminate|].
  inversion Hp as [|? ? Hc Hr]; subst.
  destruct (split r) as [[d' b']|] eqn:Hr'.
  - injection Hsplit as <- <-. exact (IH _ _ eq_refl Hr).
  - destruct (N.eqb c slash); [|discriminate].
    injection Hsplit as <- <-. exact Hr.
Qed.

Lemma plain_basename (p : pystr) : plain p -> plain (basename p).
Proof.
  rewrite !plain_Forall. intros Hp. unfold basename.
  destruct (split p) as [[d b]|] eqn:Hsplit; [|exact Hp].
  exact (split_Forall _ _ _ _ Hsplit Hp).
Qed.

(** *** Computations that print nothing *)

Create HintDb hush discriminated.

Lemma quiet_ret {A} (a : A) : quiet (ret a).
Proof. intros w. reflexivity. Qed.

Lemma quiet_raise {A} (e : py_exn) : quiet (@raise A e).
Proof. intros w. reflexivity. Qed.

Lemma quiet_bind {A B} (m : M A) (k : A -> M B) :
  quiet m -> (forall a, quiet (k a)) -> quiet (bind m k).
Proof.
  intros Hm Hk w. unfold bind. specialize (Hm w).
  destruct (m w) as [[a|e] w1]; cbn [snd] in *; [|exact Hm].
  rewrite (Hk a w1). exact Hm.
Qed.

Lemma quiet_try_except {A} (m : M A) (h : py_exn -> M A) :
  quiet m -> (forall e, quiet (h e)) -> quiet (try_except m h).
Proof.
  intros Hm Hh w. unfold try_except. specialize (Hm w).
  destruct (m w) as [[a|e] w1]; cbn [snd] in *; [exact Hm|].
  destruct (exn_is_exception e); [|exact Hm].
  rewrite (Hh e w1). exact Hm.
Qed.

Lemma quiet_when (b : bool) (m : M unit) : quiet m -> quiet (when b m).
Proof. intros Hm. destruct b; [exact Hm | apply quiet_ret]. Qed.

Lemma quiet_print_exc (e : py_exn) : quiet (print_exc e).
Proof. intros w. reflexivity. Qed.

Lemma quiet_path_exists (p : pystr) : quiet (path_exists p).
Proof. intros w. reflexivity. Qed.

Lemma quiet_makedirs (p : pystr) : quiet (makedirs p).
Proof. intros w. unfold makedirs. repeat case_match; reflexivity. Qed.

Lemma quiet_read_file (p : pystr) : quiet (read_file p).
Proof. intros w. unfold read_file. repeat case_match; reflexivity. Qed.

Lemma quiet_write_file (p text : pystr) : quiet (write_file p text).
Proof. intros w. unfold write_file. repeat case_match; reflexivity. Qed.

Lemma quiet_rename (src dst : pystr) : quiet (rename src dst).
Proof. intros w. unfold rename. repeat case_match; reflexivity. Qed.

Lemma quiet_shutil_move (src dst : pystr) : quiet (shutil_move src dst).
Proof.
  intros w. unfold shutil_move.
  repeat case_match; try reflexivity; apply quiet_rename.
Qed.

#[local] Hint Resolve quiet_ret quiet_raise quiet_bind quiet_try_except
  quiet_when quiet_print_exc quiet_path_exists quiet_makedirs quiet_read_file
  quiet_write_file quiet_rename quiet_shutil_move : hush.

Lemma quiet_move_new_files (folder_name : pystr) (files lines : list pystr) :
  quiet (move_new_files folder_name files lines).
Proof.
  revert lines. induction files as [|f rest IH]; intros lines;
    cbn [move_new_files]; auto 10 with hush.
Qed.

Lemma quiet_harvest (initial : gset pystr) (folder_name : pystr)
      (lines : list pystr) :
  quiet (harvest initial folder_name lines).
Proof.
  unfold harvest. apply quiet_try_except; [|auto with hush].
  intros w. apply quiet_move_new_files.
Qed.

Lemma exec_console (p : prog) :
  forall (st : shim) (w : world), console (exec p st w).2 = console w.
Proof.
  induction p as [v | e | s k IH | prompt k IH | f k IH | k IH];
    intros st w; cbn [exec snd]; try reflexivity.
  - apply IH.
  - destruct (builtins_input w); [reflexivity|].
    destruct (mock_input _ _ _). apply IH.
  - rewrite IH. reflexivity.
Qed.

Lemma redirected_block_console (m : module) (st : shim) (w : world) :
  console (redirected_block m st w).2 = console w.
Proof.
  unfold redirected_block, run_with_timeout.
  destruct (mod_main m) as [p|]; [|reflexivity].
  destruct (thread_fault w); [reflexivity|].
  pose proof (exec_console p st w) as Hrun.
  destruct (exec p st w) as [[t st1] w2].
  destruct t as [[v|e]|]; cbn [target];
    try destruct (exn_is_exception e); exact Hrun.
Qed.

Lemma quiet_capture (m : module) (input_prompts : list pystr)
      (folder_name : pystr) :
  quiet (capture_output_and_files m input_prompts folder_name).
Proof.
  intros w. unfold capture_output_and_files. cbv zeta.
  match goal with
  | |- context [redirected_block m ?st0 ?w1] =>
      pose proof (redirected_block_console m st0 w1) as Hblock;
      destruct (redirected_block m st0 w1) as [[[[]|e] st] w2]
  end;
    cbn [snd set_builtins_input console] in Hblock;
    try destruct (exn_is_exception e);
    match goal with
    | |- context [harvest ?i ?f ?l ?w3] =>
        pose proof (quiet_harvest i f l w3) as Hharvest;
        destruct (harvest i f l w3) as [[lines|e'] w4]
    end;
    cbn [snd set_builtins_input console] in Hharvest;
    cbn [snd]; rewrite Hharvest; exact Hblock.
Qed.

Lemma quiet_import_student_module (interp : pystr -> load_result)
      (file_path : pystr) :
  quiet (import_student_module interp file_path).
Proof.
  unfold import_student_module.
  apply quiet_bind; [apply quiet_read_file|]. intros code.
  destruct (interp code); [apply quiet_ret | apply quiet_raise].
Qed.

Lemma quiet_load_input_prompts : quiet load_input_prompts.
Proof. unfold load_input_prompts. auto with hush. Qed.

Lemma quiet_create_project_folder (project_name : pystr) :
  quiet (create_project_folder project_name).
Proof. unfold create_project_folder. auto 10 with hush. Qed.

#[local] Hint Resolve quiet_capture quiet_import_student_module
  quiet_load_input_prompts quiet_create_project_folder : hush.

(** *** The messages of the errors raised *)

Create HintDb msg discriminated.

Lemma fp_ret {A} (a : A) : fails_plainly (ret a).
Proof. intros w e _ [=]. Qed.

Lemma fp_raise {A} (e : py_exn) :
  plain (exn_str e) -> fails_plainly (@raise A e).
Proof. intros He w e' _ [= <-] _. exact He. Qed.

Lemma fp_bind {A B} (m : M A) (k : A -> M B) :
  fails_plainly m -> keeps_env m -> (forall a, fails_plainly (k a)) ->
  fails_plainly (bind m k).
Proof.
  intros Hm Henv Hk w e Hok. unfold bind.
  pose proof (Henv w) as Hsame. specialize (Hm w).
  destruct (m w) as [[a|e1] w1]; cbn [fst snd] in *.
  - apply Hk. exact (threads_ok_same_env _ _ Hsame Hok).
  - intros [= <-]. exact (Hm e1 Hok eq_refl).
Qed.

Lemma fp_bind_ret {A B} (a : A) (k : A -> M B) :
  fails_plainly (k a) -> fails_plainly (bind (ret a) k).
Proof. intros Hk w. exact (Hk w). Qed.

Lemma fp_bind_raise {A B} (e : py_exn) (k : A -> M B) :
  plain (exn_str e) -> fails_plainly (bind (raise e) k).
Proof. intros He w e' _ [= <-] _. exact He. Qed.

Lemma fp_when (b : bool) (m : M unit) :
  fails_plainly m -> fails_plainly (when b m).
Proof. intros Hm. destruct b; [exact Hm | apply fp_ret]. Qed.

Lemma fp_print (s : pystr) : fails_plainly (print s).
Proof. intros w e _ [=]. Qed.

Lemma fp_path_exists (p : pystr) : fails_plainly (path_exists p).
Proof. intros w e _ [=]. Qed.

Ltac fp_cases :=
  repeat case_match; cbn [fst];
  try (intros [=]; fail);
  intros [= <-] _;
  cbv [exn_str FileNotFoundError FileExistsError NotADirectoryError
       IsADirectoryError DirectoryNotEmpty DestinationExists os_error quoted];
  plain_text.

Lemma fp_makedirs (p : pystr) : plain p -> fails_plainly (makedirs p).
Proof. intros Hp w e _. unfold makedirs. fp_cases. Qed.

Lemma fp_read_file (p : pystr) : plain p -> fails_plainly (read_file p).
Proof. intros Hp w e _. unfold read_file. fp_cases. Qed.

Lemma fp_write_file (p text : pystr) :
  plain p -> fails_plainly (write_file p text).
Proof. intros Hp w e _. unfold write_file. fp_cases. Qed.

Lemma fp_rename (src dst : pystr) :
  plain src -> plain dst -> fails_plainly (rename src dst).
Proof. intros Hsrc Hdst w e _. unfold rename. fp_cases. Qed.

Lemma fp_shutil_move (src dst : pystr) :
  plain src -> plain dst -> fails_plainly (shutil_move src dst).
Proof.
  intros Hsrc Hdst w e Hok. unfold shutil_move.
  assert (Hreal : plain (path_join dst (basename src)))
    by (apply plain_path_join; [exact Hdst | apply plain_basename; exact Hsrc]).
  destruct (isdir_in (fs w) dst); [|exact (fp_rename _ _ Hsrc Hdst w e Hok)].
  cbv zeta. destruct (exists_in _ _); [|exact (fp_rename _ _ Hsrc Hreal w e Hok)].
  cbn [fst]. intros [= <-] _.
  cbv [exn_str DestinationExists os_error quoted]. plain_text.
Qed.

#[local] Hint Resolve fp_ret fp_raise fp_bind fp_when fp_print fp_path_exists
  fp_makedirs fp_read_file fp_write_file fp_rename fp_shutil_move : msg.

(** Under [threads_ok] the capture raises no instance of [Exception]. *)
Lemma fp_capture (m : module) (input_prompts : list pystr)
      (folder_name : pystr) :
  fails_plainly (capture_output_and_files m input_prompts folder_name).
Proof.
  intros w e Hok. unfold capture_output_and_files. cbv zeta.
  destruct (redirected_block m _ _) as [[[[]|e1] st] w2] eqn:Hblock.
  - match goal with
    | |- context [harvest ?i ?f ?l ?w3] =>
        destruct (harvest_appends i f l w3) as [extra [w4 [-> _]]]
    end. discriminate.
  - apply redirected_block_raises in Hblock. cbn in Hblock.
    rewrite (Hok _ Hblock).
    match goal with
    | |- context [harvest ?i ?f ?l ?w3] =>
        destruct (harvest_appends i f l w3) as [extra [w4 [-> _]]]
    end. discriminate.
Qed.

Lemma fp_import_student_module (interp : pystr -> load_result)
      (file_path : pystr) :
  loads_plainly interp -> plain file_path ->
  fails_plainly (import_student_module interp file_path).
Proof.
  intros Hinterp Hpath. unfold import_student_module.
  apply fp_bind; [auto with msg | auto with env |]. intros code.
  destruct (interp code) as [m|e] eqn:Hload; [apply fp_ret|].
  apply fp_raise. exact (Hinterp _ _ Hload).
Qed.

Lemma fp_load_input_prompts : fails_plainly load_input_prompts.
Proof.
  unfold load_input_prompts.
  apply fp_bind; [apply fp_read_file; vm_compute; reflexivity | auto with env |].
  intros text. apply fp_ret.
Qed.

Lemma fp_create_project_folder (project_name : pystr) :
  plain project_name -> fails_plainly (create_project_folder project_name).
Proof.
  intros Hname. pose proof (plain_folder_name _ Hname) as Hfolder.
  unfold create_project_folder. cbv zeta.
  apply fp_bind; [auto with msg | auto with env |]. intros present.
  apply fp_bind; [auto with msg | auto with env |]. intros _. apply fp_ret.
Qed.

Lemma fp_archive (interp : pystr -> load_result)
      (project_file folder_name : pystr) :
  loads_plainly interp -> plain project_file -> plain folder_name ->
  fails_plainly (archive interp project_file folder_name).
Proof.
  intros Hinterp Hpf Hfolder. unfold archive.
  assert (Hout : plain (path_join folder_name (py "output.txt")))
    by (apply plain_path_join; [exact Hfolder | vm_compute; reflexivity]).
  assert (Hdst : plain (path_join folder_name project_file))
    by (apply plain_path_join; assumption).
  apply fp_bind; [apply fp_import_student_module; assumption | auto with env |].
  intros m.
  apply fp_bind; [apply fp_load_input_prompts | auto with env |].
  intros input_prompts.
  apply fp_bind; [apply fp_capture | auto with env |].
  intros output. cbv zeta.
  apply fp_bind; [auto with msg | auto with env |]. intros _.
  apply fp_bind; [auto with msg | auto with env |]. intros present.
  apply fp_bind; [auto with msg | auto with env |]. intros _.
  apply fp_print.
Qed.

(** *** The lines printed *)

Lemma sp_of_quiet {A} (m : M A) : quiet m -> speaks_plainly m.
Proof.
  intros Hm w _. exists []. rewrite app_nil_r. split; [apply Hm | constructor].
Qed.

Lemma sp_print (s : pystr) : plain s -> speaks_plainly (print s).
Proof.
  intros Hs w _. exists [s]. split; [reflexivity|].
  constructor; [exact Hs | constructor].
Qed.

Lemma sp_bind {A B} (m : M A) (k : A -> M B) :
  speaks_plainly m -> keeps_env m -> (forall a, speaks_plainly (k a)) ->
  speaks_plainly (bind m k).
Proof.
  intros Hm Henv Hk w Hok. unfold bind.
  destruct (Hm w Hok) as [l1 [Hc1 Hp1]]. pose proof (Henv w) as Hsame.
  destruct (m w) as [[a|e] w1]; cbn [snd] in *.
  - destruct (Hk a w1 (threads_ok_same_env _ _ Hsame Hok)) as [l2 [Hc2 Hp2]].
    exists (l1 ++ l2). rewrite Hc2, Hc1, app_assoc.
    split; [reflexivity | apply Forall_app; split; assumption].
  - exists l1. split; assumption.
Qed.

Lemma sp_try_except {A} (m : M A) (h : py_exn -> M A) :
  speaks_plainly m -> keeps_env m -> fails_plainly m ->
  (forall e, plain (exn_str e) -> speaks_plainly (h e)) ->
  speaks_plainly (try_except m h).
Proof.
  intros Hm Henv Hfail Hh w Hok. unfold try_except.
  destruct (Hm w Hok) as [l1 [Hc1 Hp1]]. pose proof (Henv w) as Hsame.
  specialize (Hfail w).
  destruct (m w) as [[a|e] w1]; cbn [fst snd] in *.
  - exists l1. split; assumption.
  - destruct (exn_is_exception e) eqn:He; [|exists l1; split; assumption].
    destruct (Hh e (Hfail e Hok eq_refl He) w1
                (threads_ok_same_env _ _ Hsame Hok)) as [l2 [Hc2 Hp2]].
    exists (l1 ++ l2). rewrite Hc2, Hc1, app_assoc.
    split; [reflexivity | apply Forall_app; split; assumption].
Qed.

Lemma sp_for_each {A} (l : list A) (body : A -> M unit) :
  (forall a, a ∈ l -> speaks_plainly (body a)) ->
  (forall a, keeps_env (body a)) ->
  speaks_plainly (for_each l body).
Proof.
  intros Hbody Henv. induction l as [|a rest IH]; cbn [for_each].
  - apply sp_of_quiet, quiet_ret.
  - apply sp_bind; [apply Hbody; left | apply Henv |].
    intros _. apply IH. intros a' Ha'. apply Hbody. right. exact Ha'.
Qed.

Lemma sp_archive (interp : pystr -> load_result)
      (project_file folder_name : pystr) :
  plain project_file ->
  speaks_plainly (archive interp project_file folder_name).
Proof.
  intros Hpf. unfold archive.
  apply sp_bind; [apply sp_of_quiet; auto with hush | auto with env |].
  intros m.
  apply sp_bind; [apply sp_of_quiet; auto with hush | auto with env |].
  intros input_prompts.
  apply sp_bind; [apply sp_of_quiet; auto with hush | auto with env |].
  intros output. cbv zeta.
  apply sp_bind; [apply sp_of_quiet; auto with hush | auto with env |].
  intros _.
  apply sp_bind; [apply sp_of_quiet; auto with hush | auto with env |].
  intros present.
  apply sp_bind; [apply sp_of_quiet; auto with hush | auto with env |].
  intros _. apply sp_print. plain_text.
Qed.

Lemma sp_archive_failure (project_file : pystr) (folder : option pystr)
      (e : py_exn) :
  plain project_file -> plain (exn_str e) ->
  (forall f, folder = Some f -> plain f) ->
  speaks_plainly (archive_failure project_file folder e).
Proof.
  intros Hpf He Hfolder. unfold archive_failure.
  apply sp_bind; [apply sp_print; plain_text | auto with env |]. intros _.
  apply sp_bind; [apply sp_of_quiet; auto with hush | auto with env |].
  intros _.
  apply sp_try_except.
  - apply sp_of_quiet. apply quiet_bind; [destruct folder; auto with hush|].
    intros folder_name. cbv zeta. auto 20 with hush.
  - apply keeps_env_bind; [destruct folder; auto with env|].
    intros folder_name. cbv zeta. auto 20 with env.
  - destruct folder as [f|].
    + specialize (Hfolder f eq_refl). apply fp_bind_ret. cbv zeta.
      assert (Hout : plain (path_join f (py "output.txt")))
        by (apply plain_path_join; [exact Hfolder | vm_compute; reflexivity]).
      assert (Hdst : plain (path_join f project_file))
        by (apply plain_path_join; assumption).
      apply fp_bind; [auto with msg | auto with env |]. intros present.
      apply fp_bind; [auto with msg | auto with env |]. intros _.
      apply fp_bind; [auto with msg | auto with env |]. intros _.
      apply fp_bind; [auto with msg | auto with env |]. intros present'.
      auto with msg.
    + apply fp_bind_raise. vm_compute. reflexivity.
  - intros move_error Hmove. apply sp_print. plain_text.
Qed.

Lemma create_project_folder_name (project_name folder_name : pystr)
      (w w1 : world) :
  create_project_folder project_name w = (Ok folder_name, w1) ->
  folder_name = replace (py ".py") [] project_name.
Proof.
  unfold create_project_folder, bind, path_exists, when, ret.
  destruct (exists_in _ _); cbn [negb]; [intros [= <- _]; reflexivity|].
  destruct (makedirs _ w) as [[[]|e] w2]; [|discriminate].
  intros [= <- _]. reflexivity.
Qed.

Lemma sp_process_project (interp : pystr -> load_result)
      (project_file : pystr) :
  loads_plainly interp -> plain project_file ->
  speaks_plainly (process_project interp project_file).
Proof.
  intros Hinterp Hpf w Hok. unfold process_project.
  pose proof (keeps_env_create_project_folder project_file w) as Hsame.
  pose proof (quiet_create_project_folder project_file w) as Hquiet.
  pose proof (fp_create_project_folder project_file Hpf w) as Hfail.
  destruct (create_project_folder project_file w) as [[folder_name|e] w1]
    eqn:Hcreate; cbn [fst snd] in *.
  - assert (Hfolder : plain folder_name).
    { rewrite (create_project_folder_name _ _ _ _ Hcreate).
      exact (plain_folder_name _ Hpf). }
    rewrite <- Hquiet.
    apply sp_try_except;
      [ apply sp_archive; exact Hpf
      | apply keeps_env_archive
      | apply fp_archive; assumption
      |
      | exact (threads_ok_same_env _ _ Hsame Hok) ].
    intros e He. apply sp_archive_failure; [exact Hpf | exact He|].
    intros f [= <-]. exact Hfolder.
  - destruct (exn_is_exception e) eqn:He.
    + rewrite <- Hquiet.
      apply sp_archive_failure;
        [ exact Hpf | exact (Hfail e Hok eq_refl He) | discriminate
        | exact (threads_ok_same_env _ _ Hsame Hok) ].
    + exists []. rewrite app_nil_r. split; [exact Hquiet | constructor].
Qed.

Lemma sp_main (interp : pystr -> load_result) (w : world) :
  loads_plainly interp -> threads_ok w ->
  (forall f, f ∈ python_files w -> plain f) ->
  exists lines : list pystr,
    console (main interp w).2 = console w ++ lines /\ Forall plain lines.
Proof.
  intros Hinterp Hok Hnames. unfold main. cbv zeta.
  refine (sp_bind _ _ _ _ _ w Hok).
  - apply sp_print. pose proof (plain_decimal (N.of_nat (length (python_files w)))).
    plain_text.
  - apply keeps_env_print.
  - intros _. apply sp_for_each.
    + intros f Hf. specialize (Hnames f Hf).
      apply sp_bind; [apply sp_print; plain_text | apply keeps_env_print |].
      intros _.
      apply sp_bind; [apply sp_process_project; assumption
                     | apply keeps_env_process_project |].
      intros _. apply sp_print. plain_text.
    + intros f. auto 10 using keeps_env_process_project with env.
Qed.

Lemma loads_plainly_toy_interp : loads_plainly toy_interp.
Proof.
  intros code e. unfold toy_interp.
  repeat case_bool_decide; [discriminate | intros [= <-]; reflexivity | discriminate].
Qed.

(** C4, as the specification words it, fails: without the input file each
    submission's load failure is caught inside [process_project], and the
    batch goes on to the next submission and ends normally. *)
Lemma batch_without_input_file :
  fs classroom_without_input !! py "input.txt" = None
  /\ (load_input_prompts classroom_without_input).1
     = Exc (FileNotFoundError (py "input.txt"))
  /\ (process_project toy_interp (py "ann.py") classroom_without_input).1 = Ok tt
  /\ (main toy_interp classroom_without_input).1 = Ok tt
  /\ In (py "Completed processing ann.py")
        (console (main toy_interp classroom_without_input).2)
  /\ In (py "Completed processing bob.py")
        (console (main toy_interp classroom_without_input).2).
Proof.
  split; [vm_compute; reflexivity|].
  split; [vm_compute; reflexivity|].
  split; [vm_compute; reflexivity|].
  split; [vm_compute; reflexivity|].
  split; vm_compute; repeat ((left; reflexivity) || right).
Qed.

(** C4 (amended): a missing input file is not fatal to the batch.  The load
    failure is an instance of [Exception]; like every other error of that
    class raised while a submission is processed it is caught inside
    [process_project], which returns normally; and the batch controller goes
    through every submission it found and ends normally.  This holds where
    loading and threads raise only instances of [Exception] and where the
    names of the submissions and the messages of the errors raised while
    loading are text the console can encode: then so is every line the
    harness prints, and no [print] outside a [try] block raises. *)
Theorem batch_survives_ordinary_errors
        (interp : pystr -> load_result) (w : world) :
  loads_ok interp ->
  loads_plainly interp ->
  threads_ok w ->
  (forall f, f ∈ python_files w -> plain f) ->
  (fs w !! py "input.txt" = None ->
   exists e, load_input_prompts w = (Exc e, w) /\ exn_is_exception e = true)
  /\ (forall project_file : pystr,
         plain project_file ->
         exists (w' : world) (lines : list pystr),
           process_project interp project_file w = (Ok tt, w')
           /\ console w' = console w ++ lines /\ Forall plain lines)
  /\ exists (w' : world) (lines : list pystr),
      main interp w = (Ok tt, w')
      /\ (forall f, f ∈ python_files w ->
                    (py "Completed processing " ++ f) ∈ console w')
      /\ console w' = console w ++ lines /\ Forall plain lines.
Proof.
  intros Hinterp Hplain Hok Hnames. split; [|split].
  - intros Habsent. exists (FileNotFoundError (py "input.txt")).
    unfold load_input_prompts, bind, read_file. rewrite Habsent.
    split; reflexivity.
  - intros project_file Hpf.
    destruct (process_project_returns _ project_file _ Hinterp Hok) as [w' Hrun].
    destruct (sp_process_project interp project_file Hplain Hpf w Hok)
      as [lines [Hconsole Hlines]].
    rewrite Hrun in Hconsole. cbn [snd] in Hconsole.
    exists w', lines. split; [exact Hrun | split; assumption].
  - destruct (sp_main interp w Hplain Hok Hnames) as [lines [Hconsole Hlines]].
    revert Hconsole. unfold main.
    match goal with
    | |- context [bind (print ?s) ?k w] =>
        rewrite (bind_ok (print s) k w _ tt eq_refl);
        pose proof (keeps_env_print s w) as Hfirst
    end.
    cbn [snd] in Hfirst.
    destruct (for_each_completes
                (fun project_file =>
                   let* _ := print (nl ++ py "Processing " ++ project_file
                                       ++ py "...") in
                   let* _ := process_project interp project_file in
                   print (py "Completed processing " ++ project_file))
                (fun project_file => py "Completed processing " ++ project_file))
      with (l := python_files w) (w := (print (py "Found " ++ decimal (N.of_nat (length (python_files w))) ++ py " Python files to process") w).2)
      as [w' [Hloop [_ Hmarks]]].
    + intros f w0 Hok0.
      destruct (process_project_returns interp f
                  (print (nl ++ py "Processing " ++ f ++ py "...") w0).2
                  Hinterp
                  (threads_ok_same_env _ _ (keeps_env_print _ w0) Hok0))
        as [w1 Hrun].
      pose proof (keeps_env_process_project interp f
                    (print (nl ++ py "Processing " ++ f ++ py "...") w0).2)
        as Hsame1.
      rewrite Hrun in Hsame1. cbn [snd] in Hsame1.
      eexists. split; [|split].
      * cbv beta.
        rewrite (bind_ok (print (nl ++ py "Processing " ++ f ++ py "...")) _
                         w0 _ tt eq_refl).
        rewrite (bind_ok _ _ _ _ _ Hrun). reflexivity.
      * refine (same_env_trans _ _ _ (keeps_env_print _ w0) _).
        refine (same_env_trans _ _ _ Hsame1 _).
        apply (keeps_env_print _ w1).
      * cbn [console]. apply elem_of_app. right. apply list_elem_of_singleton.
        reflexivity.
    + exact (threads_ok_same_env _ _ Hfirst Hok).
    + intros Hconsole. exists w', lines.
      split; [exact Hloop | split; [exact Hmarks | split; [|exact Hlines]]].
      pose proof (f_equal snd Hloop) as Hw. cbn [snd] in Hw.
      rewrite <- Hw. exact Hconsole.
Qed.

(** The amended C4 at the classroom without its input file. *)
Lemma batch_survives_ordinary_errors_witness :
  loads_ok toy_interp
  /\ loads_plainly toy_interp
  /\ threads_ok classroom_without_input
  /\ plain (py "ann.py") /\ plain (py "bob.py")
  /\ exists (w' : world) (lines : list pystr),
      main toy_interp classroom_without_input = (Ok tt, w')
      /\ console w' = lines /\ Forall plain lines.
Proof.
  assert (Hthreads : threads_ok classroom_without_input)
    by (intros e He; discriminate He).
  assert (Hnames : forall f, f ∈ python_files classroom_without_input -> plain f).
  { intros f Hf. apply list_elem_of_In in Hf.
    match type of Hf with
    | In _ ?l =>
        let l' := eval vm_compute in l in
        assert (Hl : l = l') by (vm_compute; reflexivity);
        rewrite Hl in Hf; clear Hl
    end.
    repeat (destruct Hf as [<- | Hf]; [vm_compute; reflexivity|]).
    destruct Hf. }
  split; [exact loads_ok_toy_interp|].
  split; [exact loads_plainly_toy_interp|].
  split; [exact Hthreads|].
  split; [reflexivity | split; [reflexivity|]].
  destruct (batch_survives_ordinary_errors toy_interp classroom_without_input
              loads_ok_toy_interp loads_plainly_toy_interp Hthreads Hnames)
    as [_ [_ [w' [lines [Hmain [_ [Hconsole Hlines]]]]]]].
  exists w', lines. split; [exact Hmain | split; [exact Hconsole | exact Hlines]].
Defined.

(** * Further properties of the harness *)

(** ** Creating the destination folder *)

(** X1: [create_project_folder] is idempotent: once it has returned, a
    second call returns the same folder name and changes nothing. *)
Theorem create_project_folder_idempotent
        (project_name folder_name : pystr) (w w1 : world) :
  create_project_folder project_name w = (Ok folder_name, w1) ->
  create_project_folder project_name w1 = (Ok folder_name, w1).
Proof.
  unfold create_project_folder, bind, path_exists, when, ret.
  destruct (exists_in (fs w) (replace (py ".py") [] project_name)) eqn:Hpresent;
    cbn [negb].
  - intros [= <- <-]. rewrite Hpresent. reflexivity.
  - unfold makedirs. rewrite Hpresent.
    destruct (is_empty (replace (py ".py") [] project_name)); [discriminate|].
    destruct (existsb _ _); [discriminate|].
    intros [= <- <-]. cbn [fs set_fs]. unfold exists_in.
    rewrite lookup_insert_eq. reflexivity.
Qed.

(** X1 at the folder of [report.py] in an empty directory. *)
Lemma create_project_folder_idempotent_witness :
  exists w1 : world,
    create_project_folder (py "report.py") quiet_world = (Ok (py "report"), w1)
    /\ create_project_folder (py "report.py") w1 = (Ok (py "report"), w1).
Proof.
  eexists. split; [reflexivity|].
  exact (create_project_folder_idempotent (py "report.py") (py "report")
           quiet_world _ eq_refl).
Defined.

Lemma startswith_prefix (p s : pystr) :
  startswith p s = true -> exists r, s = p ++ r.
Proof.
  revert s. induction p as [|a p IH]; intros s; [exists s; reflexivity|].
  destruct s as [|b s]; cbn [startswith]; [discriminate|].
  intros H. apply andb_prop in H as [Hab Hrest].
  apply N.eqb_eq in Hab as ->. destruct (IH s Hrest) as [r ->].
  exists r. reflexivity.
Qed.

Lemma endswith_suffix (suffix s : pystr) :
  endswith suffix s = true -> exists r, s = r ++ suffix.
Proof.
  unfold endswith. intros H. apply startswith_prefix in H as [r Hr].
  exists (reverse r). apply (f_equal reverse) in Hr.
  rewrite reverse_involutive, reverse_app, reverse_involutive in Hr. exact Hr.
Qed.

Lemma replace_from_length (old s : pystr) :
  forall skip,
    length (replace_from old [] skip s) + Nat.min skip (length s) <= length s.
Proof.
  induction s as [|c r IH]; intros skip; cbn [replace_from length].
  - rewrite Nat.min_0_r. lia.
  - destruct skip as [|k].
    + destruct (startswith old (c :: r)); cbn [app length Nat.min].
      * specialize (IH (pred (length old))). lia.
      * specialize (IH 0). lia.
    + specialize (IH k). cbn [Nat.min]. lia.
Qed.

Lemma replace_from_py_suffix (r : pystr) :
  length (replace_from (py ".py") [] 0 (r ++ py ".py")) + 3
  <= length (r ++ py ".py").
Proof.
  induction r as [|c r IH]; [vm_compute; lia|].
  cbn [app replace_from].
  destruct (startswith (py ".py") (c :: r ++ py ".py")); cbn [app length].
  - pose proof (replace_from_length (py ".py") (r ++ py ".py")
                                    (pred (length (py ".py")))) as Hlen.
    rewrite length_app in *.
    change (pred (length (py ".py"))) with 2 in *.
    change (length (py ".py")) with 3 in *. lia.
  - lia.
Qed.

(** X2: the folder of a discovered submission has a name at least three
    characters shorter than the submission's file name; in particular the
    folder is never the submission file itself. *)
Theorem folder_name_shorter
        (w w1 : world) (project_file folder_name : pystr) :
  project_file ∈ python_files w ->
  create_project_folder project_file w = (Ok folder_name, w1) ->
  length folder_name + 3 <= length project_file
  /\ folder_name <> project_file.
Proof.
  intros Hin Hcreate.
  assert (Hname : folder_name = replace (py ".py") [] project_file).
  { revert Hcreate. unfold create_project_folder, bind, path_exists, when, ret.
    destruct (exists_in _ _); cbn [negb]; [intros [= <- _]; reflexivity|].
    destruct (makedirs _ w) as [[[]|e] w2]; [|discriminate].
    intros [= <- _]. reflexivity. }
  apply python_files_entry in Hin as [Hpy _].
  apply endswith_suffix in Hpy as [r ->].
  assert (Hlen : length folder_name + 3 <= length (r ++ py ".py"))
    by (rewrite Hname; apply replace_from_py_suffix).
  split; [exact Hlen|]. intros Heq. rewrite Heq in Hlen. lia.
Qed.

(** X2 at the submission [bob.py] of the classroom. *)
Lemma folder_name_shorter_witness :
  py "bob.py" ∈ python_files classroom
  /\ exists w1 : world,
      create_project_folder (py "bob.py") classroom = (Ok (py "bob"), w1)
      /\ length (py "bob") + 3 <= length (py "bob.py").
Proof.
  assert (Hin : py "bob.py" ∈ python_files classroom).
  { apply list_elem_of_In. vm_compute. right. left. reflexivity. }
  split; [exact Hin|]. eexists. split; [vm_compute; reflexivity|].
  exact (proj1 (folder_name_shorter classroom _ (py "bob.py") (py "bob") Hin
                                    ltac:(vm_compute; reflexivity))).
Defined.

(** ** How a run that does not return shows in the transcript *)

Lemma exec_perform_uniform (es : list effect) :
  forall (st : shim) (w : world),
  exists (st' : shim) (w' : world),
    forall k : prog, exec (perform es k) st w = exec k st' w'.
Proof.
  induction es as [|[s|f] rest IH]; intros st w; cbn [perform exec].
  - exists st, w. reflexivity.
  - apply IH.
  - apply IH.
Qed.

Lemma capture_of_straight_run (m : module) (before : list effect) (ending : prog)
      (input_prompts : list pystr) (folder_name : pystr) (w : world) :
  mod_main m = Some (perform before ending) ->
  thread_fault w = None ->
  (forall st w0 st' w0', (exec ending st w0).1.1 = (exec ending st' w0').1.1) ->
  dialogue input_prompts 0 (written before) ending = ([], written before) ->
  exists (extra : list pystr) (w' : world),
    capture_output_and_files m input_prompts folder_name w
    = (Ok ((error_lines (exec ending blank_shim w).1.1
              ++ splitlines (written before)) ++ extra), w')
    /\ Forall move_report extra.
Proof.
  intros Hmain Hstart Hsame Htalk.
  destruct (capture_transcript m _ input_prompts folder_name w Hmain Hstart)
    as [extra [w' [_ [Hcapture Hextra]]]].
  exists extra, w'. split; [|exact Hextra].
  rewrite Hcapture, dialogue_perform. cbn [app]. rewrite Htalk.
  cbn [fst snd flat_map app].
  destruct (exec_perform before ending blank_shim
              (set_builtins_input (mock_input_fn input_prompts) w))
    as [st1 [w1 [-> _]]].
  rewrite (Hsame st1 w1 blank_shim w). reflexivity.
Qed.

(** X3: when [main] raises an instance of [Exception] before it ever calls
    [input], the transcript starts with the error message and the trace, and
    what [main] had printed before the error comes after them. *)
Theorem crash_lines_precede_output
        (m : module) (before : list effect) (e : py_exn)
        (input_prompts : list pystr) (folder_name : pystr) (w : world) :
  mod_main m = Some (perform before (Raise e)) ->
  exn_is_exception e = true ->
  thread_fault w = None ->
  exists (extra : list pystr) (w' : world),
    capture_output_and_files m input_prompts folder_name w
    = (Ok (([exn_str e; exn_traceback e] ++ splitlines (written before))
             ++ extra), w')
    /\ Forall move_report extra.
Proof.
  intros Hmain He Hstart.
  destruct (capture_of_straight_run m before (Raise e) input_prompts folder_name
              w Hmain Hstart) as [extra [w' [Hcapture Hextra]]];
    try reflexivity.
  exists extra, w'. split; [|exact Hextra].
  rewrite Hcapture. cbn [exec fst error_lines]. rewrite He. reflexivity.
Qed.

(** X3 at a submission that prints a line and raises a [ValueError]. *)
Lemma crash_lines_precede_output_witness :
  mod_main crasher = Some (perform [EEmit (py "working" ++ nl)] (Raise value_error))
  /\ exn_is_exception value_error = true
  /\ thread_fault quiet_world = None
  /\ exists (extra : list pystr) (w' : world),
      capture_output_and_files crasher [] (py "crasher") quiet_world
      = (Ok ([exn_str value_error; exn_traceback value_error; py "working"]
               ++ extra), w').
Proof.
  split; [reflexivity | split; [reflexivity | split; [reflexivity|]]].
  destruct (crash_lines_precede_output crasher [EEmit (py "working" ++ nl)]
              value_error [] (py "crasher") quiet_world eq_refl eq_refl eq_refl)
    as [extra [w' [Hcapture _]]].
  exists extra, w'. exact Hcapture.
Defined.

(** X4: when [main] is still running at the timeout and has not called
    [input], the transcript starts with the timeout message, followed by
    what [main] had printed until then, and the capture returns normally. *)
Theorem timeout_line_precedes_output
        (m : module) (before : list effect) (k : prog)
        (input_prompts : list pystr) (folder_name : pystr) (w : world) :
  mod_main m = Some (perform before (Outlast k)) ->
  thread_fault w = None ->
  exists (extra : list pystr) (w' : world),
    capture_output_and_files m input_prompts folder_name w
    = (Ok (([py "Program execution timed out after 10 seconds"]
              ++ splitlines (written before)) ++ extra), w')
    /\ Forall move_report extra.
Proof.
  intros Hmain Hstart.
  destruct (capture_of_straight_run m before (Outlast k) input_prompts
              folder_name w Hmain Hstart) as [extra [w' [Hcapture Hextra]]];
    try reflexivity.
  exists extra, w'. split; [exact Hcapture | exact Hextra].
Qed.

(** X4 at a submission that prints a line and never ends. *)
Lemma timeout_line_precedes_output_witness :
  mod_main sleeper
  = Some (perform [EEmit (py "working" ++ nl)] (Outlast (Return PyNone)))
  /\ thread_fault quiet_world = None
  /\ exists (extra : list pystr) (w' : world),
      capture_output_and_files sleeper [] (py "sleeper") quiet_world
      = (Ok ([py "Program execution timed out after 10 seconds"; py "working"]
               ++ extra), w').
Proof.
  split; [reflexivity | split; [reflexivity|]].
  destruct (timeout_line_precedes_output sleeper [EEmit (py "working" ++ nl)]
              (Return PyNone) [] (py "sleeper") quiet_world eq_refl eq_refl)
    as [extra [w' [Hcapture _]]].
  exists extra, w'. exact Hcapture.
Defined.

(** What the controlling thread finds when the submission is pardoned. *)
Lemma exec_pardon (v : pyval) (p : prog) :
  forall (st : shim) (w : world),
    exec (pardon v p) st w
    = (match (exec p st w).1.1 with
       | Finished (Raised e) =>
           if exn_is_exception e then Finished (Raised e)
           else Finished (Returned v)
       | t => t
       end,
       (exec p st w).1.2, (exec p st w).2).
Proof.
  induction p as [r | e | s k IH | prompt k IH | f k IH | k IH];
    intros st w; cbn [pardon exec fst snd]; try reflexivity.
  - destruct (exn_is_exception e); reflexivity.
  - apply IH.
  - destruct (builtins_input w); [reflexivity|].
    destruct (mock_input _ _ _) as [value st']. apply IH.
  - apply IH.
Qed.

(** X5: a [main] that ends in an error outside the [Exception] class, such
    as the exit request of [sys.exit()], leaves no trace: whatever it did
    before, calls of [input] included, the capture returns exactly what it
    returns for the same [main] returning a value at that point. *)
Theorem exit_request_leaves_no_trace
        (m m' : module) (p : prog) (v : pyval)
        (input_prompts : list pystr) (folder_name : pystr) (w : world) :
  mod_main m = Some p ->
  mod_main m' = Some (pardon v p) ->
  capture_output_and_files m input_prompts folder_name w
  = capture_output_and_files m' input_prompts folder_name w.
Proof.
  intros Hmain Hmain'.
  unfold capture_output_and_files, redirected_block, run_with_timeout.
  rewrite Hmain, Hmain'. cbv zeta.
  destruct (thread_fault _); [reflexivity|].
  rewrite exec_pardon.
  destruct (exec p _ _) as [[t st1] w1]. cbn [fst snd].
  destruct t as [[r|e]|]; cbn [target]; try reflexivity.
  destruct (exn_is_exception e) eqn:He; cbn [target]; rewrite ?He; reflexivity.
Qed.

(** X5 at a submission that prints a line, reads a name and calls
    [sys.exit()]. *)
Lemma exit_request_leaves_no_trace_witness :
  capture_output_and_files leaver [py "Ann"] (py "leaver") quiet_world
  = (Ok [py "working"; py "Name:"; py "Ann"], quiet_world)
  /\ capture_output_and_files leaver [py "Ann"] (py "leaver") quiet_world
     = capture_output_and_files
         {| mod_main :=
              Some (Emit (py "working" ++ nl)
                         (Ask (py "Name: ") (fun _ => Return PyNone))) |}
         [py "Ann"] (py "leaver") quiet_world.
Proof.
  split; [vm_compute; reflexivity|].
  exact (exit_request_leaves_no_trace
           leaver
           {| mod_main :=
                Some (Emit (py "working" ++ nl)
                           (Ask (py "Name: ") (fun _ => Return PyNone))) |}
           (Emit (py "working" ++ nl)
                 (Ask (py "Name: ") (fun _ => Raise exit_request)))
           PyNone [py "Ann"] (py "leaver") quiet_world eq_refl eq_refl).
Defined.

(** X6: when the worker thread cannot be started and the failure is an
    instance of [Exception], [main] is not run, the capture returns normally,
    its transcript is the error line and the trace, and no file changes. *)
Theorem thread_failure_recorded
        (m : module) (p : prog) (e : py_exn)
        (input_prompts : list pystr) (folder_name : pystr) (w : world) :
  mod_main m = Some p ->
  thread_fault w = Some e ->
  exn_is_exception e = true ->
  (capture_output_and_files m input_prompts folder_name w).1
  = Ok [py "Error occurred: " ++ exn_str e; exn_traceback e]
  /\ fs (capture_output_and_files m input_prompts folder_name w).2 = fs w.
Proof.
  intros Hmain Hfault He.
  unfold capture_output_and_files, redirected_block, run_with_timeout.
  rewrite Hmain. cbv zeta. cbn [thread_fault set_builtins_input].
  rewrite Hfault, He.
  cbn [extend_lines captured_lines app].
  change (txt_files w)
    with (txt_files (set_builtins_input (builtins_input w)
                       (set_builtins_input (mock_input_fn input_prompts) w))).
  rewrite harvest_nothing_new. split; reflexivity.
Qed.

(** X6 at the greeter where no thread can be started. *)
Lemma thread_failure_recorded_witness :
  thread_fault thread_starved = Some cannot_start_thread
  /\ exn_is_exception cannot_start_thread = true
  /\ (capture_output_and_files greeter [py "Ann"] (py "greeter") thread_starved).1
     = Ok [py "Error occurred: can't start new thread";
           py "RuntimeError: can't start new thread" ++ nl].
Proof.
  split; [reflexivity | split; [reflexivity|]].
  exact (proj1 (thread_failure_recorded greeter _ cannot_start_thread
                  [py "Ann"] (py "greeter") thread_starved
                  eq_refl eq_refl eq_refl)).
Defined.

(** ** The error record *)

Lemma try_except_ok {A} (m : M A) (h : py_exn -> M A) (w w' : world) (a : A) :
  m w = (Ok a, w') -> try_except m h w = (Ok a, w').
Proof. intros H. unfold try_except. rewrite H. reflexivity. Qed.

Lemma try_except_caught {A} (m : M A) (h : py_exn -> M A) (w w' : world)
      (e : py_exn) :
  m w = (Exc e, w') -> exn_is_exception e = true ->
  try_except m h w = h e w'.
Proof. intros H He. unfold try_except. rewrite H, He. reflexivity. Qed.

Lemma bind_raised {A B} (m : M A) (k : A -> M B) (w w' : world) (e : py_exn) :
  m w = (Exc e, w') -> bind m k w = (Exc e, w').
Proof. intros H. unfold bind. rewrite H. reflexivity. Qed.

(** What the handler of [process_project] does when the folder is there and
    nothing is in the way of the record and of the moved source. *)
Lemma archive_failure_record (project_file folder_name code : pystr)
      (e : py_exn) (w : world) :
  folder_name <> [] -> no_slash folder_name -> no_slash project_file ->
  endswith (py ".py") project_file = true ->
  fs w !! folder_name = Some Dir ->
  fs w !! project_file = Some (File code) ->
  fs w !! path_join folder_name (py "output.txt") <> Some Dir ->
  fs w !! path_join folder_name project_file <> Some Dir ->
  exists w' : world,
    archive_failure project_file (Some folder_name) e w = (Ok tt, w')
    /\ fs w' !! path_join folder_name (py "output.txt")
       = Some (File (error_record e))
    /\ fs w' !! path_join folder_name project_file = Some (File code)
    /\ fs w' !! project_file = None
    /\ console w'
       = console w ++ [py "Failed to process " ++ project_file ++ py ": "
                          ++ exn_str e].
Proof.
  intros Hne Hfolder Hpf Hpy Hdir Hfile Hout Hdst.
  assert (Houtname : no_slash (py "output.txt"))
    by (apply no_slash_literal; reflexivity).
  unfold archive_failure.
  rewrite (path_join_components _ _ Hne Hfolder Houtname) in *.
  rewrite (path_join_components _ _ Hne Hfolder Hpf) in *.
  set (out := folder_name ++ slash :: py "output.txt") in *.
  set (dst := folder_name ++ slash :: project_file) in *.
  assert (Hout_folder : out <> folder_name)
    by (intros Heq; exact (no_slash_not_component _ _ _ Hfolder (eq_sym Heq))).
  assert (Hpf_out : out <> project_file)
    by (intros Heq; exact (no_slash_not_component _ _ _ Hpf (eq_sym Heq))).
  assert (Hpf_dst : dst <> project_file)
    by (intros Heq; exact (no_slash_not_component _ _ _ Hpf (eq_sym Heq))).
  assert (Hout_dst : dst <> out).
  { intros Heq. apply app_inv_head in Heq. injection Heq as Heq.
    rewrite Heq in Hpy. discriminate Hpy. }
  set (w1 := (print (py "Failed to process " ++ project_file ++ py ": "
                        ++ exn_str e) w).2).
  set (w2 := (print_exc e w1).2).
  assert (Hfs2 : fs w2 = fs w) by reflexivity.
  rewrite (bind_ok (print _) _ w w1 tt eq_refl).
  rewrite (bind_ok (print_exc e) _ w1 w2 tt eq_refl).
  assert (H1 : path_exists folder_name w2 = (Ok true, w2)).
  { unfold path_exists, exists_in. rewrite Hfs2, Hdir. reflexivity. }
  assert (H2 : write_file out (error_record e) w2
               = (Ok tt, set_fs (fun fm => <[out := File (error_record e)]> fm) w2)).
  { apply write_file_ok.
    - rewrite Hfs2. exact Hout.
    - unfold out. destruct folder_name; discriminate.
    - unfold parent_is_dir, out. rewrite (split_components _ _ Houtname).
      rewrite Hfs2, Hdir. reflexivity. }
  set (w3 := set_fs (fun fm => <[out := File (error_record e)]> fm) w2) in *.
  assert (Hpf3 : fs w3 !! project_file = Some (File code)).
  { cbn [w3 fs set_fs]. rewrite lookup_insert_ne by exact Hpf_out.
    rewrite Hfs2. exact Hfile. }
  assert (H3 : path_exists project_file w3 = (Ok true, w3)).
  { unfold path_exists, exists_in. rewrite Hpf3. reflexivity. }
  assert (H4 : shutil_move project_file dst w3
               = (Ok tt, set_fs (fun fm => <[dst := File code]> (delete project_file fm)) w3)).
  { apply shutil_move_file.
    - exact Hpf3.
    - cbn [w3 fs set_fs]. rewrite lookup_insert_ne by congruence.
      rewrite Hfs2. exact Hdst.
    - unfold dst. destruct folder_name; discriminate.
    - unfold parent_is_dir, dst. rewrite (split_components _ _ Hpf).
      cbn [w3 fs set_fs]. rewrite lookup_insert_ne by exact Hout_folder.
      rewrite Hfs2, Hdir. reflexivity. }
  eexists. split; [|split; [|split; [|split]]].
  - apply try_except_ok.
    rewrite (bind_ok (ret folder_name) _ w2 w2 folder_name eq_refl).
    rewrite (bind_ok _ _ _ _ _ H1). cbn [negb when].
    rewrite (bind_ok (ret tt) _ w2 w2 tt eq_refl). cbv zeta.
    rewrite (path_join_components _ _ Hne Hfolder Houtname).
    rewrite (path_join_components _ _ Hne Hfolder Hpf).
    fold out dst. fold (error_record e).
    rewrite (bind_ok _ _ _ _ _ H2), (bind_ok _ _ _ _ _ H3).
    unfold when. exact H4.
  - cbn [fs w3 set_fs].
    rewrite lookup_insert_ne by exact Hout_dst.
    rewrite lookup_delete_ne by congruence.
    apply lookup_insert_eq.
  - cbn [fs set_fs]. apply lookup_insert_eq.
  - cbn [fs set_fs]. rewrite lookup_insert_ne by exact Hpf_dst.
    apply lookup_delete_eq.
  - reflexivity.
Qed.

Lemma import_student_module_raised (interp : pystr -> load_result)
      (file_path code : pystr) (e : py_exn) (w : world) :
  fs w !! file_path = Some (File code) ->
  interp code = LoadRaised e ->
  import_student_module interp file_path w = (Exc e, w).
Proof.
  intros Hfile Hload. unfold import_student_module, bind, read_file.
  rewrite Hfile, Hload. reflexivity.
Qed.

Lemma import_student_module_loaded (interp : pystr -> load_result)
      (file_path code : pystr) (m : module) (w : world) :
  fs w !! file_path = Some (File code) ->
  interp code = Loaded m ->
  import_student_module interp file_path w = (Ok m, w).
Proof.
  intros Hfile Hload. unfold import_student_module, bind, read_file.
  rewrite Hfile, Hload. reflexivity.
Qed.

(** A discovered submission whose [try] block raises an instance of
    [Exception] before it changes anything gets the error record. *)
Lemma process_project_records (interp : pystr -> load_result) (w : world)
      (project_file code : pystr) (e : py_exn) :
  project_file ∈ python_files w ->
  fs w !! project_file = Some (File code) ->
  replace (py ".py") [] project_file <> [] ->
  fs w !! replace (py ".py") [] project_file = None
  \/ fs w !! replace (py ".py") [] project_file = Some Dir ->
  fs w !! path_join (replace (py ".py") [] project_file) (py "output.txt")
  <> Some Dir ->
  fs w !! path_join (replace (py ".py") [] project_file) project_file
  <> Some Dir ->
  exn_is_exception e = true ->
  (forall w1 : world,
      fs w1 !! project_file = Some (File code) ->
      (forall p, p <> replace (py ".py") [] project_file ->
                 fs w1 !! p = fs w !! p) ->
      archive interp project_file (replace (py ".py") [] project_file) w1
      = (Exc e, w1)) ->
  exists w' : world,
    process_project interp project_file w = (Ok tt, w')
    /\ fs w' !! path_join (replace (py ".py") [] project_file) (py "output.txt")
       = Some (File (error_record e))
    /\ fs w' !! path_join (replace (py ".py") [] project_file) project_file
       = Some (File code)
    /\ fs w' !! project_file = None.
Proof.
  set (folder_name := replace (py ".py") [] project_file).
  intros Hin Hfile Hne Hstate Hout Hdst He Harchive.
  apply python_files_entry in Hin as [Hpy [_ Hin]].
  apply listdir_entry in Hin as [_ [Hpf _]].
  pose proof (folder_name_no_slash _ Hpf) as Hfolder. fold folder_name in Hfolder.
  assert (Houtname : no_slash (py "output.txt"))
    by (apply no_slash_literal; reflexivity).
  assert (Hpf_folder : project_file <> folder_name)
    by (intros Heq; rewrite Heq in Hfile; destruct Hstate; congruence).
  assert (Hout_folder : path_join folder_name (py "output.txt") <> folder_name).
  { rewrite (path_join_components _ _ Hne Hfolder Houtname).
    intros Heq. exact (no_slash_not_component _ _ _ Hfolder (eq_sym Heq)). }
  assert (Hdst_folder : path_join folder_name project_file <> folder_name).
  { rewrite (path_join_components _ _ Hne Hfolder Hpf).
    intros Heq. exact (no_slash_not_component _ _ _ Hfolder (eq_sym Heq)). }
  destruct (create_project_folder_ready project_file w Hne Hfolder Hstate)
    as [w1 [Hcreate [Hdir Hsame]]].
  fold folder_name in Hcreate, Hdir, Hsame.
  assert (Hfile1 : fs w1 !! project_file = Some (File code))
    by (rewrite (Hsame _ Hpf_folder); exact Hfile).
  destruct (archive_failure_record project_file folder_name code e w1
              Hne Hfolder Hpf Hpy Hdir Hfile1)
    as [w' [Hrun [Hrecord [Hmoved [Hgone _]]]]].
  - rewrite (Hsame _ Hout_folder). exact Hout.
  - rewrite (Hsame _ Hdst_folder). exact Hdst.
  - exists w'. split; [|split; [exact Hrecord | split; [exact Hmoved | exact Hgone]]].
    unfold process_project. rewrite Hcreate.
    rewrite (try_except_caught _ _ _ _ _ (Harchive w1 Hfile1 Hsame) He).
    exact Hrun.
Qed.

(** X7: a discovered submission that fails to load with an instance of
    [Exception] (a syntax error, an error in its top-level code) is still
    archived: where the file name, the message and the trace are text the
    console and the file can encode, and nothing is in the way of the
    folder, [process_project] returns normally, [output.txt] in the folder
    holds the error message followed by the trace, and the source is moved
    into the folder. *)
Theorem load_error_archived
        (interp : pystr -> load_result) (w : world)
        (project_file code : pystr) (e : py_exn) :
  let folder_name := replace (py ".py") [] project_file in
  project_file ∈ python_files w ->
  fs w !! project_file = Some (File code) ->
  interp code = LoadRaised e ->
  exn_is_exception e = true ->
  plain project_file ->
  plain (exn_str e) ->
  plain (exn_traceback e) ->
  folder_name <> [] ->
  fs w !! folder_name = None \/ fs w !! folder_name = Some Dir ->
  fs w !! path_join folder_name (py "output.txt") <> Some Dir ->
  fs w !! path_join folder_name project_file <> Some Dir ->
  exists w' : world,
    process_project interp project_file w = (Ok tt, w')
    /\ fs w' !! path_join folder_name (py "output.txt")
       = Some (File ((py "Error processing project: " ++ exn_str e ++ nl)
                       ++ exn_traceback e))
    /\ fs w' !! path_join folder_name project_file = Some (File code)
    /\ fs w' !! project_file = None.
Proof.
  intros folder_name Hin Hfile Hload He _ _ _ Hne Hstate Hout Hdst.
  apply (process_project_records interp w project_file code e);
    try assumption.
  intros w1 Hfile1 _. unfold archive.
  apply bind_raised. exact (import_student_module_raised _ _ _ _ _ Hfile1 Hload).
Qed.

(** X7 at a submission that does not parse. *)
Lemma load_error_archived_witness :
  py "carl.py" ∈ python_files broken_classroom
  /\ toy_interp (py "def") = LoadRaised syntax_error
  /\ exists w' : world,
      process_project toy_interp (py "carl.py") broken_classroom = (Ok tt, w')
      /\ fs w' !! py "carl/output.txt" = Some (File (error_record syntax_error))
      /\ fs w' !! py "carl/carl.py" = Some (File (py "def")).
Proof.
  assert (Hin : py "carl.py" ∈ python_files broken_classroom).
  { apply list_elem_of_In. vm_compute. left. reflexivity. }
  split; [exact Hin | split; [reflexivity|]].
  destruct (load_error_archived toy_interp broken_classroom (py "carl.py")
              (py "def") syntax_error Hin eq_refl eq_refl eq_refl)
    as [w' [Hrun [Hrecord [Hmoved _]]]].
  - vm_compute. reflexivity.
  - vm_compute. reflexivity.
  - vm_compute. reflexivity.
  - vm_compute. discriminate.
  - left. reflexivity.
  - vm_compute. discriminate.
  - vm_compute. discriminate.
  - exists w'. split; [exact Hrun | split; [exact Hrecord | exact Hmoved]].
Defined.

(** X8: without the input file, a discovered submission that loads is not
    run; where its name is text the console can encode and nothing is in the
    way of its folder, [process_project] returns normally, [output.txt] in
    the folder starts with the line that reports the missing [input.txt],
    goes on with a trace that ends in the line naming the
    [FileNotFoundError], and the source is moved into the folder. *)
Theorem missing_input_archived
        (interp : pystr -> load_result) (w : world)
        (project_file code : pystr) (m : module) :
  let folder_name := replace (py ".py") [] project_file in
  project_file ∈ python_files w ->
  fs w !! project_file = Some (File code) ->
  interp code = Loaded m ->
  fs w !! py "input.txt" = None ->
  plain project_file ->
  folder_name <> [] ->
  folder_name <> py "input.txt" ->
  fs w !! folder_name = None \/ fs w !! folder_name = Some Dir ->
  fs w !! path_join folder_name (py "output.txt") <> Some Dir ->
  fs w !! path_join folder_name project_file <> Some Dir ->
  exists (w' : world) (frames : pystr),
    process_project interp project_file w = (Ok tt, w')
    /\ fs w' !! path_join folder_name (py "output.txt")
       = Some (File ((py "Error processing project: [Errno 2] No such file or directory: 'input.txt'" ++ nl)
                       ++ (py "Traceback (most recent call last):" ++ nl)
                       ++ frames
                       ++ (py "FileNotFoundError: [Errno 2] No such file or directory: 'input.txt'" ++ nl)))
    /\ fs w' !! path_join folder_name project_file = Some (File code)
    /\ fs w' !! project_file = None.
Proof.
  intros folder_name Hin Hfile Hload Hinput _ Hne Hnot_input Hstate Hout Hdst.
  cut (exists w' : world,
          process_project interp project_file w = (Ok tt, w')
          /\ fs w' !! path_join folder_name (py "output.txt")
             = Some (File (error_record (FileNotFoundError (py "input.txt"))))
          /\ fs w' !! path_join folder_name project_file = Some (File code)
          /\ fs w' !! project_file = None).
  { intros [w' [Hrun [Hrecord Hrest]]]. exists w', [].
    split; [exact Hrun | split; [|exact Hrest]].
    rewrite Hrecord. vm_compute. reflexivity. }
  apply (process_project_records interp w project_file code
           (FileNotFoundError (py "input.txt")));
    try assumption; [reflexivity|].
  intros w1 Hfile1 Hsame. unfold archive.
  rewrite (bind_ok _ _ _ _ _
             (import_student_module_loaded _ _ _ _ _ Hfile1 Hload)).
  apply bind_raised. unfold load_input_prompts. apply bind_raised.
  unfold read_file.
  rewrite (Hsame (py "input.txt"))
    by (intros Heq; apply Hnot_input; symmetry; exact Heq).
  rewrite Hinput. reflexivity.
Qed.

(** X8 at the submission [ann.py] of the classroom without its input file. *)
Lemma missing_input_archived_witness :
  py "ann.py" ∈ python_files classroom_without_input
  /\ fs classroom_without_input !! py "input.txt" = None
  /\ exists (w' : world) (frames : pystr),
      process_project toy_interp (py "ann.py") classroom_without_input
      = (Ok tt, w')
      /\ fs w' !! py "ann/output.txt"
         = Some (File ((py "Error processing project: [Errno 2] No such file or directory: 'input.txt'" ++ nl)
                         ++ (py "Traceback (most recent call last):" ++ nl)
                         ++ frames
                         ++ (py "FileNotFoundError: [Errno 2] No such file or directory: 'input.txt'" ++ nl))).
Proof.
  assert (Hin : py "ann.py" ∈ python_files classroom_without_input).
  { apply list_elem_of_In. vm_compute. left. reflexivity. }
  split; [exact Hin | split; [vm_compute; reflexivity|]].
  destruct (missing_input_archived toy_interp classroom_without_input
              (py "ann.py") (py "main: greet") greeter Hin)
    as [w' [frames [Hrun [Hrecord _]]]].
  - vm_compute. reflexivity.
  - reflexivity.
  - vm_compute. reflexivity.
  - vm_compute. reflexivity.
  - vm_compute. discriminate.
  - vm_compute. discriminate.
  - left. vm_compute. reflexivity.
  - vm_compute. discriminate.
  - vm_compute. discriminate.
  - exists w', frames. split; [exact Hrun | exact Hrecord].
Defined.

(** ** An exit request while a module loads *)

Lemma create_project_folder_console (project_name folder_name : pystr)
      (w w1 : world) :
  create_project_folder project_name w = (Ok folder_name, w1) ->
  console w1 = console w.
Proof.
  unfold create_project_folder, bind, path_exists, when, ret.
  destruct (exists_in _ _); cbn [negb]; [intros [= _ <-]; reflexivity|].
  unfold makedirs.
  destruct (is_empty _); [discriminate|].
  destruct (exists_in _ _); [discriminate|].
  destruct (existsb _ _); [discriminate|].
  intros [= _ <-]. reflexivity.
Qed.



(** ** The harvest *)

Lemma move_new_files_moves (folder_name : pystr) :
  folder_name <> [] -> no_slash folder_name ->
  forall files : list pystr,
    NoDup files -> Forall no_slash files ->
    forall (lines : list pystr) (w : world),
      fs w !! folder_name = Some Dir ->
      (forall f, f ∈ files -> exists c, fs w !! f = Some (File c)) ->
      (forall f, f ∈ files -> fs w !! (folder_name ++ slash :: f) <> Some Dir) ->
      exists w' : world,
        move_new_files folder_name files lines w = (Ok lines, w')
        /\ (forall f, f ∈ files ->
                      fs w' !! f = None
                      /\ fs w' !! (folder_name ++ slash :: f) = fs w !! f)
        /\ (forall p, p ∉ files ->
                      (forall f, f ∈ files -> p <> folder_name ++ slash :: f) ->
                      fs w' !! p = fs w !! p).
Proof.
  intros Hne Hfolder files.
  induction files as [|f rest IH]; intros Hnodup Hnames lines w Hdir Hfiles Hfree.
  - exists w. split; [reflexivity | split].
    + intros f Hf. inversion Hf.
    + reflexivity.
  - apply NoDup_cons in Hnodup as [Hfresh Hnodup].
    apply Forall_cons in Hnames as [Hf Hnames].
    destruct (Hfiles f (list_elem_of_here _ _)) as [c Hc].
    set (dst := folder_name ++ slash :: f).
    assert (Hdst_f : dst <> f)
      by (intros Heq; exact (no_slash_not_component _ _ _ Hf (eq_sym Heq))).
    assert (Hdst_folder : dst <> folder_name)
      by (intros Heq; exact (no_slash_not_component _ _ _ Hfolder (eq_sym Heq))).
    assert (Hf_folder : f <> folder_name) by (intros Heq; congruence).
    assert (Hmove : shutil_move f (path_join folder_name f) w
                    = (Ok tt, set_fs (fun fm => <[dst := File c]> (delete f fm)) w)).
    { rewrite (path_join_components _ _ Hne Hfolder Hf). fold dst.
      apply shutil_move_file.
      - exact Hc.
      - apply Hfree. apply list_elem_of_here.
      - unfold dst. destruct folder_name; discriminate.
      - unfold parent_is_dir, dst. rewrite (split_components _ _ Hf), Hdir.
        reflexivity. }
    set (w1 := set_fs (fun fm => <[dst := File c]> (delete f fm)) w) in *.
    assert (Hother : forall p, p <> f -> p <> dst -> fs w1 !! p = fs w !! p).
    { intros p Hp Hpd. cbn [w1 fs set_fs].
      rewrite lookup_insert_ne by congruence.
      apply lookup_delete_ne. congruence. }
    assert (Hrest_f : forall g, g ∈ rest -> g <> f)
      by (intros g Hg ->; contradiction).
    assert (Hrest_dst : forall g, g ∈ rest -> g <> dst).
    { intros g Hg. apply no_slash_not_component.
      exact (proj1 (Forall_forall _ _) Hnames g Hg). }
    assert (Hdst_rest : forall g, g ∈ rest -> folder_name ++ slash :: g <> dst).
    { intros g Hg Heq. apply app_inv_head in Heq. injection Heq as ->.
      contradiction. }
    assert (Hf_dsts : forall g, folder_name ++ slash :: g <> f)
      by (intros g Heq; exact (no_slash_not_component _ _ _ Hf (eq_sym Heq))).
    destruct (IH Hnodup Hnames lines w1) as [w' [Hrun [Hmoved Hframe]]].
    + rewrite (Hother _ (not_eq_sym Hf_folder) (not_eq_sym Hdst_folder)).
      exact Hdir.
    + intros g Hg. rewrite (Hother _ (Hrest_f g Hg) (Hrest_dst g Hg)).
      apply Hfiles. apply list_elem_of_further. exact Hg.
    + intros g Hg. rewrite (Hother _ (Hf_dsts g) (Hdst_rest g Hg)).
      apply Hfree. apply list_elem_of_further. exact Hg.
    + exists w'. split; [|split].
      * cbn [move_new_files].
        assert (Hstep : try_except
                          (let* present := path_exists f in
                           let* _ := when present
                                       (shutil_move f (path_join folder_name f)) in
                           ret lines)
                          (fun e => ret (lines ++ [py "Error moving " ++ f
                                                     ++ py ": " ++ exn_str e])) w
                        = (Ok lines, w1)).
        { apply try_except_ok.
          assert (Hpresent : path_exists f w = (Ok true, w))
            by (unfold path_exists, exists_in; rewrite Hc; reflexivity).
          rewrite (bind_ok _ _ _ _ _ Hpresent). unfold when.
          rewrite (bind_ok _ _ _ _ _ Hmove). reflexivity. }
        rewrite (bind_ok _ _ _ _ _ Hstep). exact Hrun.
      * intros g Hg. apply elem_of_cons in Hg as [-> | Hg].
        -- split.
           ++ rewrite Hframe; [|exact Hfresh | intros g Hg; apply not_eq_sym, Hf_dsts].
              cbn [w1 fs set_fs]. rewrite lookup_insert_ne by exact Hdst_f.
              apply lookup_delete_eq.
           ++ rewrite Hframe.
              ** cbn [w1 fs set_fs]. fold dst. rewrite lookup_insert_eq.
                 symmetry. exact Hc.
              ** intros Hin. exact (Hrest_dst _ Hin eq_refl).
              ** intros g Hg Heq. exact (Hdst_rest g Hg (eq_sym Heq)).
        -- destruct (Hmoved g Hg) as [Hgone Hthere]. split; [exact Hgone|].
           rewrite Hthere. exact (Hother _ (Hrest_f g Hg) (Hrest_dst g Hg)).
      * intros p Hp Hpd.
        rewrite Hframe.
        -- apply Hother.
           ++ intros ->. apply Hp. apply list_elem_of_here.
           ++ apply Hpd. apply list_elem_of_here.
        -- intros Hin. apply Hp. apply list_elem_of_further. exact Hin.
        -- intros g Hg. apply Hpd. apply list_elem_of_further. exact Hg.
Qed.

Lemma txt_files_entry (w : world) (f : pystr) :
  f ∈ txt_files w -> no_slash f.
Proof.
  unfold txt_files. intros Hin. apply elem_of_list_to_set in Hin.
  apply list_elem_of_filter in Hin as [_ Hin].
  exact (proj1 (proj2 (listdir_entry w f Hin))).
Qed.

(** X10: the harvest relocates exactly the new text files.  When the folder
    exists, every [.txt] entry of the working directory that was not there
    before the run and is not [input.txt] is a regular file, and no directory
    stands where it goes, then the harvest adds no line to the transcript,
    each such file ends up in the folder with its content and is gone from
    the working directory, [input.txt] stays, and so does every entry that
    was there before the run. *)
Theorem harvest_moves_new_files
        (initial_txt_files : gset pystr) (folder_name : pystr)
        (lines : list pystr) (w : world) :
  folder_name <> [] ->
  no_slash folder_name ->
  fs w !! folder_name = Some Dir ->
  (forall f, f ∈ txt_files w -> f ∉ initial_txt_files -> f <> py "input.txt" ->
             (exists c, fs w !! f = Some (File c))
             /\ fs w !! path_join folder_name f <> Some Dir) ->
  exists w' : world,
    harvest initial_txt_files folder_name lines w = (Ok lines, w')
    /\ (forall f, f ∈ txt_files w -> f ∉ initial_txt_files ->
                  f <> py "input.txt" ->
                  fs w' !! f = None
                  /\ fs w' !! path_join folder_name f = fs w !! f)
    /\ fs w' !! py "input.txt" = fs w !! py "input.txt"
    /\ (forall f, f ∈ initial_txt_files -> no_slash f ->
                  fs w' !! f = fs w !! f).
Proof.
  intros Hne Hfolder Hdir Hnew.
  set (new_txt_files := txt_files w ∖ initial_txt_files ∖ {[py "input.txt"]}).
  assert (Hmember : forall f, (f ∈ elements new_txt_files) <->
                              ((f ∈ txt_files w) /\ (f ∉ initial_txt_files)
                               /\ f <> py "input.txt")).
  { intros f. rewrite elem_of_elements. unfold new_txt_files.
    rewrite !elem_of_difference, elem_of_singleton. tauto. }
  assert (Hnames : Forall no_slash (elements new_txt_files)).
  { apply Forall_forall. intros f Hf. apply Hmember in Hf as [Hf _].
    exact (txt_files_entry w f Hf). }
  destruct (move_new_files_moves folder_name Hne Hfolder
              (elements new_txt_files) (NoDup_elements _) Hnames lines w Hdir)
    as [w' [Hrun [Hmoved Hframe]]].
  - intros f Hf. apply Hmember in Hf as [Hf [Hfresh Hnot_input]].
    exact (proj1 (Hnew f Hf Hfresh Hnot_input)).
  - intros f Hf. pose proof (proj1 (Forall_forall _ _) Hnames f Hf) as Hslash.
    apply Hmember in Hf as [Hf [Hfresh Hnot_input]].
    rewrite <- (path_join_components _ _ Hne Hfolder Hslash).
    exact (proj2 (Hnew f Hf Hfresh Hnot_input)).
  - exists w'. split; [|split; [|split]].
    + unfold harvest. apply try_except_ok. exact Hrun.
    + intros f Hf Hfresh Hnot_input.
      rewrite (path_join_components _ _ Hne Hfolder (txt_files_entry w f Hf)).
      apply Hmoved. apply Hmember. repeat split; assumption.
    + apply Hframe.
      * intros Hin. apply Hmember in Hin as [_ [_ Hin]]. contradiction.
      * intros f _. apply no_slash_not_component.
        apply no_slash_literal. reflexivity.
    + intros f Hf Hslash. apply Hframe.
      * intros Hin. apply Hmember in Hin as [_ [Hin _]]. contradiction.
      * intros g _. apply no_slash_not_component. exact Hslash.
Qed.

(** X10 at a directory where a run into [ann] left [scores.txt] and
    [log.txt] beside the older [notes.txt]. *)
Lemma harvest_moves_new_files_witness :
  fs after_run !! py "ann" = Some Dir
  /\ exists w' : world,
      harvest {[ py "input.txt"; py "notes.txt" ]} (py "ann") [] after_run
      = (Ok [], w')
      /\ fs w' !! py "scores.txt" = None
      /\ fs w' !! py "ann/scores.txt" = Some (File (py "10"))
      /\ fs w' !! py "notes.txt" = Some (File (py "old")).
Proof.
  split; [vm_compute; reflexivity|].
  destruct (harvest_moves_new_files {[ py "input.txt"; py "notes.txt" ]}
              (py "ann") [] after_run)
    as [w' [Hrun [Hmoved [_ Hkept]]]].
  - discriminate.
  - apply no_slash_literal. reflexivity.
  - vm_compute. reflexivity.
  - intros f Hf Hfresh Hnot_input.
    assert (Hcases : f = py "scores.txt" \/ f = py "log.txt").
    { rewrite elem_of_union, !elem_of_singleton in Hfresh.
      unfold txt_files in Hf. apply elem_of_list_to_set in Hf.
      match type of Hf with
      | _ ∈ ?l =>
          let l' := eval vm_compute in l in
          assert (Hl : l = l') by (vm_compute; reflexivity);
          rewrite Hl in Hf; clear Hl
      end.
      apply list_elem_of_In in Hf.
      destruct Hf as [<- | [<- | [<- | [<- | []]]]];
        first [ left; vm_compute; reflexivity
              | right; vm_compute; reflexivity
              | exfalso; apply Hfresh; left; vm_compute; reflexivity
              | exfalso; apply Hfresh; right; vm_compute; reflexivity ]. }
    destruct Hcases as [-> | ->]; split;
      try (eexists; vm_compute; reflexivity); vm_compute; discriminate.
  - assert (Hscores : py "scores.txt" ∈ txt_files after_run).
    { unfold txt_files. apply elem_of_list_to_set, list_elem_of_In.
      vm_compute. repeat ((left; reflexivity) || right). }
    destruct (Hmoved (py "scores.txt") Hscores) as [Hgone Hthere].
    + intros Hin. apply elem_of_union in Hin as [Hin | Hin];
        apply elem_of_singleton in Hin; discriminate Hin.
    + discriminate.
    + exists w'. split; [exact Hrun | split; [exact Hgone | split]].
      * assert (Hpath : path_join (py "ann") (py "scores.txt")
                        = py "ann/scores.txt") by (vm_compute; reflexivity).
        rewrite Hpath in Hthere. rewrite Hthere. vm_compute. reflexivity.
      * rewrite (Hkept (py "notes.txt")).
        -- vm_compute. reflexivity.
        -- apply elem_of_union. right. apply elem_of_singleton. reflexivity.
        -- apply no_slash_literal. reflexivity.
Defined.

(** ** The scripted values *)

Lemma translate_newlines_no_cr_bounded (n : nat) :
  forall s : pystr,
    length s <= n -> Forall (fun c => c <> 13%N) (translate_newlines s).
Proof.
  induction n as [|n IH]; intros s Hlen.
  - destruct s; [constructor | simpl in Hlen; lia].
  - destruct s as [|c r]; [constructor|]. cbn [translate_newlines].
    cbn [length] in Hlen.
    destruct (N.eqb_spec c 13) as [-> | Hc].
    + destruct r as [|d r']; [repeat constructor; discriminate|].
      cbn [length] in Hlen.
      destruct (N.eqb d 10); (constructor; [discriminate|]); apply IH;
        cbn [length]; lia.
    + constructor; [exact Hc|]. apply IH. lia.
Qed.

Lemma translate_newlines_no_cr (s : pystr) :
  Forall (fun c => c <> 13%N) (translate_newlines s).
Proof. exact (translate_newlines_no_cr_bounded (length s) s (le_n _)). Qed.

Lemma readlines_Forall (P : N -> Prop) (s : pystr) :
  Forall P s -> Forall (Forall P) (readlines s).
Proof.
  induction 1 as [|c r Hc Hr IH]; [constructor|]. cbn [readlines].
  destruct (N.eqb c 10).
  - constructor; [repeat constructor; exact Hc | exact IH].
  - destruct (readlines r) as [|l ls]; [repeat constructor; exact Hc|].
    inversion IH; subst. constructor; [constructor; assumption | assumption].
Qed.

Lemma lstrip_Forall (P : N -> Prop) (s : pystr) :
  Forall P s -> Forall P (lstrip s).
Proof.
  induction 1 as [|c r Hc Hr IH]; [constructor|]. cbn [lstrip].
  destruct (isspace c); [exact IH | constructor; assumption].
Qed.

Lemma rstrip_Forall (P : N -> Prop) (s : pystr) :
  Forall P s -> Forall P (rstrip s).
Proof.
  induction 1 as [|c r Hc Hr IH]; [constructor|]. cbn [rstrip].
  destruct (isspace c && is_empty (rstrip r)); [constructor|].
  constructor; assumption.
Qed.

Lemma line_feed_is_last (body a b : pystr) :
  Forall (fun c => c <> 10%N) body ->
  a ++ 10%N :: b = body ++ nl ->
  b = [].
Proof.
  intros Hbody. revert a.
  induction Hbody as [|d body Hd _ IH]; intros a Heq.
  - destruct a as [|c a]; cbn in Heq.
    + injection Heq as <-. reflexivity.
    + injection Heq as _ Heq. destruct a; discriminate.
  - destruct a as [|c a]; cbn in Heq.
    + injection Heq as Heq _. congruence.
    + injection Heq as _ Heq. exact (IH a Heq).
Qed.

Lemma strip_drops_line_feed (line : pystr) :
  text_line line -> Forall (fun c => c <> 10%N) (strip line).
Proof.
  intros [body [Hbody Hline]].
  destruct (strip_sandwich line) as [pre [post [Hsplit [_ [_ [_ Hlast]]]]]].
  apply Forall_forall. intros c Hc ->.
  apply list_elem_of_split in Hc as [e1 [e2 He]].
  destruct Hline as [Hline | [Hline _]].
  - rewrite He in Hsplit. rewrite Hline in Hsplit at 1.
    assert (Hend : e2 ++ post = []).
    { apply (line_feed_is_last body (pre ++ e1) (e2 ++ post) Hbody).
      rewrite Hsplit. rewrite <- !app_assoc. reflexivity. }
    apply app_eq_nil in Hend as [-> _].
    specialize (Hlast 10%N). rewrite He, last_snoc in Hlast.
    specialize (Hlast eq_refl). discriminate Hlast.
  - rewrite He in Hsplit. rewrite Hline in Hsplit at 1.
    rewrite Hsplit in Hbody.
    apply Forall_app in Hbody as [_ Hbody].
    apply Forall_app in Hbody as [Hbody _].
    apply Forall_app in Hbody as [_ Hbody].
    inversion Hbody; congruence.
Qed.

(** X11: no value the input loader returns holds a line feed or a carriage
    return: every entry is a single line. *)
Theorem scripted_values_single_line
        (w w' : world) (entries : list pystr) :
  load_input_prompts w = (Ok entries, w') ->
  Forall single_line entries.
Proof.
  unfold load_input_prompts, bind, read_file, ret.
  destruct (fs w !! py "input.txt") as [[text|]|]; try discriminate.
  intros [= <- _].
  pose proof (readlines_lines (translate_newlines text)) as Hlines.
  pose proof (readlines_Forall _ _ (translate_newlines_no_cr text)) as Hcr.
  induction (readlines (translate_newlines text)) as [|line rest IH];
    [constructor|].
  inversion Hlines; subst. inversion Hcr; subst.
  constructor; [|apply IH; assumption].
  unfold single_line. apply Forall_and. split.
  - apply strip_drops_line_feed. assumption.
  - unfold strip. apply rstrip_Forall, lstrip_Forall. assumption.
Qed.

(** X11 at an input file with a Windows line end. *)
Lemma scripted_values_single_line_witness :
  load_input_prompts (world_with_input (py "5" ++ [13%N; 10%N] ++ py "exit"))
  = (Ok [py "5"; py "exit"],
     world_with_input (py "5" ++ [13%N; 10%N] ++ py "exit"))
  /\ Forall single_line [py "5"; py "exit"].
Proof.
  split; [vm_compute; reflexivity|].
  exact (scripted_values_single_line
           (world_with_input (py "5" ++ [13%N; 10%N] ++ py "exit")) _
           [py "5"; py "exit"] ltac:(vm_compute; reflexivity)).
Defined.

(** ** The results file *)

Lemma splitlines_unbroken (x : pystr) :
  unbroken x -> x <> [] -> splitlines x = [x].
Proof.
  induction 1 as [|c r Hc Hr IH]; intros Hne; [contradiction|].
  cbn [splitlines]. rewrite Hc.
  destruct r as [|d r]; [reflexivity|].
  rewrite IH by discriminate. reflexivity.
Qed.

Lemma splitlines_first_line (x rest : pystr) :
  unbroken x -> splitlines (x ++ 10%N :: rest) = x :: splitlines rest.
Proof.
  induction 1 as [|c r Hc Hr IH]; cbn [app splitlines].
  - destruct rest; reflexivity.
  - rewrite Hc, IH. reflexivity.
Qed.

(** X12: the results file keeps the rows of the transcript apart.  When no
    line of a transcript holds a line boundary and its last line is not
    empty, splitting the text written to [output.txt] into lines gives the
    transcript back. *)
Theorem results_file_round_trip (output : list pystr) :
  Forall unbroken output ->
  last output <> Some [] ->
  splitlines (join nl output) = output.
Proof.
  induction 1 as [|x rest Hx Hrest IH]; intros Hlast; [reflexivity|].
  destruct rest as [|y rest].
  - cbn [join]. apply splitlines_unbroken; [exact Hx|].
    intros ->. apply Hlast. reflexivity.
  - change (join nl (x :: y :: rest)) with (x ++ 10%N :: join nl (y :: rest)).
    rewrite (splitlines_first_line _ _ Hx), IH; [reflexivity|].
    exact Hlast.
Qed.

(** X12 at the transcript of the greeter. *)
Lemma results_file_round_trip_witness :
  last [py "Hello"; py "Name:"; py "Ann"; py "Hi Ann"] <> Some []
  /\ splitlines (join nl [py "Hello"; py "Name:"; py "Ann"; py "Hi Ann"])
     = [py "Hello"; py "Name:"; py "Ann"; py "Hi Ann"].
Proof.
  assert (Hlast : last [py "Hello"; py "Name:"; py "Ann"; py "Hi Ann"] <> Some [])
    by (vm_compute; discriminate).
  split; [exact Hlast|].
  apply results_file_round_trip; [|exact Hlast].
  repeat constructor.
Defined.

(** ** The cursor *)

(** X13: during a run the cursor into the script never moves back and never
    passes the end of the script. *)
Theorem cursor_stays_in_script
        (input_prompts : list pystr) (p : prog) (st : shim) (w : world) :
  builtins_input w = mock_input_fn input_prompts ->
  input_idx st <= length input_prompts ->
  input_idx st <= input_idx (exec p st w).1.2
  /\ input_idx (exec p st w).1.2 <= length input_prompts.
Proof.
  revert st w.
  induction p as [v | e | s k IH | prompt k IH | f k IH | k IH];
    intros st w Hmock Hidx; cbn [exec fst snd]; try (split; [lia | exact Hidx]).
  - match goal with
    | |- context [exec k ?st1 w] => specialize (IH st1 w Hmock)
    end.
    cbn [input_idx] in IH. exact (IH Hidx).
  - rewrite Hmock, mock_input_unfold.
    destruct (input_prompts !! input_idx st) as [value|] eqn:Hlook;
      cbv beta iota zeta.
    + apply lookup_lt_Some in Hlook.
      match goal with
      | |- context [exec (k value) ?st1 w] =>
          specialize (IH value st1 w Hmock)
      end.
      cbn [input_idx] in IH. destruct (IH Hlook) as [Hlow Hhigh].
      split; [lia | exact Hhigh].
    + match goal with
      | |- context [exec (k (py "9")) ?st1 w] =>
          specialize (IH (py "9") st1 w Hmock)
      end.
      cbn [input_idx] in IH. exact (IH Hidx).
  - exact (IH st (set_fs f w) Hmock Hidx).
Qed.

(** X13 at a submission that calls [input] twice against a one-line
    script. *)
Lemma cursor_stays_in_script_witness :
  input_idx blank_shim <= length [py "Ann"]
  /\ input_idx
       (exec (Ask (py "a") (fun _ => Ask (py "b") (fun _ => Return PyNone)))
             blank_shim
             (set_builtins_input (mock_input_fn [py "Ann"]) quiet_world)).1.2
     <= length [py "Ann"].
Proof.
  split; [apply Nat.le_0_l|].
  exact (proj2 (cursor_stays_in_script [py "Ann"]
                  (Ask (py "a") (fun _ => Ask (py "b") (fun _ => Return PyNone)))
                  blank_shim
                  (set_builtins_input (mock_input_fn [py "Ann"]) quiet_world)
                  eq_refl (Nat.le_0_l _))).
Defined.

(** ** Archiving a submission that ran *)

(** Lines 145-163 once the capture has returned: the transcript is written
    and the source moved. *)
Lemma archive_after_capture
      (interp : pystr -> load_result) (w1 w2 : world)
      (project_file folder_name code code' text : pystr) (m : module)
      (output : list pystr) :
  folder_name <> [] -> no_slash folder_name -> no_slash project_file ->
  endswith (py ".py") project_file = true ->
  fs w1 !! project_file = Some (File code) ->
  interp code = Loaded m ->
  fs w1 !! py "input.txt" = Some (File text) ->
  capture_output_and_files
    m (map strip (readlines (translate_newlines text))) folder_name w1
  = (Ok output, w2) ->
  fs w2 !! folder_name = Some Dir ->
  fs w2 !! project_file = Some (File code') ->
  fs w2 !! path_join folder_name (py "output.txt") <> Some Dir ->
  fs w2 !! path_join folder_name project_file <> Some Dir ->
  exists w' : world,
    archive interp project_file folder_name w1 = (Ok tt, w')
    /\ fs w' !! path_join folder_name (py "output.txt")
       = Some (File (join nl output))
    /\ fs w' !! path_join folder_name project_file = Some (File code')
    /\ fs w' !! project_file = None
    /\ console w'
       = console w2 ++ [py "Successfully processed " ++ project_file].
Proof.
  intros Hne Hfolder Hpf Hpy Hfile Hload Hinput Hcapture
         Hdir Hfile2 Hout Hdst.
  assert (Houtname : no_slash (py "output.txt"))
    by (apply no_slash_literal; reflexivity).
  rewrite (path_join_components _ _ Hne Hfolder Houtname) in *.
  rewrite (path_join_components _ _ Hne Hfolder Hpf) in *.
  set (out := folder_name ++ slash :: py "output.txt") in *.
  set (dst := folder_name ++ slash :: project_file) in *.
  assert (Hout_folder : out <> folder_name)
    by (intros Heq; exact (no_slash_not_component _ _ _ Hfolder (eq_sym Heq))).
  assert (Hpf_out : out <> project_file)
    by (intros Heq; exact (no_slash_not_component _ _ _ Hpf (eq_sym Heq))).
  assert (Hpf_dst : dst <> project_file)
    by (intros Heq; exact (no_slash_not_component _ _ _ Hpf (eq_sym Heq))).
  assert (Hout_dst : dst <> out).
  { intros Heq. apply app_inv_head in Heq. injection Heq as Heq.
    rewrite Heq in Hpy. discriminate Hpy. }
  assert (H1 : import_student_module interp project_file w1 = (Ok m, w1))
    by exact (import_student_module_loaded _ _ _ _ _ Hfile Hload).
  assert (H2 : load_input_prompts w1
               = (Ok (map strip (readlines (translate_newlines text))), w1)).
  { unfold load_input_prompts, bind, read_file. rewrite Hinput. reflexivity. }
  assert (H4 : write_file out (join nl output) w2
               = (Ok tt, set_fs (fun fm => <[out := File (join nl output)]> fm) w2)).
  { apply write_file_ok.
    - exact Hout.
    - unfold out. destruct folder_name; discriminate.
    - unfold parent_is_dir, out. rewrite (split_components _ _ Houtname), Hdir.
      reflexivity. }
  set (w3 := set_fs (fun fm => <[out := File (join nl output)]> fm) w2) in *.
  assert (Hpf3 : fs w3 !! project_file = Some (File code')).
  { cbn [w3 fs set_fs]. rewrite lookup_insert_ne by exact Hpf_out. exact Hfile2. }
  assert (H5 : path_exists project_file w3 = (Ok true, w3)).
  { unfold path_exists, exists_in. rewrite Hpf3. reflexivity. }
  assert (H6 : shutil_move project_file dst w3
               = (Ok tt, set_fs (fun fm => <[dst := File code']> (delete project_file fm)) w3)).
  { apply shutil_move_file.
    - exact Hpf3.
    - cbn [w3 fs set_fs]. rewrite lookup_insert_ne by congruence. exact Hdst.
    - unfold dst. destruct folder_name; discriminate.
    - unfold parent_is_dir, dst. rewrite (split_components _ _ Hpf).
      cbn [w3 fs set_fs]. rewrite lookup_insert_ne by exact Hout_folder.
      rewrite Hdir. reflexivity. }
  eexists. split; [|split; [|split; [|split]]].
  - unfold archive.
    rewrite (bind_ok _ _ _ _ _ H1), (bind_ok _ _ _ _ _ H2),
      (bind_ok _ _ _ _ _ Hcapture).
    cbv zeta.
    rewrite (path_join_components _ _ Hne Hfolder Houtname).
    rewrite (path_join_components _ _ Hne Hfolder Hpf).
    fold out dst.
    rewrite (bind_ok _ _ _ _ _ H4), (bind_ok _ _ _ _ _ H5).
    unfold when. rewrite (bind_ok _ _ _ _ _ H6). reflexivity.
  - cbn [fs w3 set_fs].
    rewrite lookup_insert_ne by exact Hout_dst.
    rewrite lookup_delete_ne by congruence.
    apply lookup_insert_eq.
  - cbn [fs set_fs]. apply lookup_insert_eq.
  - cbn [fs set_fs]. rewrite lookup_insert_ne by exact Hpf_dst.
    apply lookup_delete_eq.
  - reflexivity.
Qed.

(** X14: what the capture returns is what the results file holds.  For a
    discovered submission whose folder is created, whose module loads and
    whose capture returns a transcript, where the file name and every line
    of the transcript are text the console and the file can encode, with the
    folder and the source still in place after the run and no directory
    where the results file and the moved source go, [process_project]
    returns normally, [output.txt] in the folder holds the lines of the
    transcript joined by line feeds, the source is moved into the folder,
    and the success line is printed. *)
Theorem transcript_archived
        (interp : pystr -> load_result) (w w1 w2 : world)
        (project_file code code' text : pystr) (m : module)
        (output : list pystr) :
  let folder_name := replace (py ".py") [] project_file in
  project_file ∈ python_files w ->
  folder_name <> [] ->
  create_project_folder project_file w = (Ok folder_name, w1) ->
  fs w1 !! project_file = Some (File code) ->
  interp code = Loaded m ->
  fs w1 !! py "input.txt" = Some (File text) ->
  capture_output_and_files
    m (map strip (readlines (translate_newlines text))) folder_name w1
  = (Ok output, w2) ->
  plain project_file ->
  Forall plain output ->
  fs w2 !! folder_name = Some Dir ->
  fs w2 !! project_file = Some (File code') ->
  fs w2 !! path_join folder_name (py "output.txt") <> Some Dir ->
  fs w2 !! path_join folder_name project_file <> Some Dir ->
  exists w' : world,
    process_project interp project_file w = (Ok tt, w')
    /\ fs w' !! path_join folder_name (py "output.txt")
       = Some (File (join nl output))
    /\ fs w' !! path_join folder_name project_file = Some (File code')
    /\ fs w' !! project_file = None
    /\ console w'
       = console w2 ++ [py "Successfully processed " ++ project_file].
Proof.
  intros folder_name Hin Hne Hcreate Hfile Hload Hinput Hcapture _ _
         Hdir Hfile2 Hout Hdst.
  apply python_files_entry in Hin as [Hpy [_ Hin]].
  apply listdir_entry in Hin as [_ [Hpf _]].
  pose proof (folder_name_no_slash _ Hpf) as Hfolder. fold folder_name in Hfolder.
  destruct (archive_after_capture interp w1 w2 project_file folder_name
              code code' text m output Hne Hfolder Hpf Hpy Hfile Hload Hinput
              Hcapture Hdir Hfile2 Hout Hdst)
    as [w' [Hrun Hrest]].
  exists w'. split; [|exact Hrest].
  unfold process_project. rewrite Hcreate. apply try_except_ok. exact Hrun.
Qed.

(** X14 at the greeter alone in its directory. *)
Lemma transcript_archived_witness :
  py "ann.py" ∈ python_files lone_greeter
  /\ toy_interp (py "main: greet") = Loaded greeter
  /\ exists w' : world,
      process_project toy_interp (py "ann.py") lone_greeter = (Ok tt, w')
      /\ fs w' !! py "ann/output.txt"
         = Some (File (join nl [py "Hello"; py "Name:"; py "Ann"; py "Hi Ann"])).
Proof.
  assert (Hin : py "ann.py" ∈ python_files lone_greeter).
  { apply list_elem_of_In. vm_compute. repeat ((left; reflexivity) || right). }
  split; [exact Hin | split; [reflexivity|]].
  destruct (transcript_archived
              toy_interp lone_greeter
              (create_project_folder (py "ann.py") lone_greeter).2
              (capture_output_and_files greeter [py "Ann"] (py "ann")
                 (create_project_folder (py "ann.py") lone_greeter).2).2
              (py "ann.py") (py "main: greet") (py "main: greet")
              (py "Ann" ++ nl) greeter
              [py "Hello"; py "Name:"; py "Ann"; py "Hi Ann"] Hin)
    as [w' [Hrun [Hrecord _]]].
  - vm_compute. discriminate.
  - vm_compute. reflexivity.
  - vm_compute. reflexivity.
  - reflexivity.
  - vm_compute. reflexivity.
  - vm_compute. reflexivity.
  - vm_compute. reflexivity.
  - repeat constructor.
  - vm_compute. reflexivity.
  - vm_compute. reflexivity.
  - vm_compute. discriminate.
  - vm_compute. discriminate.
  - exists w'. split; [exact Hrun | exact Hrecord].
Defined.

(** A run of steps that only write changes nothing but the buffer. *)
Lemma exec_perform_emits (es : list effect) (k : prog) :
  only_emits es ->
  forall (st : shim) (w : world),
    exec (perform es k) st w
    = exec k {| captured_lines := captured_lines st;
                input_idx := input_idx st;
                stdout_buffer := stdout_buffer st ++ written es |} w.
Proof.
  induction es as [|[s|f] rest IH]; intros Hes st w.
  - cbn [perform written]. rewrite app_nil_r. destruct st; reflexivity.
  - inversion Hes as [|? ? _ Hrest]; subst.
    cbn [perform exec written]. rewrite (IH Hrest).
    cbn [captured_lines input_idx stdout_buffer].
    rewrite <- app_assoc. reflexivity.
  - inversion Hes as [|? ? Hf _]. contradiction.
Qed.

(** The capture of a [main] that only prints and returns: the lines it
    printed, and no file touched. *)
Lemma capture_print_only (m : module) (before : list effect) (v : pyval)
      (input_prompts : list pystr) (folder_name : pystr) (w : world) :
  mod_main m = Some (perform before (Return v)) ->
  only_emits before ->
  thread_fault w = None ->
  exists w' : world,
    capture_output_and_files m input_prompts folder_name w
    = (Ok (splitlines (written before)), w')
    /\ fs w' = fs w /\ console w' = console w.
Proof.
  intros Hmain Hes Hstart.
  destruct (capture_transcript m _ input_prompts folder_name w Hmain Hstart)
    as [extra [w' [Hharvest [Hcapture _]]]].
  rewrite Hcapture. clear Hcapture.
  rewrite dialogue_perform in Hharvest |- *.
  rewrite (exec_perform_emits _ _ Hes) in Hharvest |- *.
  cbn [dialogue exec fst snd flat_map error_lines app] in Hharvest |- *.
  set (w3 := set_builtins_input (builtins_input w)
               (set_builtins_input (mock_input_fn input_prompts) w)) in *.
  rewrite <- (txt_files_fs w w3 eq_refl) in Hharvest.
  rewrite harvest_nothing_new in Hharvest.
  injection Hharvest as Hlines Hw.
  exists w'. rewrite <- Hlines, <- Hw. repeat split.
Qed.

(** X15: what a submission prints is what its record holds.  For a
    discovered submission that loads and whose [main] only writes to standard
    output and returns, where the file name and the text written are text
    the console and the file can encode, with the input file present,
    threads starting, and nothing in the way of the folder,
    [process_project] returns normally,
    [output.txt] in the folder holds the printed text cut into lines and
    joined by line feeds, the source is moved into the folder, and the only
    line printed on the console is the success line. *)
Theorem printed_lines_archived
        (interp : pystr -> load_result) (w : world)
        (project_file code text : pystr) (m : module)
        (before : list effect) (v : pyval) :
  let folder_name := replace (py ".py") [] project_file in
  project_file ∈ python_files w ->
  fs w !! project_file = Some (File code) ->
  interp code = Loaded m ->
  mod_main m = Some (perform before (Return v)) ->
  only_emits before ->
  plain project_file ->
  plain (written before) ->
  thread_fault w = None ->
  fs w !! py "input.txt" = Some (File text) ->
  folder_name <> [] ->
  fs w !! folder_name = None \/ fs w !! folder_name = Some Dir ->
  fs w !! path_join folder_name (py "output.txt") <> Some Dir ->
  fs w !! path_join folder_name project_file <> Some Dir ->
  exists w' : world,
    process_project interp project_file w = (Ok tt, w')
    /\ fs w' !! path_join folder_name (py "output.txt")
       = Some (File (join nl (splitlines (written before))))
    /\ fs w' !! path_join folder_name project_file = Some (File code)
    /\ fs w' !! project_file = None
    /\ console w'
       = console w ++ [py "Successfully processed " ++ project_file].
Proof.
  intros folder_name Hin Hfile Hload Hmain Hes _ _ Hstart Hinput Hne Hstate
         Hout Hdst.
  apply python_files_entry in Hin as [Hpy [_ Hin]].
  apply listdir_entry in Hin as [_ [Hpf _]].
  pose proof (folder_name_no_slash _ Hpf) as Hfolder. fold folder_name in Hfolder.
  assert (Houtname : no_slash (py "output.txt"))
    by (apply no_slash_literal; reflexivity).
  assert (Hpf_folder : project_file <> folder_name)
    by (intros Heq; rewrite Heq in Hfile; destruct Hstate; congruence).
  assert (Hinput_folder : py "input.txt" <> folder_name)
    by (intros Heq; rewrite Heq in Hinput; destruct Hstate; congruence).
  assert (Hout_folder : path_join folder_name (py "output.txt") <> folder_name).
  { rewrite (path_join_components _ _ Hne Hfolder Houtname).
    intros Heq. exact (no_slash_not_component _ _ _ Hfolder (eq_sym Heq)). }
  assert (Hdst_folder : path_join folder_name project_file <> folder_name).
  { rewrite (path_join_components _ _ Hne Hfolder Hpf).
    intros Heq. exact (no_slash_not_component _ _ _ Hfolder (eq_sym Heq)). }
  destruct (create_project_folder_ready project_file w Hne Hfolder Hstate)
    as [w1 [Hcreate [Hdir Hsame]]].
  fold folder_name in Hcreate, Hdir, Hsame.
  assert (Hstart1 : thread_fault w1 = thread_fault w).
  { revert Hcreate. unfold create_project_folder, bind, path_exists, when, ret.
    destruct (exists_in _ _); cbn [negb]; [intros [= <-]; reflexivity|].
    unfold makedirs.
    repeat match goal with |- context [if ?b then _ else _] => destruct b end;
      intros [= <-]; reflexivity. }
  destruct (capture_print_only m before v
              (map strip (readlines (translate_newlines text))) folder_name w1
              Hmain Hes) as [w2 [Hcapture [Hfs2 Hconsole2]]].
  { rewrite Hstart1. exact Hstart. }
  destruct (archive_after_capture interp w1 w2 project_file folder_name
              code code text m (splitlines (written before))
              Hne Hfolder Hpf Hpy) as [w' [Hrun [H1 [H2 [H3 H4]]]]];
    try assumption.
  - rewrite (Hsame _ Hpf_folder). exact Hfile.
  - rewrite (Hsame _ Hinput_folder). exact Hinput.
  - rewrite Hfs2. exact Hdir.
  - rewrite Hfs2, (Hsame _ Hpf_folder). exact Hfile.
  - rewrite Hfs2, (Hsame _ Hout_folder). exact Hout.
  - rewrite Hfs2, (Hsame _ Hdst_folder). exact Hdst.
  - exists w'. split; [|split; [exact H1 | split; [exact H2 | split; [exact H3|]]]].
    + unfold process_project. rewrite Hcreate. apply try_except_ok. exact Hrun.
    + rewrite H4, Hconsole2,
        (create_project_folder_console _ _ _ _ Hcreate). reflexivity.
Qed.

(** X15 at a submission that prints one line, in the place of [ann.py]. *)
Lemma printed_lines_archived_witness :
  py "ann.py" ∈ python_files lone_greeter
  /\ only_emits [EEmit (py "working" ++ nl)]
  /\ exists w' : world,
      process_project (always_loads worker_bee) (py "ann.py") lone_greeter
      = (Ok tt, w')
      /\ fs w' !! py "ann/output.txt" = Some (File (py "working"))
      /\ console w' = [py "Successfully processed ann.py"].
Proof.
  assert (Hin : py "ann.py" ∈ python_files lone_greeter).
  { apply list_elem_of_In. vm_compute. repeat ((left; reflexivity) || right). }
  assert (Hes : only_emits [EEmit (py "working" ++ nl)])
    by (repeat constructor).
  split; [exact Hin | split; [exact Hes|]].
  destruct (printed_lines_archived
              (always_loads worker_bee) lone_greeter
              (py "ann.py") (py "main: greet") (py "Ann" ++ nl) worker_bee
              [EEmit (py "working" ++ nl)] PyNone Hin)
    as [w' [Hrun [Hrecord [_ [_ Hconsole]]]]].
  - vm_compute. reflexivity.
  - reflexivity.
  - reflexivity.
  - exact Hes.
  - vm_compute. reflexivity.
  - vm_compute. reflexivity.
  - reflexivity.
  - vm_compute. reflexivity.
  - vm_compute. discriminate.
  - left. vm_compute. reflexivity.
  - vm_compute. discriminate.
  - vm_compute. discriminate.
  - exists w'. split; [exact Hrun | split; [exact Hrecord | exact Hconsole]].
Defined.

(** ** Submissions the harness cannot archive *)

(** X16: a submission whose name consists of nothing but occurrences of
    [.py] has the empty folder name.  Creating the folder fails, the handler
    then finds [folder_name] unbound, and nothing is archived: whatever the
    submission is, [process_project] returns normally, no file changes, and
    the console gets the two failure lines. *)
Theorem nameless_submission_unrecorded
        (interp : pystr -> load_result) (w : world) (project_file : pystr) :
  replace (py ".py") [] project_file = [] ->
  fs w !! [] = None ->
  exists w' : world,
    process_project interp project_file w = (Ok tt, w')
    /\ fs w' = fs w
    /\ console w'
       = console w
         ++ [py "Failed to process " ++ project_file
                ++ py ": [Errno 2] No such file or directory: ''";
             py "Failed to handle error case: "
                ++ exn_str unbound_folder_name].
Proof.
  intros Hname Hroot.
  assert (Hcreate : create_project_folder project_file w
                    = (Exc (FileNotFoundError []), w)).
  { unfold create_project_folder. rewrite Hname. cbv zeta.
    unfold bind, path_exists, exists_in. rewrite Hroot. reflexivity. }
  unfold process_project. rewrite Hcreate.
  cbn [FileNotFoundError os_error exn_is_exception].
  unfold archive_failure.
  rewrite (bind_ok (print _) _ w _ tt eq_refl).
  rewrite (bind_ok (print_exc _) _ _ _ tt eq_refl).
  erewrite (try_except_caught _ _ _ _ unbound_folder_name);
    [|apply bind_raised; reflexivity | reflexivity].
  eexists. split; [reflexivity | split; [reflexivity|]].
  cbn [print print_exc console snd exn_str quoted].
  rewrite <- app_assoc. reflexivity.
Qed.

(** X16 at a directory whose only submission is named [.py]. *)
Lemma nameless_submission_unrecorded_witness :
  py ".py" ∈ python_files nameless_classroom
  /\ exists w' : world,
      process_project toy_interp (py ".py") nameless_classroom = (Ok tt, w')
      /\ fs w' = fs nameless_classroom
      /\ length (console w') = 2.
Proof.
  split.
  { apply list_elem_of_In. vm_compute. repeat ((left; reflexivity) || right). }
  destruct (nameless_submission_unrecorded toy_interp nameless_classroom
              (py ".py")) as [w' [Hrun [Hfs Hconsole]]].
  - vm_compute. reflexivity.
  - vm_compute. reflexivity.
  - exists w'. split; [exact Hrun | split; [exact Hfs|]].
    rewrite Hconsole. reflexivity.
Defined.






(** ** The transcript during a run *)

Lemma mock_input_appends (input_prompts : list pystr) (prompt : pystr)
      (st : shim) :
  captured_lines st
  `prefix_of` captured_lines (mock_input input_prompts prompt st).2.
Proof.
  unfold mock_input. cbv zeta.
  repeat match goal with
         | |- context [if ?b then _ else _] => destruct b
         end;
    cbn [snd captured_lines extend_lines];
    repeat (etransitivity; [|apply prefix_app_r; reflexivity]);
    reflexivity.
Qed.

(** X19: the transcript is only ever appended to while [main] runs:
    whatever the submission does and whatever the capture state it starts
    from, the lines recorded so far are the first lines of the transcript
    when the run ends or is abandoned. *)
Theorem transcript_only_grows (p : prog) (st : shim) (w : world) :
  captured_lines st `prefix_of` captured_lines (exec p st w).1.2.
Proof.
  revert st w.
  induction p as [v|e|s k IH|prompt k IH|f k IH|k IH]; intros st w;
    cbn [exec fst snd]; try reflexivity.
  - exact (IH _ w).
  - destruct (builtins_input w) as [|input_prompts]; [reflexivity|].
    pose proof (mock_input_appends input_prompts prompt st) as Hstep.
    destruct (mock_input input_prompts prompt st) as [value st'].
    etransitivity; [exact Hstep | apply IH].
  - apply IH.
Qed.
